(** * Daily US Treasury yield-curve analysis: model and properties

    A shallow embedding of [treasury_analysis_daily.py].  Yields are binary64
    floats (pandas [float64]; a missing cell is NaN), tables are row lists
    over an ordered column list, and the three stages of the script
    ([get_treasury_data], [analyze_rates], [plot_curve], driven by [main])
    run in a small state monad that threads the clock readings and the trace
    of provider requests, printed lines and file writes. *)

From Stdlib Require Import ZArith List Bool Lia Floats Ascii String Sorted Permutation.
From stdpp Require Import base option list strings gmap.
Import ListNotations.

Set Default Proof Using "Type".
Local Open Scope Z_scope.

(* ===================================================================== *)
(** ** float64 cells *)
(* ===================================================================== *)

Module F64.

(** [pd.isna] / [pd.notna] on a float cell. *)
Definition isna (x : float) : bool := PrimFloat.is_nan x.
Definition notna (x : float) : bool := negb (isna x).

(** A yield that is an ordinary number: neither NaN nor an infinity. *)
Definition finite (x : float) : bool := PrimFloat.is_finite x.

(** [np.maximum] and [np.minimum] on operands that are not NaN. *)
Definition maximum (a b : float) : float := if PrimFloat.leb b a then a else b.
Definition minimum (a b : float) : float := if PrimFloat.leb a b then a else b.

(** [ndarray.max()] / [ndarray.min()]: a left-to-right reduction seeded
    with the first element. *)
Definition reduce (op : float -> float -> float) (xs : list float) : option float :=
  match xs with
  | [] => None
  | x :: r => Some (fold_left op r x)
  end.

(** [ndarray.sum()]: the cells added one after the other. *)
Definition sum (xs : list float) : float :=
  fold_left PrimFloat.add xs PrimFloat.zero.

(** Insertion sort by [<=], the order [np.sort] gives on NaN-free data. *)
Fixpoint insert (x : float) (l : list float) : list float :=
  match l with
  | [] => [x]
  | y :: r => if PrimFloat.leb x y then x :: y :: r else y :: insert x r
  end.

Definition sort (l : list float) : list float := fold_right insert [] l.

Definition of_nat (n : nat) : float := PrimFloat.of_uint63 (Uint63.of_Z (Z.of_nat n)).

End F64.

(* ===================================================================== *)
(** ** Dates and [strftime] *)
(* ===================================================================== *)

(** A [datetime]: the proleptic Gregorian ordinal of the day (as
    [date.toordinal]) and the second of the day. *)
Record datetime := mkDatetime { toordinal : Z; second_of_day : Z }.

(** Index entries of a yield table are midnight timestamps, kept as day
    ordinals. *)
Definition Timestamp := Z.

(** [end_date - timedelta(days=n)]. *)
Definition minus_days (d : datetime) (n : Z) : datetime :=
  {| toordinal := toordinal d - n; second_of_day := second_of_day d |}.

Module Calendar.

Definition DI400Y := 146097.
Definition DI100Y := 36524.
Definition DI4Y := 1461.

Definition DAYS_IN_MONTH (m : Z) : Z :=
  match m with
  | 1 => 31 | 2 => 28 | 3 => 31 | 4 => 30 | 5 => 31 | 6 => 30
  | 7 => 31 | 8 => 31 | 9 => 30 | 10 => 31 | 11 => 30 | 12 => 31
  | _ => 0
  end.

Definition DAYS_BEFORE_MONTH (m : Z) : Z :=
  match m with
  | 1 => 0 | 2 => 31 | 3 => 59 | 4 => 90 | 5 => 120 | 6 => 151
  | 7 => 181 | 8 => 212 | 9 => 243 | 10 => 273 | 11 => 304 | 12 => 334
  | _ => 0
  end.

Definition b2z (b : bool) : Z := if b then 1 else 0.

(** CPython's [_ord2ymd]: ordinal to (year, month, day). *)
Definition ord2ymd (n0 : Z) : Z * Z * Z :=
  let n := n0 - 1 in
  let n400 := n / DI400Y in
  let n := n mod DI400Y in
  let year := n400 * 400 + 1 in
  let n100 := n / DI100Y in
  let n := n mod DI100Y in
  let n4 := n / DI4Y in
  let n := n mod DI4Y in
  let n1 := n / 365 in
  let n := n mod 365 in
  let year := year + n100 * 100 + n4 * 4 + n1 in
  if (n1 =? 4) || (n100 =? 4) then (year - 1, 12, 31)
  else
    let leapyear := (n1 =? 3) && (negb (n4 =? 24) || (n100 =? 3)) in
    let month := Z.shiftr (n + 50) 5 in
    let preceding := DAYS_BEFORE_MONTH month + b2z ((2 <? month) && leapyear) in
    if n <? preceding then
      let month := month - 1 in
      let preceding := preceding - (DAYS_IN_MONTH month + b2z ((month =? 2) && leapyear)) in
      (year, month, n - preceding + 1)
    else (year, month, n - preceding + 1).

Definition digit (d : Z) : ascii := ascii_of_nat (48 + Z.to_nat (d mod 10)).

Definition pad2 (n : Z) : string :=
  String (digit (n / 10)) (String (digit n) EmptyString).

Definition pad4 (n : Z) : string :=
  String (digit (n / 1000)) (String (digit (n / 100)) (pad2 n)).

(** [strftime('%Y%m%d')] *)
Definition strftime_Ymd_compact (ord : Z) : string :=
  let '(y, m, d) := ord2ymd ord in pad4 y +:+ pad2 m +:+ pad2 d.

(** [strftime('%Y-%m-%d')] *)
Definition strftime_Ymd (ord : Z) : string :=
  let '(y, m, d) := ord2ymd ord in pad4 y +:+ "-" +:+ pad2 m +:+ "-" +:+ pad2 d.

(** [strftime('%Y-%m-%d %H:%M:%S')] *)
Definition strftime_YmdHMS (t : datetime) : string :=
  let s := second_of_day t in
  strftime_Ymd (toordinal t) +:+ " " +:+ pad2 (s / 3600) +:+ ":" +:+
  pad2 (s / 60 mod 60) +:+ ":" +:+ pad2 (s mod 60).

End Calendar.

(* ===================================================================== *)
(** ** Series and data frames (the pandas operations the script uses) *)
(* ===================================================================== *)

(** A date-indexed [float64] series, as [pdr.get_data_fred(code, ...)[code]]
    returns it (FRED observations arrive in ascending date order). *)
Definition Series := list (Timestamp * float).

(** A data frame: ordered column labels and date-indexed rows, each row
    holding one cell per column. *)
Record DataFrame := mkDataFrame {
  columns : list string;
  rows : list (Timestamp * list float)
}.

Module Pandas.

(** [pd.DataFrame()] *)
Definition empty_frame : DataFrame := {| columns := []; rows := [] |}.

(** [df.empty]: true when either axis has length zero. *)
Definition empty (df : DataFrame) : bool :=
  match columns df, rows df with
  | [], _ | _, [] => true
  | _, _ => false
  end.

(** [len(df)] and [len(df.columns)]. *)
Definition len (df : DataFrame) : nat := length (rows df).
Definition ncols (df : DataFrame) : nat := length (columns df).

(** Value of a series at a date; NaN where the series has no entry. *)
Fixpoint series_at (s : Series) (d : Timestamp) : float :=
  match s with
  | [] => PrimFloat.nan
  | (d', v) :: r => if d' =? d then v else series_at r d
  end.

(** Sorted union of date indexes. *)
Fixpoint insert_date (d : Timestamp) (l : list Timestamp) : list Timestamp :=
  match l with
  | [] => [d]
  | x :: r => if d <? x then d :: x :: r
              else if d =? x then x :: r
              else x :: insert_date d r
  end.

Definition union_index (ss : list Series) : list Timestamp :=
  fold_left (fun acc s => fold_left (fun a p => insert_date (fst p) a) s acc) ss [].

(** [pd.DataFrame(data)] for a dict of series: one column per key in
    insertion order, rows aligned on the union of the indexes. *)
Definition DataFrame_of_dict (data : list (string * Series)) : DataFrame :=
  {| columns := map fst data;
     rows := map (fun d => (d, map (fun kv => series_at (snd kv) d) data))
                 (union_index (map snd data)) |}.

(** [df.dropna(how='all')]: keep the rows that have a cell which is not NaN. *)
Definition dropna_all (df : DataFrame) : DataFrame :=
  {| columns := columns df;
     rows := List.filter (fun r => existsb F64.notna (snd r)) (rows df) |}.

(** [df.tail(n)] *)
Definition tail (n : nat) (df : DataFrame) : DataFrame :=
  {| columns := columns df;
     rows := skipn (length (rows df) - n) (rows df) |}.

(** Position of a label in an index. *)
Fixpoint get_loc (name : string) (labels : list string) : option nat :=
  match labels with
  | [] => None
  | c :: r => if String.eqb c name then Some O
              else option_map S (get_loc name r)
  end.

(** [name in index] *)
Definition contains (labels : list string) (name : string) : bool :=
  match get_loc name labels with Some _ => true | None => false end.

(** A label-indexed series such as [df.iloc[-1]] or [df.max()]: the
    labels with their cells, in order. *)
Definition Row := list (string * float).

Definition labels (r : Row) : list string := map fst r.

(** [df.iloc[-1]] (the frame is not empty where the script takes it). *)
Definition iloc_last (df : DataFrame) : Row :=
  match last (rows df) with
  | Some r => combine (columns df) (snd r)
  | None => []
  end.

(** [df.index[-1]] *)
Definition index_last (df : DataFrame) : Timestamp :=
  match last (rows df) with
  | Some r => fst r
  | None => 0
  end.

(** [row.get(name, None)] *)
Fixpoint get (r : Row) (name : string) : option float :=
  match r with
  | [] => None
  | (k, v) :: rest => if String.eqb k name then Some v else get rest name
  end.

(** [row[name]], where the script has checked [name in row.index]. *)
Definition getitem (r : Row) (name : string) : float :=
  match get r name with Some v => v | None => PrimFloat.nan end.

(** The cells of the column at position [i], top to bottom. *)
Definition column_at (df : DataFrame) (i : nat) : list float :=
  map (fun r => nth i (snd r) PrimFloat.nan) (rows df).

(** [df[name]] as a date-indexed series. *)
Definition getcol (df : DataFrame) (name : string) : Series :=
  match get_loc name (columns df) with
  | Some i => map (fun r => (fst r, nth i (snd r) PrimFloat.nan)) (rows df)
  | None => []
  end.

(** NaN-skipping reductions of one column ([nanops.nanmax] and friends):
    NaN cells are replaced by the reduction's neutral fill, the result is
    NaN when no cell is present. *)
Definition count (xs : list float) : nat := length (List.filter F64.notna xs).

Definition fillna (fill : float) (xs : list float) : list float :=
  map (fun x => if F64.isna x then fill else x) xs.

Definition nanmax (xs : list float) : float :=
  if (count xs =? 0)%nat then PrimFloat.nan
  else match F64.reduce F64.maximum (fillna PrimFloat.neg_infinity xs) with
       | Some m => m
       | None => PrimFloat.nan
       end.

Definition nanmin (xs : list float) : float :=
  if (count xs =? 0)%nat then PrimFloat.nan
  else match F64.reduce F64.minimum (fillna PrimFloat.infinity xs) with
       | Some m => m
       | None => PrimFloat.nan
       end.

(** [np.median] of the present cells: the middle element of the sorted
    values, or the mean of the two middle ones. *)
Definition nanmedian (xs : list float) : float :=
  let ys := F64.sort (List.filter F64.notna xs) in
  let n := length ys in
  if (n =? 0)%nat then PrimFloat.nan
  else if Nat.even n
       then PrimFloat.div
              (PrimFloat.add (nth (n / 2 - 1) ys PrimFloat.nan) (nth (n / 2) ys PrimFloat.nan))
              (F64.of_nat 2)
       else nth (n / 2) ys PrimFloat.nan.

(** [nanops.nanmean]: sum of the present cells over their count. *)
Definition nanmean (xs : list float) : float :=
  if (count xs =? 0)%nat then PrimFloat.nan
  else PrimFloat.div (F64.sum (fillna PrimFloat.zero xs)) (F64.of_nat (count xs)).

(** Column-wise reduction of a frame: one value per column label. *)
Definition reduce_columns (f : list float -> float) (df : DataFrame) : Row :=
  combine (columns df) (map (fun i => f (column_at df i)) (seq 0 (length (columns df)))).

Definition max (df : DataFrame) : Row := reduce_columns nanmax df.
Definition min (df : DataFrame) : Row := reduce_columns nanmin df.
Definition median (df : DataFrame) : Row := reduce_columns nanmedian df.
Definition mean (df : DataFrame) : Row := reduce_columns nanmean df.

End Pandas.

(* ===================================================================== *)
(** ** The environment and the effects of a run *)
(* ===================================================================== *)

(** A raised exception, by its message ([str(e)]). *)
Definition Exception := string.

(** What the run cannot decide by itself: the successive readings of
    [datetime.now()], the provider's answer to
    [pdr.get_data_fred(code, start, end)[code]] (a series, or the exception
    the [try] block catches), and whether [fig.write_image] can render. *)
Record Env := mkEnv {
  clock : nat -> datetime;
  get_data_fred : string -> datetime -> datetime -> Exception + Series;
  write_image : option Exception
}.

(** Rows of the statistics frame built by [analyze_rates], one per column of
    the yield table. *)
Record StatRow := mkStatRow {
  Current : float;
  D_Max : float;
  D_Min : float;
  D_Median : float;
  D_Mean : float
}.

Definition Stats := list (string * StatRow).

(** A cell of the summary dict: a string, a float, or [None]. *)
Inductive Value :=
| VStr (s : string)
| VFloat (x : float)
| VNone.

(** One Plotly scatter trace: where it is drawn, its name, its x axis
    (maturity labels or dates) and its y values.  Styling is left out. *)
Inductive Axis :=
| Labels (l : list string)
| Dates (l : list Timestamp).

(** Pieces of a formatted text: literal text, a float under a format
    specification, an integer. *)
Inductive Piece :=
| Str (s : string)
| Flt (spec : string) (x : float)
| Int (n : nat).

Record Scatter := mkScatter {
  panel : nat * nat;
  trace_name : list Piece;
  xs : Axis;
  ys : list float
}.

Record Figure := mkFigure {
  title : string;
  subplot_titles : list (list Piece);
  traces : list Scatter;
  zero_line : bool
}.

(** What a written file holds, before pandas or Plotly serialise it. *)
Inductive Content :=
| CsvFrame (df : DataFrame)
| CsvRecords (records : list (list (string * Value)))
| HtmlChart (fig : Figure)
| PngChart (fig : Figure).

(** A printed line is a formatted text, or the statistics table
    ([stats.round(3).to_string()]). *)
Inductive Line :=
| Text (pieces : list Piece)
| Table (stats : Stats).

Inductive Event :=
| Requested (code : string) (start_date end_date : datetime)
| Printed (line : Line) (newline : bool)
| Wrote (path : string) (content : Content).

(** A computation reads the clock from its position [ticks] on (the number
    of readings taken so far) and answers with a value, the new position and
    the events it caused, oldest first. *)
Record Outcome (A : Type) := mkOutcome {
  val : A;
  ticks : nat;
  trace : list Event
}.
Arguments mkOutcome {A}.
Arguments val {A}.
Arguments ticks {A}.
Arguments trace {A}.

Definition M (A : Type) : Type := nat -> Outcome A.

Definition ret {A} (a : A) : M A :=
  fun t => {| val := a; ticks := t; trace := [] |}.

Definition bind {A B} (m : M A) (k : A -> M B) : M B :=
  fun t =>
    let r := m t in
    let r' := k (val r) (ticks r) in
    {| val := val r'; ticks := ticks r'; trace := trace r ++ trace r' |}.

Notation "'do' x <- m ; k" := (bind m (fun x => k))
  (at level 10, x name, m at level 100, k at level 200, only parsing).

Definition emit (e : Event) : M unit :=
  fun t => {| val := tt; ticks := t; trace := [e] |}.

Section Effects.
Variable env : Env.

(** [datetime.now()] *)
Definition now : M datetime :=
  fun t => {| val := clock env t; ticks := S t; trace := [] |}.

(** [print(...)] and [print(..., end="")] *)
Definition print (line : list Piece) : M unit := emit (Printed (Text line) true).
Definition print_noend (line : list Piece) : M unit := emit (Printed (Text line) false).
Definition print_table (stats : Stats) : M unit := emit (Printed (Table stats) true).

(** A file written under [path]. *)
Definition write (path : string) (c : Content) : M unit := emit (Wrote path c).

(** The body of the [try] around the provider call. *)
Definition fetch (code : string) (start_date end_date : datetime) : M (Exception + Series) :=
  do _ <- emit (Requested code start_date end_date);
  ret (get_data_fred env code start_date end_date).
End Effects.

(** The files a trace leaves behind: each write replaces the file of that name. *)
Definition apply_event (fs : gmap string Content) (e : Event) : gmap string Content :=
  match e with
  | Wrote path c => <[path := c]> fs
  | _ => fs
  end.

Definition files_after (tr : list Event) (fs : gmap string Content) : gmap string Content :=
  fold_left apply_event tr fs.

(** The same, from the list of writes. *)
Definition write_all (ws : list (string * Content)) (fs : gmap string Content)
  : gmap string Content :=
  fold_left (fun fs pc => <[fst pc := snd pc]> fs) ws fs.

(** The writes of a trace, in order. *)
Definition writes (tr : list Event) : list (string * Content) :=
  omap (fun e => match e with Wrote p c => Some (p, c) | _ => None end) tr.

(** The provider codes requested by a trace, in order. *)
Definition requests (tr : list Event) : list string :=
  omap (fun e => match e with Requested c _ _ => Some c | _ => None end) tr.

(** The writes that are CSV files (the dated outputs), charts left out. *)
Definition is_csv (c : Content) : bool :=
  match c with
  | CsvFrame _ | CsvRecords _ => true
  | HtmlChart _ | PngChart _ => false
  end.

Definition csv_writes (tr : list Event) : list (string * Content) :=
  List.filter (fun pc => is_csv (snd pc)) (writes tr).

(** [d.get(key)] on an insertion-ordered dict. *)
Fixpoint dict_get {V} (d : list (string * V)) (key : string) : option V :=
  match d with
  | [] => None
  | (k, v) :: r => if String.eqb k key then Some v else dict_get r key
  end.

(* ===================================================================== *)
(** ** Text helpers *)
(* ===================================================================== *)

Definition newline : string := String (ascii_of_nat 10) EmptyString.

(** [s * n] *)
Fixpoint str_mul (s : string) (n : nat) : string :=
  match n with
  | O => EmptyString
  | S k => s +:+ str_mul s k
  end.

(** [f"{s:>3}"]: right-justified in a field of [width] characters. *)
Definition rjust (width : nat) (s : string) : string :=
  str_mul " " (width - String.length s) +:+ s.

(** [s[:n]] *)
Definition take_str (n : nat) (s : string) : string := String.substring 0 n s.

(* ===================================================================== *)
(** ** Stage 1: [get_treasury_data] *)
(* ===================================================================== *)

(** The maturities requested and their FRED codes, in dict order. *)
Definition series : list (string * string) :=
  [("1Y", "DGS1"); ("2Y", "DGS2"); ("3Y", "DGS3"); ("5Y", "DGS5");
   ("7Y", "DGS7"); ("10Y", "DGS10"); ("20Y", "DGS20"); ("30Y", "DGS30")].

(** [data[key] = value] on an insertion-ordered dict. *)
Fixpoint dict_set {V} (data : list (string * V)) (key : string) (value : V) : list (string * V) :=
  match data with
  | [] => [(key, value)]
  | (k, v) :: r => if String.eqb k key then (k, value) :: r
                   else (k, v) :: dict_set r key value
  end.

Section Pipeline.
Variable env : Env.

(** The [for maturity, code in series.items()] loop: one guarded request
    per maturity; a failure prints a line and leaves [data] as it is. *)
Fixpoint fetch_loop (items : list (string * string)) (start_date end_date : datetime)
         (data : list (string * Series)) : M (list (string * Series)) :=
  match items with
  | [] => ret data
  | (maturity, code) :: rest =>
      do r <- fetch env code start_date end_date;
      do data' <-
        match r with
        | inr rates =>
            do _ <- print [Str "✓ "; Str maturity];
            ret (dict_set data maturity rates)
        | inl e =>
            do _ <- print [Str "✗ "; Str maturity; Str ": "; Str (take_str 50 e); Str "..."];
            ret data
        end;
      fetch_loop rest start_date end_date data'
  end.

Definition get_treasury_data (years : Z) : M DataFrame :=
  do end_date <- now env;
  let start_date := minus_days end_date (365 * years) in
  do _ <- print [Str "🏛️  DAILY TREASURY ANALYSIS"];
  do _ <- print [Str "📅 "; Str (Calendar.strftime_YmdHMS end_date)];
  do _ <- print [Str (str_mul "=" 50)];
  do _ <- print [Str "Fetching Treasury rates from FRED..."];
  do data <- fetch_loop series start_date end_date [];
  match data with
  | [] =>
      do _ <- print [Str "❌ No data retrieved. Check connection to fred.stlouisfed.org"];
      ret Pandas.empty_frame
  | _ :: _ =>
      let df := Pandas.dropna_all (Pandas.DataFrame_of_dict data) in
      do _ <- print [Str "✅ Got "; Int (Pandas.ncols df); Str " rates, ";
                     Int (Pandas.len df); Str " days"];
      let today_str := Calendar.strftime_Ymd_compact (toordinal end_date) in
      do _ <- write ("treasury_data_" +:+ today_str +:+ ".csv") (CsvFrame df);
      do _ <- print [Str "💾 Data saved to treasury_data_"; Str today_str; Str ".csv"];
      ret df
  end.

(* =================================================================== *)
(** ** Stage 2: [analyze_rates] *)
(* =================================================================== *)

(** Display order of the maturities. *)
Definition order : list string :=
  ["1Y"; "2Y"; "3Y"; "5Y"; "7Y"; "10Y"; "20Y"; "30Y"].

(** The statistics frame: one row per label of [current], the five
    series aligned on that label. *)
Definition stats_frame (current mx mn med avg : Pandas.Row) : Stats :=
  map (fun name =>
         (name, {| Current := Pandas.getitem current name;
                   D_Max := Pandas.getitem mx name;
                   D_Min := Pandas.getitem mn name;
                   D_Median := Pandas.getitem med name;
                   D_Mean := Pandas.getitem avg name |}))
      (Pandas.labels current).

(** The [if spread < 0 / elif spread < 0.5 / else] ladder: the label
    printed and the value bound to [inversion_status]. *)
Definition classify (spread : float) : string * string :=
  if PrimFloat.ltb spread 0%float then ("(🔴 INVERTED)", "INVERTED")
  else if PrimFloat.ltb spread 0.5%float then ("(🟡 FLAT)", "FLAT")
  else ("(🟢 NORMAL)", "NORMAL").

(** The loop printing the current yields in maturity order. *)
Fixpoint print_yields (current : Pandas.Row) (ms : list string) : M unit :=
  match ms with
  | [] => ret tt
  | maturity :: rest =>
      do _ <-
        (if Pandas.contains (Pandas.labels current) maturity
         then print [Str (rjust 3 maturity); Str ": ";
                     Flt "6.3f" (Pandas.getitem current maturity); Str "%"]
         else ret tt);
      print_yields current rest
  end.

(** The 2Y-10Y block: [Some (spread, inversion_status)] when both columns
    exist, [None] when the block is skipped and the two names stay
    unbound. *)
Definition primary_spread (current : Pandas.Row) : M (option (float * string)) :=
  if Pandas.contains (Pandas.labels current) "2Y"
     && Pandas.contains (Pandas.labels current) "10Y"
  then
    let spread := PrimFloat.sub (Pandas.getitem current "10Y") (Pandas.getitem current "2Y") in
    do _ <- print [Str newline; Str "📈 KEY SPREADS"];
    do _ <- print [Str (str_mul "-" 20)];
    do _ <- print_noend [Str "2Y-10Y: "; Flt "+.3f" spread; Str "% "];
    do _ <- print [Str (fst (classify spread))];
    ret (Some (spread, snd (classify spread)))
  else ret None.

(** The 3M-10Y block: [Some spread_3m10y] when it runs. *)
Definition spread_3m10y (current : Pandas.Row) : M (option float) :=
  if Pandas.contains (Pandas.labels current) "3M"
     && Pandas.contains (Pandas.labels current) "10Y"
  then
    let short := match Pandas.get current "3M" with
                 | Some v => v
                 | None => 0%float
                 end in
    let spread := PrimFloat.sub (Pandas.getitem current "10Y") short in
    do _ <- print [Str "3M-10Y: "; Flt "+.3f" spread; Str "%"];
    ret (Some spread)
  else ret None.

(** The 5Y-30Y block. *)
Definition spread_5y30y (current : Pandas.Row) : M (option float) :=
  if Pandas.contains (Pandas.labels current) "5Y"
     && Pandas.contains (Pandas.labels current) "30Y"
  then
    let spread := PrimFloat.sub (Pandas.getitem current "30Y") (Pandas.getitem current "5Y") in
    do _ <- print [Str "5Y-30Y: "; Flt "+.3f" spread; Str "%"];
    ret (Some spread)
  else ret None.

(** The [summary_data] dict, keys in insertion order.  The guards of the
    two conditional entries are the condition of the 2Y-10Y block. *)
Definition summary_data (df : DataFrame) (current : Pandas.Row)
           (primary : option (float * string)) : list (string * Value) :=
  [("date", VStr (Calendar.strftime_Ymd (Pandas.index_last df)));
   ("inversion_status",
    match primary with Some (_, inversion_status) => VStr inversion_status | None => VStr "N/A" end);
   ("2Y_10Y_spread",
    match primary with Some (spread, _) => VFloat spread | None => VNone end)]
  ++ map (fun maturity =>
            (maturity +:+ "_yield",
             match Pandas.get current maturity with
             | Some v => VFloat v
             | None => VNone
             end))
         order.

Definition analyze_rates (df : DataFrame) (n_days : nat) : M (option Stats) :=
  if Pandas.empty df then ret None
  else
    let recent := Pandas.tail n_days df in
    let current := Pandas.iloc_last df in
    let stats := stats_frame current (Pandas.max recent) (Pandas.min recent)
                             (Pandas.median recent) (Pandas.mean recent) in
    do _ <- print [Str newline; Str "📊 YIELD CURVE SNAPSHOT (";
                   Str (Calendar.strftime_Ymd (Pandas.index_last df)); Str ")"];
    do _ <- print [Str (str_mul "=" 50)];
    do _ <- print_yields current order;
    do primary <- primary_spread current;
    do _ <- spread_3m10y current;
    do _ <- spread_5y30y current;
    do _ <- print [Str newline; Str "📋 "; Int n_days; Str "-DAY STATISTICS"];
    do _ <- print [Str (str_mul "-" 60)];
    do _ <- print_table stats;
    do today <- now env;
    let today_str := Calendar.strftime_Ymd_compact (toordinal today) in
    do _ <- write ("treasury_summary_" +:+ today_str +:+ ".csv")
                  (CsvRecords [summary_data df current primary]);
    do _ <- print [Str "💾 Summary saved to treasury_summary_"; Str today_str; Str ".csv"];
    ret (Some stats).

(* =================================================================== *)
(** ** Stage 3: [plot_curve] *)
(* =================================================================== *)

(** Year fractions of the maturities that can be plotted. *)
Definition maturity_map : list (string * float) :=
  [("1M", PrimFloat.div 1 12); ("3M", 0.25); ("6M", 0.5); ("1Y", 1); ("2Y", 2);
   ("3Y", 3); ("5Y", 5); ("7Y", 7); ("10Y", 10); ("20Y", 20); ("30Y", 30)]%float.

(** [series[name]] on a label-indexed series. *)
Fixpoint lookup_label (s : list (string * float)) (name : string) : float :=
  match s with
  | [] => PrimFloat.nan
  | (k, v) :: r => if String.eqb k name then v else lookup_label r name
  end.

(** [(a - b)] on two columns of one frame, row by row. *)
Definition series_sub (a b : Series) : Series :=
  map (fun p => (fst (fst p), PrimFloat.sub (snd (fst p)) (snd (snd p)))) (combine a b).

(** [series.tail(n)] *)
Definition series_tail (n : nat) (s : Series) : Series :=
  skipn (length s - n) s.

Definition plot_curve (df : DataFrame) (stats : Stats) (n_days : nat) : M unit :=
  if Pandas.empty df then ret tt
  else
    let current :=
      List.filter (fun kv => F64.notna (snd kv)) (map (fun kv => (fst kv, Current (snd kv))) stats) in
    let maturities :=
      List.filter (fun m => Pandas.contains (map fst maturity_map) m) (map fst current) in
    let y_vals := map (lookup_label current) maturities in
    do today <- now env;
    let today_str := Calendar.strftime_Ymd (toordinal today) in
    let curve :=
      [ {| panel := (1, 1)%nat; trace_name := [Str "Current Yield"];
           xs := Labels maturities; ys := y_vals |} ] in
    let recent_data := Pandas.tail 252 df in
    let trends :=
      map (fun rate =>
             {| panel := (1, 2)%nat; trace_name := [Str rate];
                xs := Dates (map fst (rows recent_data));
                ys := map snd (Pandas.getcol recent_data rate) |})
          (List.filter (Pandas.contains (columns df)) ["2Y"; "5Y"; "10Y"; "30Y"]) in
    let has_spread :=
      Pandas.contains (columns df) "10Y" && Pandas.contains (columns df) "2Y" in
    let spread_panel :=
      if has_spread then
        let spread :=
          series_tail 252 (series_sub (Pandas.getcol df "10Y") (Pandas.getcol df "2Y")) in
        [ {| panel := (2, 1)%nat; trace_name := [Str "10Y-2Y Spread"];
             xs := Dates (map fst spread); ys := map snd spread |} ]
      else [] in
    let comparison :=
      List.filter (fun kv => F64.notna (Current (snd kv)) && F64.notna (D_Min (snd kv))
                        && F64.notna (D_Max (snd kv))) stats in
    let range_panel :=
      [ {| panel := (2, 2)%nat; trace_name := [Int n_days; Str "D Min"];
           xs := Labels (map fst comparison); ys := map (fun kv => D_Min (snd kv)) comparison |};
        {| panel := (2, 2)%nat; trace_name := [Str "Current"];
           xs := Labels (map fst comparison); ys := map (fun kv => Current (snd kv)) comparison |};
        {| panel := (2, 2)%nat; trace_name := [Int n_days; Str "D Max"];
           xs := Labels (map fst comparison); ys := map (fun kv => D_Max (snd kv)) comparison |} ] in
    let fig :=
      {| title := "US Treasury Analysis - " +:+ today_str;
         subplot_titles := [[Str "Current Yield Curve"]; [Str "252 Day Trends"];
                            [Str "Yield Curve Spread"];
                            [Str "Current vs "; Int n_days; Str "D Range"]];
         traces := curve ++ trends ++ spread_panel ++ range_panel;
         zero_line := has_spread |} in
    do _ <- write "treasury_analysis_plotly.html" (HtmlChart fig);
    do _ <- print [Str "✅ Interactive chart saved as 'treasury_analysis_plotly.html'"];
    match write_image env with
    | None =>
        do _ <- write "treasury_analysis.png" (PngChart fig);
        print [Str "✅ Static chart saved as 'treasury_analysis.png'"]
    | Some e =>
        print [Str "⚠️  Could not save PNG (install kaleido for static images): "; Str e]
    end.

(* =================================================================== *)
(** ** [main] *)
(* =================================================================== *)

Definition main : M unit :=
  let n_days := 90%nat in
  let years := 2 in
  do df <- get_treasury_data years;
  if Pandas.empty df then ret tt
  else
    do stats <- analyze_rates df n_days;
    match stats with
    | Some stats =>
        do _ <- plot_curve df stats n_days;
        do _ <- print [Str (newline +:+ str_mul "=" 50)];
        do _ <- print [Str "✅ DAILY TREASURY ANALYSIS COMPLETE"];
        do _ <- print [Str "📁 Files generated:"];
        do _ <- print [Str "   - treasury_analysis_plotly.html (interactive chart)"];
        do _ <- print [Str "   - treasury_analysis.png (static image)"];
        do _ <- print [Str "   - treasury_data_YYYYMMDD.csv (raw data)"];
        print [Str "   - treasury_summary_YYYYMMDD.csv (daily summary)"]
    | None => ret tt (* not reached: [analyze_rates] answers [None] on an empty frame only *)
    end.
End Pipeline.



(* ===================================================================== *)
(** ** Pure readings of the stages

    What each stage computes, without the printing around it; the facts
    below relate the stages to these. *)
(* ===================================================================== *)

(** Whether the request for an item of [series] answers with a series. *)
Definition fetched (env : Env) (start_date end_date : datetime) (item : string * string) : bool :=
  match get_data_fred env (snd item) start_date end_date with
  | inr _ => true
  | inl _ => false
  end.

(** The [data] dict when the loop of [get_treasury_data] ends. *)
Definition fetch_all (env : Env) (years : Z) (t : nat) : list (string * Series) :=
  val (fetch_loop env series (minus_days (clock env t) (365 * years)) (clock env t) [] t).

(** The dated file names. *)
Definition data_path (today : datetime) : string :=
  "treasury_data_" +:+ Calendar.strftime_Ymd_compact (toordinal today) +:+ ".csv".

Definition summary_path (today : datetime) : string :=
  "treasury_summary_" +:+ Calendar.strftime_Ymd_compact (toordinal today) +:+ ".csv".

(** The guard of the 2Y-10Y block, and what the block binds. *)
Definition both_present (current : Pandas.Row) : bool :=
  Pandas.contains (Pandas.labels current) "2Y" && Pandas.contains (Pandas.labels current) "10Y".

Definition primary_of (current : Pandas.Row) : option (float * string) :=
  if both_present current
  then let spread := PrimFloat.sub (Pandas.getitem current "10Y") (Pandas.getitem current "2Y") in
       Some (spread, snd (classify spread))
  else None.

(** The statistics frame of a table. *)
Definition stats_of (df : DataFrame) (n_days : nat) : Stats :=
  let recent := Pandas.tail n_days df in
  stats_frame (Pandas.iloc_last df) (Pandas.max recent) (Pandas.min recent)
              (Pandas.median recent) (Pandas.mean recent).

(** What the loop of [get_treasury_data] stores for a list of items: the
    answered requests, each series under its maturity label. *)
Definition answered (env : Env) (start_date end_date : datetime)
           (items : list (string * string)) : list (string * Series) :=
  omap (fun item =>
          match get_data_fred env (snd item) start_date end_date with
          | inr rates => Some (fst item, rates)
          | inl _ => None
          end)
       items.

(** The two events of one turn of the loop: the request and its status line. *)
Definition fetch_events (env : Env) (start_date end_date : datetime)
           (item : string * string) : list Event :=
  [Requested (snd item) start_date end_date;
   Printed (Text match get_data_fred env (snd item) start_date end_date with
                 | inr _ => [Str "✓ "; Str (fst item)]
                 | inl e => [Str "✗ "; Str (fst item); Str ": "; Str (take_str 50 e); Str "..."]
                 end) true].

(** The line of the snapshot for one maturity. *)
Definition yield_line (current : Pandas.Row) (maturity : string) : Event :=
  Printed (Text [Str (rjust 3 maturity); Str ": ";
                 Flt "6.3f" (Pandas.getitem current maturity); Str "%"]) true.

(** The closing lines of a complete run. *)
Definition banner : list Event :=
  [Printed (Text [Str (newline +:+ str_mul "=" 50)]) true;
   Printed (Text [Str "✅ DAILY TREASURY ANALYSIS COMPLETE"]) true;
   Printed (Text [Str "📁 Files generated:"]) true;
   Printed (Text [Str "   - treasury_analysis_plotly.html (interactive chart)"]) true;
   Printed (Text [Str "   - treasury_analysis.png (static image)"]) true;
   Printed (Text [Str "   - treasury_data_YYYYMMDD.csv (raw data)"]) true;
   Printed (Text [Str "   - treasury_summary_YYYYMMDD.csv (daily summary)"]) true].

(** The number of points on the x axis of a trace. *)
Definition axis_length (a : Axis) : nat :=
  match a with
  | Labels l => length l
  | Dates l => length l
  end.

(** Whether a trace is drawn in a given panel (row, column). *)
Definition on_panel (p : nat * nat) (tr : Scatter) : bool :=
  Nat.eqb (fst (panel tr)) (fst p) && Nat.eqb (snd (panel tr)) (snd p).

(** The chart files a run of [plot_curve] writes for a figure. *)
Definition chart_writes (env : Env) (fig : Figure) : list (string * Content) :=
  ("treasury_analysis_plotly.html", HtmlChart fig)
  :: match write_image env with
     | None => [("treasury_analysis.png", PngChart fig)]
     | Some _ => []
     end.

(** The rows of the statistics frame that the first panel plots: a present
    current yield under a label that has a year fraction. *)
Definition plotted (stats : Stats) : Stats :=
  List.filter (fun kv => F64.notna (Current (snd kv))
                         && Pandas.contains (map fst maturity_map) (fst kv)) stats.

(** Every row of a frame holds one cell per column. *)
Definition well_formed (df : DataFrame) : Prop :=
  Forall (fun r => length (snd r) = length (columns df)) (rows df).

(** A yield is valid when it lies between 0 and 100 (percent); a cell is
    valid when it is missing or holds a valid yield; a table is valid when
    it is well formed and all its cells are. *)
Definition valid_yield (x : float) : bool := PrimFloat.leb 0 x && PrimFloat.leb x 100.

Definition valid_cell (x : float) : bool := F64.isna x || valid_yield x.

Definition valid_table (df : DataFrame) : Prop :=
  well_formed df /\
  Forall (fun r => Forall (fun c => valid_cell c = true) (snd r)) (rows df).

(** The order of the cells. *)
Definition fle (a b : float) : Prop := PrimFloat.leb a b = true.

(* ===================================================================== *)
(** ** binary64 numbers as mantissa and exponent

    The vocabulary of the rounding facts: what the shift of a mantissa
    keeps and drops, and the value of a nonnegative number counted in units
    of the smallest subnormal, 2^-1074. *)
(* ===================================================================== *)

Module Binary64.

(** [shr_1] halves a nonnegative mantissa and remembers what it dropped. *)
Definition inexact (mrs : shr_record) : bool := shr_r mrs || shr_s mrs.

(** [k] halvings in a row. *)
Definition shifted (k : Z) (a b : shr_record) : Prop :=
  0 <= shr_m a /\
  shr_m b = shr_m a / 2 ^ k /\
  (inexact b = true <-> shr_m a mod 2 ^ k <> 0 \/ inexact a = true).

(** The value of a mantissa and exponent in units of the smallest subnormal. *)
Definition vz (m e : Z) : Z := m * 2 ^ (e + 1074).

(** A number that a binary64 mantissa and exponent can hold. *)
Definition rep (mw : positive) (ew : Z) : Prop :=
  Zpos (digits2_pos mw) <= 53 /\ -1074 <= ew.

Definition canonical (m : positive) (e : Z) : Prop :=
  fexp prec emax (Zpos (digits2_pos m) + e) = e.

(** Zero and the positive finite numbers, with their value. *)
Definition nonneg (x : spec_float) : Prop :=
  match x with
  | S754_zero _ => True
  | S754_finite false m e => canonical m e
  | _ => False
  end.

Definition value (x : spec_float) : Z :=
  match x with
  | S754_finite _ m e => vz (Zpos m) e
  | _ => 0
  end.

(** The mantissa and exponent of the float 2. *)
Definition two_m : positive := 4503599627370496.

Definition two_sf : spec_float := S754_finite false two_m (-51).

End Binary64.

(* ===================================================================== *)
(** ** Sample environments and tables *)
(* ===================================================================== *)

(** A provider that is off line, a clock stopped on 2024-11-03 10:31:00. *)
Definition sample_env : Env :=
  {| clock := fun _ => mkDatetime 739193 37860;
     get_data_fred := fun _ _ _ => inl "offline";
     write_image := None |}.

(** A provider with two maturities on line; its answers do not depend on
    the time of day of the request. *)
Definition two_series_env (second : Z) (png : option Exception) : Env :=
  {| clock := fun _ => mkDatetime 739193 second;
     get_data_fred := fun code _ _ =>
       if String.eqb code "DGS2" then inr [(739190, 4%float); (739191, 4.5%float)]
       else if String.eqb code "DGS10" then inr [(739190, 4.25%float); (739192, PrimFloat.nan)]
       else inl "HTTP Error 500: Internal Server Error";
     write_image := png |}.

(** A provider that answers every request with one day without a
    quotation (a market holiday). *)
Definition holiday_env : Env :=
  {| clock := fun _ => mkDatetime 739193 37860;
     get_data_fred := fun _ _ _ => inr [(739192, PrimFloat.nan)];
     write_image := None |}.

(** 2Y at 4.80 and 10Y at 4.30 on the last row. *)
Definition inverted_frame : DataFrame :=
  {| columns := ["2Y"; "10Y"];
     rows := [(739190, [0x1.0cccccccccccdp+2; 0x1.0p+2]%float);
              (739191, [0x1.3333333333333p+2; 0x1.1333333333333p+2]%float)] |}.

(** 2Y present and 10Y missing on the last row. *)
Definition gap_frame : DataFrame :=
  {| columns := ["2Y"; "10Y"];
     rows := [(739190, [4; 4.25]%float); (739191, [4.5; nan]%float)] |}.

(** Three days of a 1Y yield of 0.10 (the double nearest to one tenth). *)
Definition flat_tenth_frame : DataFrame :=
  {| columns := ["1Y"];
     rows := [(739189, [0x1.999999999999ap-4]%float);
              (739190, [0x1.999999999999ap-4]%float);
              (739191, [0x1.999999999999ap-4]%float)] |}.

(** A 2Y column with no observation in the window, next to a quoted 1Y. *)
Definition silent_column_frame : DataFrame :=
  {| columns := ["1Y"; "2Y"];
     rows := [(739190, [4.5; nan]%float); (739191, [4.75; nan]%float)] |}.

(** A quoted table: 1Y and 2Y over four days. *)
Definition quoted_frame : DataFrame :=
  {| columns := ["1Y"; "2Y"];
     rows := [(739188, [4.5; 4.25]%float); (739189, [4.75; 4]%float);
              (739190, [4.25; 4.125]%float); (739191, [4.5; 4.5]%float)] |}.

(* ===================================================================== *)
(** * Facts *)
(* ===================================================================== *)

(** ** float64 comparisons and NaN *)

Module FloatFacts.

(** Lexicographic comparison of exponent then mantissa, as [SFcompare]
    does on two finite numbers of one sign. *)
Lemma SFcompare_refl x : x <> S754_nan -> SFcompare x x = Some Eq.
Proof.
  destruct x as [[]|[]| |[] m e]; simpl; try congruence; intros _;
    rewrite Z.compare_refl; fold (Pos.compare m m); rewrite Pos.compare_refl; reflexivity.
Qed.

Lemma SFcompare_nan_l y : SFcompare S754_nan y = None.
Proof. reflexivity. Qed.

Lemma SFcompare_nan_r x : SFcompare x S754_nan = None.
Proof. destruct x as [[]|[]| |[] m e]; reflexivity. Qed.

Lemma SFcompare_some x y :
  x <> S754_nan -> y <> S754_nan -> exists c, SFcompare x y = Some c.
Proof.
  destruct x as [[]|[]| |[] m e], y as [[]|[]| |[] m' e']; simpl; try congruence; eauto.
Qed.

Lemma SFcompare_antisym x y c :
  SFcompare x y = Some c -> SFcompare y x = Some (CompOpp c).
Proof.
  destruct x as [[]|[]| |[] m e], y as [[]|[]| |[] m' e']; simpl;
    intros H; inversion H; clear H; subst; try reflexivity;
    rewrite (Z.compare_antisym e e'); destruct (e ?= e'); simpl; try reflexivity;
    fold (Pos.compare m m'); fold (Pos.compare m' m);
    rewrite (Pos.compare_antisym m m'); destruct (m ?= m')%positive; reflexivity.
Qed.

Lemma isna_spec x : F64.isna x = true <-> Prim2SF x = S754_nan.
Proof.
  unfold F64.isna, PrimFloat.is_nan. rewrite FloatAxioms.eqb_spec. unfold SFeqb. split.
  - intros H. destruct (SFcompare (Prim2SF x) (Prim2SF x)) as [c|] eqn:E.
    + destruct (Prim2SF x) as [[]|[]| |[] m e]; try reflexivity;
        rewrite SFcompare_refl in E by congruence; inversion E; subst; discriminate.
    + destruct (Prim2SF x) as [[]|[]| |[] m e]; try reflexivity; discriminate.
  - intros ->. reflexivity.
Qed.


Lemma notna_spec x : F64.isna x = false <-> Prim2SF x <> S754_nan.
Proof.
  rewrite <- isna_spec. destruct (F64.isna x); split; congruence.
Qed.


Ltac cmp_cases :=
  repeat match goal with
         | |- context [Pos.compare_cont Eq ?a ?b] =>
             change (Pos.compare_cont Eq a b) with (Pos.compare a b)
         | H : context [Pos.compare_cont Eq ?a ?b] |- _ =>
             change (Pos.compare_cont Eq a b) with (Pos.compare a b) in H
         end;
  repeat match goal with
         | |- context [Z.compare ?a ?b] => destruct (Z.compare_spec a b)
         | H : context [Z.compare ?a ?b] |- _ => destruct (Z.compare_spec a b)
         | |- context [Pos.compare ?a ?b] => destruct (Pos.compare_spec a b)
         | H : context [Pos.compare ?a ?b] |- _ => destruct (Pos.compare_spec a b)
         end;
  simpl in *; try reflexivity; try discriminate; try lia.

Lemma SFleb_trans x y z :
  SFleb x y = true -> SFleb y z = true -> SFleb x z = true.
Proof.
  unfold SFleb.
  destruct x as [[]|[]| |[] m1 e1], y as [[]|[]| |[] m2 e2], z as [[]|[]| |[] m3 e3];
    simpl; try reflexivity; try discriminate; intros H1 H2; cmp_cases.
Qed.

Lemma SFltb_SFleb x y :
  x <> S754_nan -> y <> S754_nan -> SFltb x y = negb (SFleb y x).
Proof.
  intros Hx Hy. destruct (SFcompare_some x y Hx Hy) as [c Hc].
  unfold SFltb, SFleb. rewrite Hc, (SFcompare_antisym _ _ _ Hc). destruct c; reflexivity.
Qed.

(** The same facts on the primitive floats. *)
Lemma leb_refl x : F64.isna x = false -> PrimFloat.leb x x = true.
Proof.
  intros H. apply notna_spec in H. rewrite leb_spec. unfold SFleb.
  rewrite SFcompare_refl by assumption. reflexivity.
Qed.

Lemma leb_trans x y z :
  PrimFloat.leb x y = true -> PrimFloat.leb y z = true -> PrimFloat.leb x z = true.
Proof. rewrite !leb_spec. apply SFleb_trans. Qed.

Lemma ltb_leb x y :
  F64.isna x = false -> F64.isna y = false ->
  PrimFloat.ltb x y = negb (PrimFloat.leb y x).
Proof.
  intros Hx Hy. rewrite ltb_spec, leb_spec.
  apply SFltb_SFleb; apply notna_spec; assumption.
Qed.

Lemma leb_total x y :
  F64.isna x = false -> F64.isna y = false ->
  PrimFloat.leb x y = true \/ PrimFloat.leb y x = true.
Proof.
  intros Hx Hy. pose proof (ltb_leb y x Hy Hx) as H.
  destruct (PrimFloat.leb x y); [now left|]. right.
  apply notna_spec in Hx, Hy. rewrite leb_spec.
  destruct (SFcompare_some _ _ Hx Hy) as [c Hc].
  rewrite ltb_spec in H. unfold SFltb in H. unfold SFleb.
  rewrite (SFcompare_antisym _ _ _ Hc) in *. destruct c; simpl in *; congruence.
Qed.

Lemma ltb_le_trans x y z :
  PrimFloat.ltb x y = true -> PrimFloat.leb y z = true -> PrimFloat.ltb x z = true.
Proof.
  rewrite !ltb_spec, leb_spec. unfold SFltb, SFleb.
  destruct (Prim2SF x) as [[]|[]| |[] m1 e1], (Prim2SF y) as [[]|[]| |[] m2 e2],
           (Prim2SF z) as [[]|[]| |[] m3 e3];
    simpl; try reflexivity; try discriminate; intros H1 H2; cmp_cases.
Qed.

Lemma leb_isna_l x y : F64.isna x = true -> PrimFloat.leb x y = false.
Proof. intros H. apply isna_spec in H. rewrite leb_spec, H. reflexivity. Qed.

Lemma leb_isna_r x y : F64.isna y = true -> PrimFloat.leb x y = false.
Proof.
  intros H. apply isna_spec in H. rewrite leb_spec, H. unfold SFleb.
  rewrite SFcompare_nan_r. reflexivity.
Qed.

Lemma ltb_isna_l x y : F64.isna x = true -> PrimFloat.ltb x y = false.
Proof. intros H. apply isna_spec in H. rewrite ltb_spec, H. reflexivity. Qed.

Lemma ltb_isna_r x y : F64.isna y = true -> PrimFloat.ltb x y = false.
Proof.
  intros H. apply isna_spec in H. rewrite ltb_spec, H. unfold SFltb.
  rewrite SFcompare_nan_r. reflexivity.
Qed.

Lemma leb_notna x y : PrimFloat.leb x y = true -> F64.isna x = false /\ F64.isna y = false.
Proof.
  intros H. split.
  - destruct (F64.isna x) eqn:E; [|reflexivity]. rewrite leb_isna_l in H by assumption. discriminate.
  - destruct (F64.isna y) eqn:E; [|reflexivity]. rewrite leb_isna_r in H by assumption. discriminate.
Qed.

Lemma sub_isna a b : F64.isna a = true \/ F64.isna b = true -> PrimFloat.sub a b = PrimFloat.nan.
Proof.
  intros H. apply Prim2SF_inj. rewrite sub_spec.
  destruct H as [H|H]; apply isna_spec in H; rewrite H.
  - reflexivity.
  - destruct (Prim2SF a) as [[]|[]| |[] m e]; reflexivity.
Qed.


(** Rounding never produces NaN. *)
Lemma iter_pos_preserves {A} (P : A -> Prop) (f : A -> A) :
  (forall x, P x -> P (f x)) -> forall n x, P x -> P (SpecFloat.iter_pos f n x).
Proof.
  intros Hf. induction n as [n IH|n IH|]; simpl; intros x Hx; auto.
Qed.

Lemma shr_1_nonneg mrs : 0 <= shr_m mrs -> 0 <= shr_m (shr_1 mrs).
Proof.
  destruct mrs as [m r s]. simpl. destruct m as [|[p|p|]|[p|p|]]; simpl; lia.
Qed.

Lemma shr_nonneg mrs e n : 0 <= shr_m mrs -> 0 <= shr_m (fst (shr mrs e n)).
Proof.
  intros H. destruct n; simpl; try assumption.
  apply (iter_pos_preserves (fun r => 0 <= shr_m r)); auto using shr_1_nonneg.
Qed.

Lemma shr_fexp_nonneg m e l : 0 <= m -> 0 <= shr_m (fst (shr_fexp prec emax m e l)).
Proof.
  intros H. unfold shr_fexp. apply shr_nonneg. destruct l as [|[]]; assumption.
Qed.

Lemma round_nearest_even_nonneg m l : 0 <= m -> 0 <= round_nearest_even m l.
Proof.
  intros H. destruct l as [|[]]; simpl; try lia. destruct (Z.even m); lia.
Qed.

Lemma binary_round_aux_not_nan s m e l :
  0 <= m -> binary_round_aux prec emax s m e l <> S754_nan.
Proof.
  intros H. unfold binary_round_aux.
  pose proof (shr_fexp_nonneg m e l H) as H1.
  destruct (shr_fexp prec emax m e l) as [mrs' e']. simpl in H1.
  pose proof (shr_fexp_nonneg _ e' loc_Exact
                (round_nearest_even_nonneg _ (loc_of_shr_record mrs') H1)) as H2.
  destruct (shr_fexp prec emax _ e' loc_Exact) as [mrs'' e'']. simpl in H2.
  destruct (shr_m mrs''); try lia; try discriminate.
  destruct (e'' <=? emax - prec); discriminate.
Qed.

Lemma binary_normalize_not_nan m e sz : binary_normalize prec emax m e sz <> S754_nan.
Proof.
  destruct m; simpl; try discriminate; unfold binary_round;
    destruct (shl_align _ _ _); apply binary_round_aux_not_nan; lia.
Qed.

Lemma finite_spec x :
  F64.finite x = true ->
  (exists s, Prim2SF x = S754_zero s) \/ (exists s m e, Prim2SF x = S754_finite s m e).
Proof.
  unfold F64.finite, PrimFloat.is_finite, PrimFloat.is_infinity.
  intros H. apply negb_true_iff, orb_false_iff in H. destruct H as [Hn Hi].
  apply notna_spec in Hn.
  rewrite FloatAxioms.eqb_spec, abs_spec in Hi.
  destruct (Prim2SF x) as [s|s| |s m e]; eauto; try congruence.
  destruct s; vm_compute in Hi; discriminate.
Qed.

Lemma finite_notna x : F64.finite x = true -> F64.isna x = false.
Proof.
  intros H. apply notna_spec. destruct (finite_spec x H) as [[s ->]|(s & m & e & ->)]; discriminate.
Qed.

Lemma sub_finite_notna a b :
  F64.finite a = true -> F64.finite b = true -> F64.isna (PrimFloat.sub a b) = false.
Proof.
  intros Ha Hb. apply notna_spec. rewrite sub_spec.
  destruct (finite_spec a Ha) as [[s ->]|(s & m & e & ->)],
           (finite_spec b Hb) as [[s' ->]|(s' & m' & e' & ->)]; unfold SF64sub, SFsub.
  - destruct s, s'; discriminate.
  - discriminate.
  - discriminate.
  - apply binary_normalize_not_nan.
Qed.

End FloatFacts.

Import FloatFacts.

(** ** Rounding of sums and halves *)

Module Rounding.
Import Binary64.

(** Number of binary digits of a mantissa. *)
Lemma digits2_pos_bounds (m : positive) :
  2 ^ (Zpos (digits2_pos m) - 1) <= Zpos m < 2 ^ Zpos (digits2_pos m).
Proof.
  induction m as [m IH|m IH|]; cbn [digits2_pos].
  - rewrite Pos2Z.inj_succ. replace (Z.succ (Zpos (digits2_pos m)) - 1) with (Z.succ (Zpos (digits2_pos m) - 1)) by lia.
    rewrite !Z.pow_succ_r by lia. lia.
  - rewrite Pos2Z.inj_succ. replace (Z.succ (Zpos (digits2_pos m)) - 1) with (Z.succ (Zpos (digits2_pos m) - 1)) by lia.
    rewrite !Z.pow_succ_r by lia. lia.
  - cbn. lia.
Qed.

Lemma fexp_eq (x : Z) : fexp prec emax x = Z.max (x - 53) (-1074).
Proof. reflexivity. Qed.

Lemma fexp_mono x y : x <= y -> fexp prec emax x <= fexp prec emax y.
Proof. rewrite !fexp_eq. lia. Qed.


Lemma shr_1_spec mrs :
  0 <= shr_m mrs ->
  shr_m (shr_1 mrs) = shr_m mrs / 2 /\
  (inexact (shr_1 mrs) = true <-> shr_m mrs mod 2 <> 0 \/ inexact mrs = true).
Proof.
  destruct mrs as [m r s]. unfold inexact. cbn [shr_m shr_r shr_s]. intros Hm.
  destruct m as [|[p|p|]|p]; try lia; cbn [shr_1 shr_m shr_r shr_s].
  - split; [reflexivity|]. cbn. rewrite orb_true_iff. tauto.
  - split; [rewrite Pos2Z.inj_xI; apply Z.div_unique with 1; lia|].
    rewrite Pos2Z.inj_xI.
    replace ((2 * Zpos p + 1) mod 2) with 1 by (apply Z.mod_unique with (Zpos p); lia).
    cbn. split; [intros _; left; lia|reflexivity].
  - split; [rewrite Pos2Z.inj_xO; apply Z.div_unique with 0; lia|].
    rewrite Pos2Z.inj_xO.
    replace ((2 * Zpos p) mod 2) with 0 by (apply Z.mod_unique with (Zpos p); lia).
    cbn. split; [tauto|]. intros [H|H]; [lia|exact H].
  - split; [reflexivity|]. cbn. split; [intros _; left; now vm_compute|reflexivity].
Qed.


Lemma shifted_1 a : 0 <= shr_m a -> shifted 1 a (shr_1 a).
Proof.
  intros H. destruct (shr_1_spec a H) as [Hm Hi].
  split; [assumption|]. change (2 ^ 1) with 2. tauto.
Qed.

Lemma shifted_trans j k a b c :
  0 < j -> 0 < k -> shifted j a b -> shifted k b c -> shifted (j + k) a c.
Proof.
  intros Hj Hk (Ha & Hb & Hib) (Hb0 & Hc & Hic).
  assert (H2j : 0 < 2 ^ j) by (apply Z.pow_pos_nonneg; lia).
  assert (H2k : 0 < 2 ^ k) by (apply Z.pow_pos_nonneg; lia).
  split; [assumption|]. rewrite Z.pow_add_r by lia. split.
  - rewrite Hc, Hb. apply Z.div_div; lia.
  - rewrite Hic, Hib, Hb. rewrite Z.rem_mul_r by lia.
    pose proof (Z.mod_pos_bound (shr_m a) (2 ^ j) H2j) as Bj.
    pose proof (Z.mod_pos_bound (shr_m a / 2 ^ j) (2 ^ k) H2k) as Bk.
    split.
    + intros [H|[H|H]]; [left; nia|left; nia|right; assumption].
    + intros [H|H]; [|tauto].
      destruct (Z.eq_dec (shr_m a mod 2 ^ j) 0) as [E|E]; [|tauto].
      left. rewrite E in H. nia.
Qed.

Lemma iter_pos_shr_1 (p : positive) (a : shr_record) :
  0 <= shr_m a -> shifted (Zpos p) a (SpecFloat.iter_pos shr_1 p a).
Proof.
  revert a. induction p as [p IH|p IH|]; intros a Ha; cbn [SpecFloat.iter_pos].
  - pose proof (shifted_1 a Ha) as H1.
    assert (H1m : 0 <= shr_m (shr_1 a)).
    { destruct H1 as (_ & -> & _). apply Z.div_pos; lia. }
    pose proof (IH _ H1m) as H2.
    assert (H2m : 0 <= shr_m (SpecFloat.iter_pos shr_1 p (shr_1 a))).
    { destruct H2 as (_ & -> & _). apply Z.div_pos; [lia|]. apply Z.pow_pos_nonneg; lia. }
    pose proof (IH _ H2m) as H3.
    rewrite Pos2Z.inj_xI. replace (2 * Zpos p + 1) with (1 + (Zpos p + Zpos p)) by lia.
    apply shifted_trans with (shr_1 a); try lia; [assumption|].
    eapply shifted_trans; try eassumption; lia.
  - pose proof (IH _ Ha) as H2.
    assert (H2m : 0 <= shr_m (SpecFloat.iter_pos shr_1 p a)).
    { destruct H2 as (_ & -> & _). apply Z.div_pos; [lia|]. apply Z.pow_pos_nonneg; lia. }
    pose proof (IH _ H2m) as H3.
    rewrite Pos2Z.inj_xO. replace (2 * Zpos p) with (Zpos p + Zpos p) by lia.
    eapply shifted_trans; try eassumption; lia.
  - apply shifted_1. assumption.
Qed.



Lemma digits_unique (m : positive) (d : Z) :
  2 ^ (d - 1) <= Zpos m < 2 ^ d -> Zpos (digits2_pos m) = d.
Proof.
  intros [H1 H2]. pose proof (digits2_pos_bounds m) as [H3 H4].
  assert (0 < d).
  { destruct (Z_lt_le_dec 0 d) as [|Hd]; [assumption|].
    destruct (Z.eq_dec d 0) as [->|]; [cbn in H2; lia|].
    rewrite (Z.pow_neg_r 2 d) in H2 by lia. lia. }
  assert (d - 1 < Zpos (digits2_pos m)) by (apply (Z.pow_lt_mono_r_iff 2); lia).
  assert (Zpos (digits2_pos m) - 1 < d) by (apply (Z.pow_lt_mono_r_iff 2); lia).
  lia.
Qed.

Lemma shr_fexp_noshift m e l :
  fexp prec emax (Zdigits2 m + e) <= e ->
  shr_fexp prec emax m e l = (shr_record_of_loc m l, e).
Proof.
  intros H. unfold shr_fexp, shr.
  destruct (fexp prec emax (Zdigits2 m + e) - e) eqn:E; try reflexivity. lia.
Qed.

Lemma shr_fexp_shift m e :
  0 <= m -> e < fexp prec emax (Zdigits2 m + e) ->
  exists mrs,
    shr_fexp prec emax m e loc_Exact = (mrs, fexp prec emax (Zdigits2 m + e)) /\
    shr_m mrs = m / 2 ^ (fexp prec emax (Zdigits2 m + e) - e) /\
    (inexact mrs = true <-> m mod 2 ^ (fexp prec emax (Zdigits2 m + e) - e) <> 0).
Proof.
  intros Hm H. unfold shr_fexp, shr.
  destruct (fexp prec emax (Zdigits2 m + e) - e) as [|p|p] eqn:E; try lia.
  destruct (iter_pos_shr_1 p (shr_record_of_loc m loc_Exact) Hm) as (_ & Hv & Hi).
  eexists. split; [f_equal; lia|]. split; [exact Hv|].
  rewrite Hi. cbn. intuition discriminate.
Qed.

Lemma round_nearest_even_cases mrs :
  round_nearest_even (shr_m mrs) (loc_of_shr_record mrs) = shr_m mrs \/
  (round_nearest_even (shr_m mrs) (loc_of_shr_record mrs) = shr_m mrs + 1 /\ inexact mrs = true).
Proof.
  destruct mrs as [m [] []]; cbn; auto.
  destruct (Z.even m); auto.
Qed.

Lemma binary_round_aux_exact (M : positive) (e : Z) :
  -1074 <= e -> e <= fexp prec emax (Zpos (digits2_pos M) + e) ->
  exists (mz : positive) (ez : Z),
    binary_round_aux prec emax false (Zpos M) e loc_Exact
    = (if ez <=? 971 then S754_finite false mz ez else S754_infinity false) /\
    fexp prec emax (Zpos (digits2_pos M) + e) <= ez
    <= fexp prec emax (Zpos (digits2_pos M) + e) + 1 /\
    (vz (Zpos mz) ez
     = vz (Zpos M / 2 ^ (fexp prec emax (Zpos (digits2_pos M) + e) - e))
          (fexp prec emax (Zpos (digits2_pos M) + e)) \/
     (vz (Zpos mz) ez
      = vz (Zpos M / 2 ^ (fexp prec emax (Zpos (digits2_pos M) + e) - e) + 1)
           (fexp prec emax (Zpos (digits2_pos M) + e)) /\
      Zpos M mod 2 ^ (fexp prec emax (Zpos (digits2_pos M) + e) - e) <> 0)).
Proof.
  intros He Hle. set (eR := fexp prec emax (Zpos (digits2_pos M) + e)) in *.
  unfold binary_round_aux.
  destruct (Z.eq_dec eR e) as [Heq|Hne].
  - (* the mantissa already fits *)
    rewrite shr_fexp_noshift by (cbn [Zdigits2]; fold eR; lia).
    cbn [shr_record_of_loc shr_m loc_of_shr_record round_nearest_even].
    rewrite shr_fexp_noshift by (cbn [Zdigits2]; fold eR; lia).
    cbn [shr_record_of_loc shr_m].
    exists M, e. change (emax - prec) with 971.
    split; [reflexivity|]. split; [lia|]. left.
    rewrite Heq. replace (e - e) with 0 by lia. now rewrite Z.pow_0_r, Z.div_1_r.
  - (* low bits are dropped *)
    assert (Hlt : e < eR) by lia.
    destruct (shr_fexp_shift (Zpos M) e) as (mrs & Hs & Hv & Hi);
      [lia|cbn [Zdigits2]; fold eR; lia|].
    cbn [Zdigits2] in Hs, Hv, Hi. fold eR in Hs, Hv, Hi. rewrite Hs.
    assert (HeR : eR = Zpos (digits2_pos M) + e - 53).
    { unfold eR in *. rewrite fexp_eq in *. lia. }
    set (k := eR - e) in *.
    assert (Hk : k = Zpos (digits2_pos M) - 53) by lia.
    pose proof (digits2_pos_bounds M) as [Hd1 Hd2].
    assert (H2k : 0 < 2 ^ k) by (apply Z.pow_pos_nonneg; lia).
    assert (Hm' : 2 ^ 52 <= Zpos M / 2 ^ k < 2 ^ 53).
    { replace (Zpos (digits2_pos M) - 1) with (52 + k) in Hd1 by lia.
      replace (Zpos (digits2_pos M)) with (53 + k) in Hd2 by lia.
      rewrite Z.pow_add_r in Hd1, Hd2 by lia. split.
      - apply Z.div_le_lower_bound; lia.
      - apply Z.div_lt_upper_bound; lia. }
    set (m' := Zpos M / 2 ^ k) in *.
    set (m1 := round_nearest_even (shr_m mrs) (loc_of_shr_record mrs)).
    assert (Hm1 : m1 = m' \/ (m1 = m' + 1 /\ Zpos M mod 2 ^ k <> 0)).
    { subst m1. destruct (round_nearest_even_cases mrs) as [->|[-> Hin]].
      - left. exact Hv.
      - right. rewrite Hv. split; [reflexivity|]. now apply Hi. }
    change (emax - prec) with 971.
    destruct (Z.eq_dec m1 (2 ^ 53)) as [Hc|Hc].
    + (* the rounded mantissa carries into the next binade *)
      rewrite Hc.
      assert (Hsh : shr_fexp prec emax (2 ^ 53) eR loc_Exact
                    = ({| shr_m := 2 ^ 52; shr_r := false; shr_s := false |}, eR + 1)).
      { unfold shr_fexp. change (Zdigits2 (2 ^ 53)) with 54.
        replace (fexp prec emax (54 + eR) - eR) with 1 by (rewrite fexp_eq; lia).
        reflexivity. }
      rewrite Hsh. cbn [shr_m].
      exists (4503599627370496)%positive, (eR + 1).
      split; [reflexivity|]. split; [lia|].
      assert (Hval : vz (Zpos 4503599627370496) (eR + 1) = vz (2 ^ 53) eR).
      { unfold vz. replace (eR + 1 + 1074) with (1 + (eR + 1074)) by lia.
        rewrite Z.pow_add_r by lia. change (Zpos 4503599627370496) with (2 ^ 52).
        change (2 ^ 53) with (2 * 2 ^ 52). change (2 ^ 1) with 2. ring. }
      rewrite Hval. destruct Hm1 as [Hm1|[Hm1 Hin]]; [lia|].
      right. split; [|exact Hin]. now rewrite <- Hm1, Hc.
    + assert (Hb : 2 ^ 52 <= m1 < 2 ^ 53) by lia.
      destruct m1 as [|q|q] eqn:Eq; try lia.
      assert (Hdq : Zpos (digits2_pos q) = 53) by (apply digits_unique; exact Hb).
      rewrite shr_fexp_noshift by (cbn [Zdigits2]; rewrite Hdq, fexp_eq; lia).
      cbn [shr_record_of_loc shr_m].
      exists q, eR. split; [reflexivity|]. split; [lia|].
      destruct Hm1 as [Hm1|[Hm1 Hin]]; [left|right; split; [|exact Hin]]; now rewrite Hm1.
Qed.



Lemma pow2_pos x : 0 <= x -> 0 < 2 ^ x.
Proof. intros. apply Z.pow_pos_nonneg; lia. Qed.

Lemma pow2_split x y c : x <= y -> 0 <= x + c -> 2 ^ (y + c) = 2 ^ (y - x) * 2 ^ (x + c).
Proof. intros. rewrite <- Z.pow_add_r by lia. f_equal. lia. Qed.

Lemma rep_lt mw ew : rep mw ew -> vz (Zpos mw) ew < 2 ^ (ew + 1127).
Proof.
  intros [Hd He]. unfold vz. pose proof (digits2_pos_bounds mw) as [_ H].
  assert (Zpos mw < 2 ^ 53).
  { eapply Z.lt_le_trans; [exact H|]. apply Z.pow_le_mono_r; lia. }
  replace (ew + 1127) with (53 + (ew + 1074)) by lia.
  rewrite (Z.pow_add_r 2 53 (ew + 1074)) by lia.
  pose proof (pow2_pos (ew + 1074) ltac:(lia)). nia.
Qed.

(** Where the exponent chosen for a sum lies with respect to a number above it. *)
Lemma fexp_le_of_vz_le (M mw : positive) (e ew : Z) :
  -1074 <= e -> rep mw ew ->
  vz (Zpos M) e <= vz (Zpos mw) ew ->
  fexp prec emax (Zpos (digits2_pos M) + e) <= ew.
Proof.
  intros He [Hd Hew] Hle. unfold vz in Hle.
  pose proof (digits2_pos_bounds M) as [HM _].
  pose proof (digits2_pos_bounds mw) as [_ Hw].
  assert (H1 : 2 ^ (Zpos (digits2_pos M) - 1 + (e + 1074)) <= Zpos M * 2 ^ (e + 1074)).
  { rewrite (Z.pow_add_r 2 (Zpos (digits2_pos M) - 1) (e + 1074)) by lia.
    pose proof (pow2_pos (e + 1074) ltac:(lia)). nia. }
  assert (H2 : Zpos mw * 2 ^ (ew + 1074) < 2 ^ (Zpos (digits2_pos mw) + (ew + 1074))).
  { rewrite (Z.pow_add_r 2 (Zpos (digits2_pos mw)) (ew + 1074)) by lia.
    pose proof (pow2_pos (ew + 1074) ltac:(lia)). nia. }
  assert (H3 : Zpos (digits2_pos M) - 1 + (e + 1074) < Zpos (digits2_pos mw) + (ew + 1074)).
  { apply (Z.pow_lt_mono_r_iff 2); lia. }
  rewrite fexp_eq. lia.
Qed.

Lemma shifted_mantissa_bounds (M : positive) (e : Z) :
  -1074 <= e -> e < fexp prec emax (Zpos (digits2_pos M) + e) ->
  fexp prec emax (Zpos (digits2_pos M) + e) = Zpos (digits2_pos M) + e - 53 /\
  2 ^ 52 <= Zpos M / 2 ^ (fexp prec emax (Zpos (digits2_pos M) + e) - e) < 2 ^ 53.
Proof.
  intros He Hlt.
  assert (HeR : fexp prec emax (Zpos (digits2_pos M) + e) = Zpos (digits2_pos M) + e - 53).
  { rewrite fexp_eq in *. lia. }
  split; [exact HeR|]. rewrite HeR.
  replace (Zpos (digits2_pos M) + e - 53 - e) with (Zpos (digits2_pos M) - 53) by lia.
  rewrite HeR in Hlt.
  pose proof (digits2_pos_bounds M) as [Hd1 Hd2].
  set (k := Zpos (digits2_pos M) - 53) in *.
  replace (Zpos (digits2_pos M) - 1) with (52 + k) in Hd1 by lia.
  replace (Zpos (digits2_pos M)) with (53 + k) in Hd2 by lia.
  rewrite Z.pow_add_r in Hd1, Hd2 by lia.
  pose proof (pow2_pos k). split.
  - apply Z.div_le_lower_bound; lia.
  - apply Z.div_lt_upper_bound; lia.
Qed.

(** Rounding an exact value stays above every representable number below
    the value, and below every representable number above it. *)
Lemma round_exact_lower (M mw : positive) (e ew : Z) :
  -1074 <= e -> e <= fexp prec emax (Zpos (digits2_pos M) + e) ->
  rep mw ew ->
  vz (Zpos mw) ew <= vz (Zpos M) e ->
  exists (mz : positive) (ez : Z),
    binary_round_aux prec emax false (Zpos M) e loc_Exact
    = (if ez <=? 971 then S754_finite false mz ez else S754_infinity false) /\
    vz (Zpos mw) ew <= vz (Zpos mz) ez.
Proof.
  intros He Hle Hrep HW.
  destruct (binary_round_aux_exact M e He Hle) as (mz & ez & Hres & _ & Hval).
  exists mz, ez. split; [exact Hres|].
  set (eR := fexp prec emax (Zpos (digits2_pos M) + e)) in *.
  assert (Hfloor : vz (Zpos mw) ew <= vz (Zpos M / 2 ^ (eR - e)) eR).
  { destruct (Z.eq_dec eR e) as [Heq|Hne].
    - rewrite Heq. replace (e - e) with 0 by lia. now rewrite Z.pow_0_r, Z.div_1_r.
    - destruct (shifted_mantissa_bounds M e He) as [HeR Hm']; [fold eR; lia|].
      fold eR in HeR, Hm'. set (k := eR - e) in *.
      pose proof (pow2_pos k ltac:(lia)) as H2k.
      pose proof (pow2_pos (e + 1074) ltac:(lia)) as Hu.
      destruct (Z_le_gt_dec eR ew) as [Hge|Hlt].
      + (* the test point is a multiple of the rounding grid *)
        unfold vz in *.
        rewrite (pow2_split eR ew 1074) in * by lia.
        rewrite (pow2_split e eR 1074) in * by lia. fold k in HW |- *.
        assert (Hc : Zpos mw * 2 ^ (ew - eR) <= Zpos M / 2 ^ k).
        { apply Z.div_le_lower_bound; [lia|]. nia. }
        pose proof (pow2_pos (ew - eR) ltac:(lia)). nia.
      + (* the test point lies below the binade of the result *)
        pose proof (rep_lt mw ew Hrep) as Hw.
        assert (2 ^ (ew + 1127) <= 2 ^ (eR + 1126)) by (apply Z.pow_le_mono_r; lia).
        assert (2 ^ (eR + 1126) <= vz (Zpos M / 2 ^ k) eR).
        { unfold vz. replace (eR + 1126) with (52 + (eR + 1074)) by lia.
          rewrite (Z.pow_add_r 2 52 (eR + 1074)) by lia.
          pose proof (pow2_pos (eR + 1074) ltac:(lia)). nia. }
        lia. }
  destruct Hval as [->|[-> _]]; [exact Hfloor|].
  eapply Z.le_trans; [exact Hfloor|]. unfold vz.
  pose proof (pow2_pos (eR + 1074) ltac:(unfold eR; rewrite fexp_eq; lia)). nia.
Qed.

Lemma round_exact_upper (M mw : positive) (e ew : Z) :
  -1074 <= e -> e <= fexp prec emax (Zpos (digits2_pos M) + e) ->
  rep mw ew -> ew <= 970 ->
  vz (Zpos M) e <= vz (Zpos mw) ew ->
  exists (mz : positive) (ez : Z),
    binary_round_aux prec emax false (Zpos M) e loc_Exact = S754_finite false mz ez /\
    vz (Zpos mz) ez <= vz (Zpos mw) ew.
Proof.
  intros He Hle Hrep Hew HW.
  destruct (binary_round_aux_exact M e He Hle) as (mz & ez & Hres & Hez & Hval).
  pose proof (fexp_le_of_vz_le M mw e ew He Hrep HW) as HeRw.
  set (eR := fexp prec emax (Zpos (digits2_pos M) + e)) in *.
  exists mz, ez. split.
  { rewrite Hres. destruct (Z.leb_spec ez 971); [reflexivity|lia]. }
  destruct (Z.eq_dec eR e) as [Heq|Hne].
  - assert (Hid : Zpos M / 2 ^ (eR - e) = Zpos M).
    { replace (eR - e) with 0 by lia. now rewrite Z.pow_0_r, Z.div_1_r. }
    destruct Hval as [Hv|[_ Hin]].
    + rewrite Hv, Hid, Heq. exact HW.
    + exfalso. apply Hin. replace (eR - e) with 0 by lia. now rewrite Z.pow_0_r, Z.mod_1_r.
  - set (k := eR - e) in *.
    pose proof (pow2_pos k ltac:(lia)) as H2k.
    pose proof (pow2_pos (e + 1074) ltac:(lia)) as Hu.
    pose proof (pow2_pos (ew - eR) ltac:(lia)) as Hc.
    pose proof (Z.div_mod (Zpos M) (2 ^ k) ltac:(lia)) as Hdm.
    pose proof (Z.mod_pos_bound (Zpos M) (2 ^ k) H2k) as Hr.
    unfold vz in *.
    rewrite (pow2_split eR ew 1074) in * by lia.
    rewrite (pow2_split e eR 1074) in * by lia. fold k in HW, Hval |- *.
    set (c := Zpos mw * 2 ^ (ew - eR)) in *.
    assert (HMc : Zpos M <= c * 2 ^ k) by (subst c; nia).
    destruct Hval as [Hv|[Hv Hin]]; rewrite Z.mul_assoc in Hv; rewrite Hv.
    + assert (Zpos M / 2 ^ k <= c) by (apply Z.div_le_upper_bound; lia).
      subst c. nia.
    + assert (Zpos M / 2 ^ k < c) by nia.
      subst c. nia.
Qed.


(** ** Order and value of nonnegative numbers *)


Lemma canonical_iff m e : canonical_mantissa prec emax m e = true <-> canonical m e.
Proof. unfold canonical_mantissa, canonical. apply Z.eqb_eq. Qed.

Lemma canonical_rep m e : canonical m e -> rep m e.
Proof. unfold canonical, rep. rewrite fexp_eq. lia. Qed.

Lemma canonical_normal m e :
  canonical m e -> -1074 < e -> 2 ^ 52 <= Zpos m.
Proof.
  unfold canonical. rewrite fexp_eq. intros Hc He.
  pose proof (digits2_pos_bounds m) as [H _].
  replace (Zpos (digits2_pos m) - 1) with 52 in H by lia. exact H.
Qed.



Lemma vz_pos m e : -1074 <= e -> 0 < vz (Zpos m) e.
Proof.
  intros He. unfold vz. pose proof (pow2_pos (e + 1074) ltac:(lia)). nia.
Qed.

Lemma canonical_ge m e : canonical m e -> -1074 <= e.
Proof. unfold canonical. rewrite fexp_eq. lia. Qed.

Lemma vz_lt_of_exp_lt m1 e1 m2 e2 :
  canonical m1 e1 -> canonical m2 e2 -> e1 < e2 -> vz (Zpos m1) e1 < vz (Zpos m2) e2.
Proof.
  intros H1 H2 Hlt.
  pose proof (canonical_ge _ _ H1) as He1.
  pose proof (rep_lt m1 e1 (canonical_rep _ _ H1)) as Hu.
  pose proof (canonical_normal m2 e2 H2 ltac:(lia)) as Hn.
  assert (2 ^ (e1 + 1127) <= 2 ^ (e2 + 1126)) by (apply Z.pow_le_mono_r; lia).
  assert (2 ^ (e2 + 1126) <= vz (Zpos m2) e2).
  { unfold vz. replace (e2 + 1126) with (52 + (e2 + 1074)) by lia.
    rewrite (Z.pow_add_r 2 52 (e2 + 1074)) by lia.
    pose proof (pow2_pos (e2 + 1074) ltac:(lia)). nia. }
  lia.
Qed.

Lemma SFcompare_value m1 e1 m2 e2 :
  canonical m1 e1 -> canonical m2 e2 ->
  SFcompare (S754_finite false m1 e1) (S754_finite false m2 e2)
  = Some (vz (Zpos m1) e1 ?= vz (Zpos m2) e2).
Proof.
  intros H1 H2. cbn [SFcompare]. f_equal.
  destruct (Z.compare_spec e1 e2) as [Heq|Hlt|Hgt].
  - subst e2. change (Pos.compare_cont Eq m1 m2) with (Zpos m1 ?= Zpos m2).
    unfold vz. pose proof (pow2_pos (e1 + 1074) ltac:(pose proof (canonical_ge _ _ H1); lia)).
    symmetry. destruct (Z.compare_spec (Zpos m1) (Zpos m2)) as [E|E|E].
    + rewrite E. apply Z.compare_refl.
    + apply Z.compare_lt_iff. nia.
    + apply Z.compare_gt_iff. nia.
  - symmetry. apply Z.compare_lt_iff. now apply vz_lt_of_exp_lt.
  - symmetry. apply Z.compare_gt_iff. now apply vz_lt_of_exp_lt.
Qed.

Lemma SFleb_value x y :
  nonneg x -> nonneg y -> SFleb x y = (value x <=? value y).
Proof.
  unfold SFleb.
  destruct x as [sx|sx| |[] mx ex], y as [sy|sy| |[] my ey]; cbn [nonneg]; try tauto;
    intros Hx Hy.
  - cbn [SFcompare value]. pose proof (vz_pos my ey (canonical_ge _ _ Hy)).
    symmetry. apply Z.leb_le. lia.
  - cbn [SFcompare value]. pose proof (vz_pos mx ex (canonical_ge _ _ Hx)).
    symmetry. apply Z.leb_gt. lia.
  - rewrite SFcompare_value by assumption. cbn [value]. unfold Z.leb.
    destruct (vz (Zpos mx) ex ?= vz (Zpos my) ey); reflexivity.
Qed.

(** ** The sum of two positive numbers *)

Lemma iter_xO (m d : positive) : Zpos (Pos.iter xO m d) = Zpos m * 2 ^ Zpos d.
Proof.
  induction d as [|d IH] using Pos.peano_ind.
  - cbn. lia.
  - rewrite Pos.iter_succ, Pos2Z.inj_xO, IH, Pos2Z.inj_succ, Z.pow_succ_r by lia. ring.
Qed.

Lemma shl_align_value mx ex ez :
  ez <= ex -> Zpos (fst (shl_align mx ex ez)) = Zpos mx * 2 ^ (ex - ez).
Proof.
  intros H. unfold shl_align. destruct (ez - ex) as [|d|d] eqn:E; try lia; cbn [fst].
  - replace (ex - ez) with 0 by lia. rewrite Z.pow_0_r. lia.
  - rewrite iter_xO. f_equal. f_equal. lia.
Qed.

Lemma shl_align_noshift mx ex ex' : ex <= ex' -> shl_align mx ex ex' = (mx, ex).
Proof.
  intros H. unfold shl_align. destruct (ex' - ex) eqn:E; try reflexivity. lia.
Qed.

Lemma digits_mono (m1 m2 : positive) :
  Zpos m1 <= Zpos m2 -> Zpos (digits2_pos m1) <= Zpos (digits2_pos m2).
Proof.
  intros H. pose proof (digits2_pos_bounds m1) as [H1 _].
  pose proof (digits2_pos_bounds m2) as [_ H2].
  assert (Zpos (digits2_pos m1) - 1 < Zpos (digits2_pos m2)).
  { apply (Z.pow_lt_mono_r_iff 2); lia. }
  lia.
Qed.

Lemma vz_double m e : -1074 <= e -> vz m (e + 1) = 2 * vz m e.
Proof.
  intros He. unfold vz. replace (e + 1 + 1074) with (1 + (e + 1074)) by lia.
  rewrite Z.pow_add_r by lia. change (2 ^ 1) with 2. ring.
Qed.

Lemma SFadd_between ma ea mb eb :
  canonical ma ea -> canonical mb eb -> eb <= 969 ->
  vz (Zpos ma) ea <= vz (Zpos mb) eb ->
  exists mz ez,
    SFadd prec emax (S754_finite false ma ea) (S754_finite false mb eb)
    = S754_finite false mz ez /\
    2 * vz (Zpos ma) ea <= vz (Zpos mz) ez <= 2 * vz (Zpos mb) eb.
Proof.
  intros Ha Hb Hmax Hle.
  pose proof (canonical_ge _ _ Ha) as Hea. pose proof (canonical_ge _ _ Hb) as Heb.
  cbn [SFadd cond_Zopp]. set (ez := Z.min ea eb).
  set (A := fst (shl_align ma ea ez)). set (B := fst (shl_align mb eb ez)).
  change (Zpos A + Zpos B) with (Zpos (A + B)).
  cbn [binary_normalize]. unfold binary_round.
  assert (HA : Zpos A = Zpos ma * 2 ^ (ea - ez)) by (apply shl_align_value; lia).
  assert (HB : Zpos B = Zpos mb * 2 ^ (eb - ez)) by (apply shl_align_value; lia).
  assert (Hez : -1074 <= ez) by lia.
  assert (Hfe : ez <= fexp prec emax (Zpos (digits2_pos (A + B)) + ez)).
  { destruct (Z_le_gt_dec ea eb) as [Hab|Hab].
    - replace ez with ea in * by lia. rewrite <- Ha at 1. apply fexp_mono.
      replace (ea - ea) with 0 in HA by lia. rewrite Z.pow_0_r in HA.
      pose proof (digits_mono ma (A + B) ltac:(lia)). lia.
    - replace ez with eb in * by lia. rewrite <- Hb at 1. apply fexp_mono.
      replace (eb - eb) with 0 in HB by lia. rewrite Z.pow_0_r in HB.
      pose proof (digits_mono mb (A + B) ltac:(lia)). lia. }
  rewrite shl_align_noshift by exact Hfe.
  assert (Hsum : vz (Zpos (A + B)) ez = vz (Zpos ma) ea + vz (Zpos mb) eb).
  { unfold vz. rewrite Pos2Z.inj_add, HA, HB.
    rewrite (pow2_split ez ea 1074), (pow2_split ez eb 1074) by lia. ring. }
  assert (Hra : rep ma (ea + 1)).
  { destruct (canonical_rep _ _ Ha). split; lia. }
  assert (Hrb : rep mb (eb + 1)).
  { destruct (canonical_rep _ _ Hb). split; lia. }
  destruct (round_exact_upper (A + B) mb ez (eb + 1) Hez Hfe Hrb ltac:(lia))
    as (mz & ez' & Hres & Hup).
  { rewrite Hsum, vz_double by lia. lia. }
  destruct (round_exact_lower (A + B) ma ez (ea + 1) Hez Hfe Hra)
    as (mz2 & ez2 & Hres2 & Hlow).
  { rewrite Hsum, vz_double by lia. lia. }
  exists mz, ez'. split; [exact Hres|].
  rewrite Hres in Hres2. destruct (ez2 <=? 971); [|discriminate].
  injection Hres2 as -> ->.
  rewrite vz_double in Hup, Hlow by lia. lia.
Qed.

(** ** Halving a positive number *)


Lemma div_eucl_pair a b : Z.div_eucl a b = (a / b, a mod b).
Proof. unfold Z.div, Z.modulo. now destruct (Z.div_eucl a b). Qed.

Lemma digits_le_53 (m : positive) : Zpos m < 2 ^ 53 -> Zpos (digits2_pos m) <= 53.
Proof.
  intros H. pose proof (digits2_pos_bounds m) as [H1 _].
  assert (Zpos (digits2_pos m) - 1 < 53) by (apply (Z.pow_lt_mono_r_iff 2); lia).
  lia.
Qed.

Lemma canonical_lt m e : canonical m e -> Zpos m < 2 ^ 53.
Proof.
  unfold canonical. rewrite fexp_eq. intros H.
  pose proof (digits2_pos_bounds m) as [_ H2].
  eapply Z.lt_le_trans; [exact H2|]. apply Z.pow_le_mono_r; lia.
Qed.

Lemma SFdiv_core_half_low (ms : positive) :
  Zpos ms < 2 ^ 53 ->
  SFdiv_core_binary prec emax (Zpos ms) (-1074) (Zpos two_m) (-51)
  = (Zpos ms / 2, -1074, if Z.even (Zpos ms) then loc_Exact else loc_Inexact Eq).
Proof.
  intros Hlt. unfold SFdiv_core_binary. cbn [Zdigits2].
  change (digits2_pos two_m) with 53%positive.
  pose proof (digits_le_53 ms Hlt) as Hd.
  replace (Z.min (fexp prec emax (Zpos (digits2_pos ms) + -1074 - (53 + -51))) (-1074 - -51))
    with (-1074) by (rewrite fexp_eq; lia).
  change (-1074 - -51 - -1074) with 51. cbv iota.
  rewrite Z.shiftl_mul_pow2 by lia. rewrite div_eucl_pair.
  change (Zpos two_m) with (2 * 2 ^ 51).
  rewrite Z.div_mul_cancel_r by lia. rewrite Z.mul_mod_distr_r by lia.
  rewrite Zeven_mod.
  pose proof (Z.mod_pos_bound (Zpos ms) 2 ltac:(lia)) as Hb.
  destruct (Z.eq_dec (Zpos ms mod 2) 0) as [E|E].
  - rewrite E. reflexivity.
  - replace (Zpos ms mod 2) with 1 by lia. reflexivity.
Qed.

Lemma SFdiv_core_half_normal (ms : positive) (es : Z) :
  canonical ms es -> -1074 < es ->
  exists (q : positive) (e' : Z),
    SFdiv_core_binary prec emax (Zpos ms) es (Zpos two_m) (-51) = (Zpos q, e', loc_Exact) /\
    -1074 <= e' /\ 2 ^ 52 <= Zpos q /\
    vz (Zpos q) e' = vz (Zpos ms) (es - 1).
Proof.
  intros Hc Hes. unfold SFdiv_core_binary. cbn [Zdigits2].
  change (digits2_pos two_m) with 53%positive.
  assert (Hd : Zpos (digits2_pos ms) = 53).
  { unfold canonical in Hc. rewrite fexp_eq in Hc. lia. }
  rewrite Hd.
  set (e' := Z.min (fexp prec emax (53 + es - (53 + -51))) (es - -51)).
  assert (He' : e' = Z.max (es - 2) (-1074)).
  { unfold e'. rewrite fexp_eq. lia. }
  pose proof (canonical_normal ms es Hc Hes) as Hn.
  destruct (es - -51 - e') as [|p|p] eqn:Es; try lia.
  rewrite Z.shiftl_mul_pow2 by lia. rewrite div_eucl_pair.
  assert (Hsplit : 2 ^ Zpos p = 2 ^ (Zpos p - 52) * 2 ^ 52).
  { rewrite <- Z.pow_add_r by lia. f_equal. lia. }
  change (Zpos two_m) with (2 ^ 52).
  rewrite Hsplit, Z.mul_assoc, Z.div_mul, Z.mod_mul by lia.
  pose proof (pow2_pos (Zpos p - 52) ltac:(lia)) as Hp.
  destruct (Zpos ms * 2 ^ (Zpos p - 52)) as [|q|q] eqn:Eq; try lia.
  exists q, e'. split; [reflexivity|]. split; [lia|]. split; [nia|].
  unfold vz. rewrite <- Eq.
  rewrite <- Z.mul_assoc, <- Z.pow_add_r by lia. f_equal. f_equal. lia.
Qed.

Lemma Zdigits2_le_53 (q : Z) : 0 <= q < 2 ^ 53 -> Zdigits2 q <= 53.
Proof.
  intros [H0 H1]. destruct q as [|q|q]; cbn [Zdigits2]; try lia.
  now apply digits_le_53.
Qed.

(** Halving rounds to one of the two neighbours of the exact half. *)
Lemma SFdiv_half (ms : positive) (es : Z) :
  canonical ms es -> es <= 971 ->
  exists h,
    SFdiv prec emax (S754_finite false ms es) two_sf = h /\
    (h = S754_zero false \/ exists mh eh, h = S754_finite false mh eh) /\
    vz (Zpos ms) es <= 2 * value h + 1 /\
    2 * value h <= vz (Zpos ms) es + 1.
Proof.
  intros Hc Hmax. pose proof (canonical_ge _ _ Hc) as Hes.
  unfold two_sf. cbn [SFdiv xorb].
  destruct (Z.eq_dec es (-1074)) as [->|Hne].
  - (* lowest binade: the half may fall between two numbers *)
    pose proof (canonical_lt _ _ Hc) as Hlt.
    rewrite SFdiv_core_half_low by exact Hlt.
    assert (HV : vz (Zpos ms) (-1074) = Zpos ms) by (unfold vz; cbn; lia).
    rewrite HV.
    set (q := Zpos ms / 2).
    pose proof (Z.div_mod (Zpos ms) 2 ltac:(lia)) as Hdm. fold q in Hdm.
    pose proof (Z.mod_pos_bound (Zpos ms) 2 ltac:(lia)) as Hb.
    assert (Hq : 0 <= q < 2 ^ 52) by (change (2 ^ 53) with (2 * 2 ^ 52) in Hlt; lia).
    unfold binary_round_aux.
    rewrite shr_fexp_noshift
      by (pose proof (Zdigits2_le_53 q ltac:(lia)); rewrite fexp_eq; lia).
    set (m1 := round_nearest_even
                 (shr_m (shr_record_of_loc q (if Z.even (Zpos ms) then loc_Exact else loc_Inexact Eq)))
                 (loc_of_shr_record
                    (shr_record_of_loc q (if Z.even (Zpos ms) then loc_Exact else loc_Inexact Eq)))).
    assert (Hm1 : (m1 = q /\ (Zpos ms mod 2 = 0 \/ Zpos ms mod 2 = 1)) \/
                  (m1 = q + 1 /\ Zpos ms mod 2 = 1)).
    { subst m1. rewrite Zeven_mod.
      destruct (Z.eqb_spec (Zpos ms mod 2) 0) as [E|E];
        cbn [shr_record_of_loc shr_m loc_of_shr_record round_nearest_even].
      - left. split; [reflexivity|]. now left.
      - assert (Zpos ms mod 2 = 1) by lia.
        destruct (Z.even q); [left|right]; split; auto. }
    rewrite shr_fexp_noshift
      by (pose proof (Zdigits2_le_53 m1 ltac:(lia)); rewrite fexp_eq; lia).
    cbn [shr_record_of_loc shr_m]. change (emax - prec) with 971.
    destruct m1 as [|p|p] eqn:E1; try lia.
    + eexists. split; [reflexivity|]. split; [now left|]. cbn [value]. lia.
    + change (-1074 <=? 971) with true. cbv iota.
      eexists. split; [reflexivity|]. split; [right; eauto|].
      cbn [value]. unfold vz. change (2 ^ (-1074 + 1074)) with 1. lia.
  - (* every higher binade: the half is exact *)
    destruct (SFdiv_core_half_normal ms es Hc ltac:(lia)) as (q & e' & Hcore & He' & Hq & Hv).
    rewrite Hcore.
    assert (Hfe : e' <= fexp prec emax (Zpos (digits2_pos q) + e')).
    { pose proof (digits_mono two_m q Hq) as Hd.
      change (Zpos (digits2_pos two_m)) with 53 in Hd. rewrite fexp_eq. lia. }
    assert (Hrep : rep ms (es - 1)).
    { destruct (canonical_rep _ _ Hc). split; lia. }
    destruct (round_exact_upper q ms e' (es - 1) He' Hfe Hrep ltac:(lia) ltac:(lia))
      as (mz & ez & Hres & Hup).
    destruct (round_exact_lower q ms e' (es - 1) He' Hfe Hrep ltac:(lia))
      as (mz2 & ez2 & Hres2 & Hlow).
    rewrite Hres in Hres2. destruct (ez2 <=? 971); [|discriminate].
    injection Hres2 as Hm He. subst mz2 ez2.
    exists (S754_finite false mz ez). split; [exact Hres|]. split; [right; eauto|].
    cbn [value].
    pose proof (vz_double (Zpos ms) (es - 1) ltac:(lia)) as Hd.
    replace (es - 1 + 1) with es in Hd by lia. lia.
Qed.

End Rounding.

Module Midpoint.
Import Binary64 Rounding.

Lemma valid_canonical (x : float) s m e :
  Prim2SF x = S754_finite s m e -> canonical m e /\ e <= 971.
Proof.
  intros H. pose proof (Prim2SF_valid x) as Hv. rewrite H in Hv.
  cbn [valid_binary] in Hv. unfold bounded in Hv.
  apply andb_true_iff in Hv. destruct Hv as [Hc He].
  split; [now apply canonical_iff|]. apply Z.leb_le in He. exact He.
Qed.

(** A yield between 0 and 100 is zero or a positive number of small
    exponent. *)
Lemma sane_shape (x : float) :
  PrimFloat.leb 0 x = true -> PrimFloat.leb x 100 = true ->
  (exists s, Prim2SF x = S754_zero s) \/
  (exists m e, Prim2SF x = S754_finite false m e /\ canonical m e /\ e <= -46).
Proof.
  rewrite !leb_spec. change (Prim2SF 0) with (S754_zero false).
  change (Prim2SF 100) with (S754_finite false 7036874417766400 (-46)).
  unfold SFleb. intros H0 H100.
  destruct (Prim2SF x) as [s|[]| |[] m e] eqn:E; cbn [SFcompare] in H0, H100;
    try discriminate.
  - left. eauto.
  - right. exists m, e. split; [reflexivity|].
    destruct (valid_canonical x _ _ _ E) as [Hc _]. split; [exact Hc|].
    destruct (Z.compare_spec e (-46)); try lia; discriminate.
Qed.

Lemma nonneg_Prim2SF (x : float) :
  (Prim2SF x = S754_zero false \/ exists m e, Prim2SF x = S754_finite false m e) ->
  nonneg (Prim2SF x).
Proof.
  intros [H|(m & e & H)].
  - rewrite H. exact I.
  - destruct (valid_canonical x _ _ _ H) as [Hc _]. rewrite H. exact Hc.
Qed.

(** The mean of two yields [a <= b] lies between them. *)
Theorem midpoint_between (a b : float) :
  PrimFloat.leb 0 a = true -> PrimFloat.leb a b = true -> PrimFloat.leb b 100 = true ->
  PrimFloat.leb a (PrimFloat.div (PrimFloat.add a b) 2) = true /\
  PrimFloat.leb (PrimFloat.div (PrimFloat.add a b) 2) b = true.
Proof.
  intros H0a Hab Hb100.
  pose proof (leb_trans _ _ _ H0a Hab) as H0b.
  pose proof (leb_trans _ _ _ Hab Hb100) as Ha100.
  pose proof Hab as Hab'. rewrite leb_spec in Hab'.
  set (h := PrimFloat.div (PrimFloat.add a b) 2).
  assert (Hh : Prim2SF h = SFdiv prec emax (SFadd prec emax (Prim2SF a) (Prim2SF b)) two_sf).
  { unfold h. rewrite div_spec, add_spec. reflexivity. }
  rewrite !leb_spec.
  destruct (sane_shape a H0a Ha100) as [[sa Ea]|(ma & ea & Ea & Hca & Hea)];
    destruct (sane_shape b H0b Hb100) as [[sb Eb]|(mb & eb & Eb & Hcb & Heb)];
    rewrite Ea, Eb in *.
  - (* both zero *)
    assert (Hz : exists s, Prim2SF h = S754_zero s).
    { rewrite Hh. destruct sa, sb; cbn [SFadd SFdiv two_sf xorb]; eauto. }
    destruct Hz as [s ->]. split; reflexivity.
  - (* a zero, b positive *)
    cbn [SFadd] in Hh.
    destruct (SFdiv_half mb eb Hcb ltac:(lia)) as (x & Hx & Hshape & Hlo & Hhi).
    rewrite Hx in Hh.
    assert (Hnn : nonneg (Prim2SF h)).
    { apply nonneg_Prim2SF. rewrite Hh. exact Hshape. }
    pose proof (vz_pos mb eb (canonical_ge _ _ Hcb)) as Hpos.
    assert (Hvh : 0 <= value (Prim2SF h)).
    { rewrite Hh. destruct Hshape as [->|(mh & eh & ->)]; cbn [value]; [lia|].
      rewrite Hh in Hnn. pose proof (vz_pos mh eh (canonical_ge _ _ Hnn)). lia. }
    rewrite !SFleb_value by (try exact Hnn; try exact I; exact Hcb).
    rewrite Hh in *. cbn [value] in *. split; apply Z.leb_le; lia.
  - (* a positive, b zero: excluded by a <= b *)
    cbn [SFleb SFcompare] in Hab'. discriminate.
  - (* both positive *)
    rewrite (SFleb_value (S754_finite false ma ea) (S754_finite false mb eb)) in Hab'
      by assumption.
    apply Z.leb_le in Hab'. cbn [value] in Hab'.
    destruct (SFadd_between ma ea mb eb Hca Hcb ltac:(lia) Hab') as (mz & ez & Hs & Hlo & Hhi).
    assert (Hcs : canonical mz ez /\ ez <= 971).
    { apply (valid_canonical (PrimFloat.add a b) false). rewrite add_spec, Ea, Eb. exact Hs. }
    destruct Hcs as [Hcs Hez].
    rewrite Hs in Hh.
    destruct (SFdiv_half mz ez Hcs Hez) as (x & Hx & Hshape & Hl & Hu).
    rewrite Hx in Hh.
    assert (Hnn : nonneg (Prim2SF h)).
    { apply nonneg_Prim2SF. rewrite Hh. exact Hshape. }
    rewrite !SFleb_value by (try exact Hnn; assumption).
    rewrite Hh in *. cbn [value] in *. split; apply Z.leb_le; lia.
Qed.

End Midpoint.

(** ** The monad and stage 1 *)

Section MonadFacts.
Context {A B : Type}.

Lemma trace_bind (m : M A) (k : A -> M B) t :
  trace (bind m k t) = trace (m t) ++ trace (k (val (m t)) (ticks (m t))).
Proof. reflexivity. Qed.

Lemma val_bind (m : M A) (k : A -> M B) t :
  val (bind m k t) = val (k (val (m t)) (ticks (m t))).
Proof. reflexivity. Qed.

Lemma ticks_bind (m : M A) (k : A -> M B) t :
  ticks (bind m k t) = ticks (k (val (m t)) (ticks (m t))).
Proof. reflexivity. Qed.
End MonadFacts.

Lemma writes_app l1 l2 : writes (l1 ++ l2) = writes l1 ++ writes l2.
Proof. apply omap_app. Qed.

Lemma requests_app l1 l2 : requests (l1 ++ l2) = requests l1 ++ requests l2.
Proof. apply omap_app. Qed.

Lemma csv_writes_app l1 l2 : csv_writes (l1 ++ l2) = csv_writes l1 ++ csv_writes l2.
Proof. unfold csv_writes. rewrite writes_app. apply List.filter_app. Qed.

(** *** Stage 1 *)
Section Stage1.
Variable env : Env.


Lemma dict_set_keys_fresh {V} (data : list (string * V)) k v :
  ~ In k (map fst data) -> map fst (dict_set data k v) = map fst data ++ [k].
Proof.
  induction data as [|[k' v'] r IH]; simpl; intros Hk; [reflexivity|].
  destruct (String.eqb_spec k' k) as [->|Hne].
  - exfalso. apply Hk. now left.
  - simpl. f_equal. apply IH. intros Hin. apply Hk. now right.
Qed.

Lemma fetch_loop_requests items s e data t :
  requests (trace (fetch_loop env items s e data t)) = map snd items.
Proof.
  revert data t. induction items as [|[maturity code] rest IH]; intros data t; [reflexivity|].
  simpl fetch_loop. rewrite !trace_bind, !requests_app, IH.
  simpl. destruct (get_data_fred env code s e); reflexivity.
Qed.

Lemma fetch_loop_writes items s e data t :
  writes (trace (fetch_loop env items s e data t)) = [].
Proof.
  revert data t. induction items as [|[maturity code] rest IH]; intros data t; [reflexivity|].
  simpl fetch_loop. rewrite !trace_bind, !writes_app, IH.
  simpl. destruct (get_data_fred env code s e); reflexivity.
Qed.

Lemma fetch_loop_ticks items s e data t :
  ticks (fetch_loop env items s e data t) = t.
Proof.
  revert data t. induction items as [|[maturity code] rest IH]; intros data t; [reflexivity|].
  simpl fetch_loop. rewrite !ticks_bind, IH.
  simpl. destruct (get_data_fred env code s e); reflexivity.
Qed.

(** The value of the loop does not depend on the clock position. *)
Lemma fetch_loop_val_keys items s e data t :
  NoDup (map fst items) ->
  (forall k, In k (map fst data) -> ~ In k (map fst items)) ->
  map fst (val (fetch_loop env items s e data t))
  = map fst data ++ map fst (List.filter (fetched env s e) items).
Proof.
  revert data t. induction items as [|[maturity code] rest IH]; intros data t Hnd Hfresh.
  - simpl. now rewrite app_nil_r.
  - apply NoDup_cons in Hnd. destruct Hnd as [Hnotin Hnd].
    assert (Hrest : forall k, In k (map fst data) -> ~ In k (map fst rest)).
    { intros k Hk Hin. apply (Hfresh k Hk). now right. }
    assert (Hm : ~ In maturity (map fst data)).
    { intros Hin. apply (Hfresh _ Hin). now left. }
    cbn [fetch_loop]. rewrite !val_bind.
    cbn [List.filter]. unfold fetched at 1.
    cbn [fetch bind emit ret val ticks snd].
    destruct (get_data_fred env code s e) as [err|rates] eqn:E;
      cbn [print emit bind ret val ticks].
    + apply IH; assumption.
    + rewrite IH; [|assumption|].
      * rewrite dict_set_keys_fresh by assumption.
        cbn [map fst]. now rewrite <- app_assoc.
      * intros k Hk Hin. rewrite dict_set_keys_fresh in Hk by assumption.
        apply in_app_or in Hk. destruct Hk as [Hk|[<-|[]]].
        -- now apply (Hrest k).
        -- apply Hnotin. apply list_elem_of_In. exact Hin.
Qed.

Lemma fetch_loop_val_ticks items s e data t t' :
  val (fetch_loop env items s e data t) = val (fetch_loop env items s e data t').
Proof.
  revert data t t'. induction items as [|[maturity code] rest IH]; intros data t t'; [reflexivity|].
  cbn [fetch_loop]. rewrite !val_bind. cbn [fetch bind emit ret val ticks].
  destruct (get_data_fred env code s e); cbn [print emit bind ret val ticks]; apply IH.
Qed.

Lemma series_keys_NoDup : NoDup (map fst series).
Proof. apply NoDup_ListNoDup. repeat constructor; simpl; intuition discriminate. Qed.

Lemma fetch_all_keys years t :
  map fst (fetch_all env years t)
  = map fst (List.filter (fetched env (minus_days (clock env t) (365 * years)) (clock env t)) series).
Proof.
  unfold fetch_all. rewrite fetch_loop_val_keys.
  - reflexivity.
  - apply series_keys_NoDup.
  - intros k [].
Qed.

Lemma get_treasury_data_val years t :
  val (get_treasury_data env years t)
  = Pandas.dropna_all (Pandas.DataFrame_of_dict (fetch_all env years t)).
Proof.
  unfold get_treasury_data, fetch_all. rewrite !val_bind.
  cbn [now print emit bind ret val ticks].
  rewrite (fetch_loop_val_ticks _ _ _ _ _ t).
  destruct (val (fetch_loop env series _ _ [] t)); reflexivity.
Qed.

Lemma get_treasury_data_ticks years t : ticks (get_treasury_data env years t) = S t.
Proof.
  unfold get_treasury_data. rewrite !ticks_bind.
  cbn [now print emit bind ret val ticks]. rewrite fetch_loop_ticks.
  destruct (val (fetch_loop env series _ _ [] _)); reflexivity.
Qed.

Lemma get_treasury_data_requests years t :
  requests (trace (get_treasury_data env years t)) = map snd series.
Proof.
  unfold get_treasury_data. rewrite !trace_bind, !requests_app, fetch_loop_requests.
  cbn [now print emit bind ret val ticks trace requests omap app].
  destruct (val (fetch_loop env series _ _ [] _)); cbn; rewrite ?app_nil_r; reflexivity.
Qed.

Lemma get_treasury_data_writes years t :
  writes (trace (get_treasury_data env years t))
  = match fetch_all env years t with
    | [] => []
    | _ :: _ => [(data_path (clock env t), CsvFrame (val (get_treasury_data env years t)))]
    end.
Proof.
  rewrite get_treasury_data_val.
  unfold get_treasury_data, fetch_all. rewrite !trace_bind, !writes_app, fetch_loop_writes.
  cbn [now print emit bind ret val ticks trace writes omap app].
  rewrite (fetch_loop_val_ticks _ _ _ _ _ t).
  destruct (val (fetch_loop env series _ _ [] t)); reflexivity.
Qed.
End Stage1.

(** ** Stage 2 *)

Section Stage2.
Variable env : Env.

Lemma print_yields_ticks current ms t : ticks (print_yields current ms t) = t.
Proof.
  revert t. induction ms as [|m r IH]; intros t; [reflexivity|].
  cbn [print_yields]. rewrite ticks_bind, IH.
  destruct (Pandas.contains _ m); reflexivity.
Qed.

Lemma print_yields_writes current ms t : writes (trace (print_yields current ms t)) = [].
Proof.
  revert t. induction ms as [|m r IH]; intros t; [reflexivity|].
  cbn [print_yields]. rewrite trace_bind, writes_app, IH.
  destruct (Pandas.contains _ m); reflexivity.
Qed.

Lemma primary_spread_val current t : val (primary_spread current t) = primary_of current.
Proof.
  unfold primary_spread, primary_of, both_present.
  destruct (_ && _); reflexivity.
Qed.

Lemma primary_spread_ticks current t : ticks (primary_spread current t) = t.
Proof. unfold primary_spread. destruct (_ && _); reflexivity. Qed.

Lemma primary_spread_writes current t : writes (trace (primary_spread current t)) = [].
Proof. unfold primary_spread. destruct (_ && _); reflexivity. Qed.

Lemma primary_spread_trace current t :
  trace (primary_spread current t)
  = match primary_of current with
    | Some (spread, _) =>
        [Printed (Text [Str newline; Str "📈 KEY SPREADS"]) true;
         Printed (Text [Str (str_mul "-" 20)]) true;
         Printed (Text [Str "2Y-10Y: "; Flt "+.3f" spread; Str "% "]) false;
         Printed (Text [Str (fst (classify spread))]) true]
    | None => []
    end.
Proof.
  unfold primary_spread, primary_of, both_present.
  destruct (_ && _); reflexivity.
Qed.

Lemma spread_3m10y_ticks current t : ticks (spread_3m10y current t) = t.
Proof. unfold spread_3m10y. destruct (_ && _); reflexivity. Qed.

Lemma spread_3m10y_writes current t : writes (trace (spread_3m10y current t)) = [].
Proof. unfold spread_3m10y. destruct (_ && _); reflexivity. Qed.

Lemma spread_5y30y_ticks current t : ticks (spread_5y30y current t) = t.
Proof. unfold spread_5y30y. destruct (_ && _); reflexivity. Qed.

Lemma spread_5y30y_writes current t : writes (trace (spread_5y30y current t)) = [].
Proof. unfold spread_5y30y. destruct (_ && _); reflexivity. Qed.

Lemma analyze_rates_val df n_days t :
  val (analyze_rates env df n_days t)
  = if Pandas.empty df then None else Some (stats_of df n_days).
Proof.
  unfold analyze_rates. destruct (Pandas.empty df); reflexivity.
Qed.

Lemma analyze_rates_ticks df n_days t :
  ticks (analyze_rates env df n_days t) = if Pandas.empty df then t else S t.
Proof.
  unfold analyze_rates. destruct (Pandas.empty df); [reflexivity|].
  rewrite !ticks_bind. cbn [print print_table emit now write bind ret val ticks].
  rewrite print_yields_ticks, primary_spread_ticks, spread_3m10y_ticks, spread_5y30y_ticks.
  reflexivity.
Qed.

Lemma analyze_rates_writes df n_days t :
  writes (trace (analyze_rates env df n_days t))
  = if Pandas.empty df then []
    else [(summary_path (clock env t),
           CsvRecords [summary_data df (Pandas.iloc_last df) (primary_of (Pandas.iloc_last df))])].
Proof.
  unfold analyze_rates. destruct (Pandas.empty df); [reflexivity|].
  rewrite !trace_bind, !writes_app.
  cbn [print print_table emit now write bind ret val ticks trace].
  rewrite print_yields_writes, primary_spread_writes, spread_3m10y_writes, spread_5y30y_writes.
  rewrite !print_yields_ticks, !primary_spread_ticks, !spread_3m10y_ticks, !spread_5y30y_ticks.
  rewrite primary_spread_val. reflexivity.
Qed.

(** The events of the 2Y-10Y block sit inside the analysis trace. *)
Lemma analyze_rates_trace_primary df n_days t :
  Pandas.empty df = false ->
  exists pre post,
    trace (analyze_rates env df n_days t)
    = pre ++ trace (primary_spread (Pandas.iloc_last df) t) ++ post.
Proof.
  intros He. unfold analyze_rates. rewrite He.
  rewrite !trace_bind.
  cbn [print print_table emit now write bind ret val ticks trace].
  rewrite !print_yields_ticks.
  eexists (_ :: _ :: trace (print_yields _ _ _)), _.
  cbn [app]. reflexivity.
Qed.
End Stage2.

(** ** Labelled rows and the classification ladder *)

Section PandasFacts.
Lemma get_loc_get (r : Pandas.Row) name :
  Pandas.get_loc name (Pandas.labels r) = None <-> Pandas.get r name = None.
Proof.
  unfold Pandas.labels.
  induction r as [|[k v] rest IH]; cbn; [tauto|].
  destruct (String.eqb k name); [split; discriminate|].
  destruct (Pandas.get_loc name (map fst rest)) as [i|]; cbn.
  - split; intros H; [discriminate H|]. apply IH in H. discriminate H.
  - split; [|reflexivity]. intros _. now apply IH.
Qed.

Lemma get_contains r name v :
  Pandas.get r name = Some v -> Pandas.contains (Pandas.labels r) name = true.
Proof.
  intros H. unfold Pandas.contains.
  destruct (Pandas.get_loc name (Pandas.labels r)) eqn:E; [reflexivity|].
  apply get_loc_get in E. congruence.
Qed.

Lemma contains_get r name :
  Pandas.contains (Pandas.labels r) name = true -> exists v, Pandas.get r name = Some v.
Proof.
  unfold Pandas.contains. intros H.
  destruct (Pandas.get r name) as [v|] eqn:E; [eauto|].
  apply get_loc_get in E. rewrite E in H. discriminate.
Qed.

Lemma contains_false_get r name :
  Pandas.contains (Pandas.labels r) name = false -> Pandas.get r name = None.
Proof.
  unfold Pandas.contains. intros H. apply get_loc_get.
  destruct (Pandas.get_loc name _); [discriminate|reflexivity].
Qed.

Lemma get_getitem r name v : Pandas.get r name = Some v -> Pandas.getitem r name = v.
Proof. unfold Pandas.getitem. now intros ->. Qed.

Lemma get_iloc_last_nonempty df name v :
  Pandas.get (Pandas.iloc_last df) name = Some v -> Pandas.empty df = false.
Proof.
  unfold Pandas.iloc_last, Pandas.empty.
  destruct (rows df) as [|r rs]; [discriminate|].
  destruct (columns df) as [|c cs]; [|reflexivity].
  destruct (last (r :: rs)); discriminate.
Qed.
End PandasFacts.

Section Classification.
Lemma classify_inverted s :
  snd (classify s) = "INVERTED" <-> PrimFloat.ltb s 0 = true.
Proof.
  unfold classify. destruct (PrimFloat.ltb s 0); [|destruct (PrimFloat.ltb s 0.5)];
    cbn; split; intros H; try reflexivity; try discriminate.
Qed.

Lemma classify_flat s :
  F64.isna s = false ->
  snd (classify s) = "FLAT" <-> PrimFloat.leb 0 s = true /\ PrimFloat.ltb s 0.5 = true.
Proof.
  intros Hs. unfold classify.
  rewrite (ltb_leb s 0 Hs eq_refl).
  destruct (PrimFloat.leb 0 s); cbn [negb]; [destruct (PrimFloat.ltb s 0.5)|];
    cbn; split; intros H; try reflexivity; try discriminate;
    destruct H; try discriminate; auto.
Qed.

Lemma classify_normal s :
  F64.isna s = false ->
  snd (classify s) = "NORMAL" <-> PrimFloat.leb 0.5 s = true.
Proof.
  intros Hs. unfold classify.
  destruct (PrimFloat.ltb s 0) eqn:E0.
  - cbn. split; [discriminate|]. intros H.
    pose proof (ltb_le_trans s 0 0.5 E0 eq_refl) as H1.
    rewrite (ltb_leb s 0.5 Hs eq_refl), H in H1. discriminate.
  - rewrite (ltb_leb s 0.5 Hs eq_refl).
    destruct (PrimFloat.leb 0.5 s); cbn; split; intros H; try reflexivity; discriminate.
Qed.

Lemma classify_label s :
  (fst (classify s) = "(🔴 INVERTED)" <-> snd (classify s) = "INVERTED") /\
  (fst (classify s) = "(🟡 FLAT)" <-> snd (classify s) = "FLAT") /\
  (fst (classify s) = "(🟢 NORMAL)" <-> snd (classify s) = "NORMAL").
Proof.
  unfold classify. destruct (PrimFloat.ltb s 0); [|destruct (PrimFloat.ltb s 0.5)];
    cbn; repeat split; intros H; try reflexivity; discriminate.
Qed.

Lemma classify_nan s : F64.isna s = true -> classify s = ("(🟢 NORMAL)", "NORMAL").
Proof.
  intros H. unfold classify. rewrite !ltb_isna_l by assumption. reflexivity.
Qed.
End Classification.

(** ** The primary spread *)

Lemma primary_of_present current c2 c10 :
  Pandas.get current "2Y" = Some c2 -> Pandas.get current "10Y" = Some c10 ->
  primary_of current = Some (PrimFloat.sub c10 c2, snd (classify (PrimFloat.sub c10 c2))).
Proof.
  intros H2 H10. unfold primary_of, both_present.
  rewrite (get_contains _ _ _ H2), (get_contains _ _ _ H10).
  rewrite (get_getitem _ _ _ H2), (get_getitem _ _ _ H10). reflexivity.
Qed.

Lemma primary_of_absent current :
  Pandas.contains (Pandas.labels current) "2Y" = false \/
  Pandas.contains (Pandas.labels current) "10Y" = false ->
  primary_of current = None.
Proof.
  intros H. unfold primary_of, both_present. destruct H as [-> | ->]; [reflexivity|].
  now rewrite andb_false_r.
Qed.

(** C1. When the last row holds a 2Y and a 10Y yield (both ordinary
    numbers), the primary spread is Current(10Y) minus Current(2Y); it is
    printed on the "2Y-10Y" line, followed by the label of its class, and
    recorded with that class in the summary.  The class is "INVERTED"
    exactly when spread < 0, "FLAT" exactly when 0 <= spread < 0.5 and
    "NORMAL" exactly when spread >= 0.5. *)
Theorem C1_primary_spread_classification
        (env : Env) (df : DataFrame) (n_days t : nat) (c2 c10 : float) :
  Pandas.get (Pandas.iloc_last df) "2Y" = Some c2 ->
  Pandas.get (Pandas.iloc_last df) "10Y" = Some c10 ->
  F64.finite c2 = true ->
  F64.finite c10 = true ->
  let spread := PrimFloat.sub c10 c2 in
  let out := analyze_rates env df n_days t in
  exists label status record pre post,
    classify spread = (label, status) /\
    trace out = pre ++ [Printed (Text [Str "2Y-10Y: "; Flt "+.3f" spread; Str "% "]) false;
                        Printed (Text [Str label]) true] ++ post /\
    writes (trace out) = [(summary_path (clock env t), CsvRecords [record])] /\
    dict_get record "2Y_10Y_spread" = Some (VFloat spread) /\
    dict_get record "inversion_status" = Some (VStr status) /\
    (status = "INVERTED" <-> PrimFloat.ltb spread 0 = true) /\
    (status = "FLAT" <-> PrimFloat.leb 0 spread = true /\ PrimFloat.ltb spread 0.5 = true) /\
    (status = "NORMAL" <-> PrimFloat.leb 0.5 spread = true) /\
    (label = "(🔴 INVERTED)" <-> status = "INVERTED") /\
    (label = "(🟡 FLAT)" <-> status = "FLAT") /\
    (label = "(🟢 NORMAL)" <-> status = "NORMAL").
Proof.
  intros H2 H10 Hf2 Hf10 spread out.
  pose proof (get_iloc_last_nonempty _ _ _ H2) as Hne.
  pose proof (primary_of_present _ _ _ H2 H10) as Hp. fold spread in Hp.
  pose proof (sub_finite_notna c10 c2 Hf10 Hf2) as Hs. fold spread in Hs.
  destruct (analyze_rates_trace_primary env df n_days t Hne) as (pre & post & Htr).
  rewrite primary_spread_trace, Hp in Htr.
  exists (fst (classify spread)), (snd (classify spread)),
         (summary_data df (Pandas.iloc_last df) (primary_of (Pandas.iloc_last df))),
         (pre ++ [Printed (Text [Str newline; Str "📈 KEY SPREADS"]) true;
                  Printed (Text [Str (str_mul "-" 20)]) true]), post.
  split; [now destruct (classify spread)|].
  split; [subst out; rewrite Htr, <- !app_assoc; reflexivity|].
  split; [subst out; rewrite analyze_rates_writes, Hne; reflexivity|].
  rewrite Hp. split; [reflexivity|]. split; [reflexivity|].
  split; [apply classify_inverted|].
  split; [now apply classify_flat|].
  split; [now apply classify_normal|].
  apply classify_label.
Qed.



Lemma C1_witness :
  exists label status record pre post,
    classify (-0.5)%float = (label, status) /\
    trace (analyze_rates sample_env inverted_frame 90 0%nat)
    = pre ++ [Printed (Text [Str "2Y-10Y: "; Flt "+.3f" (-0.5)%float; Str "% "]) false;
              Printed (Text [Str label]) true] ++ post /\
    writes (trace (analyze_rates sample_env inverted_frame 90 0%nat))
    = [("treasury_summary_20241103.csv", CsvRecords [record])] /\
    dict_get record "2Y_10Y_spread" = Some (VFloat (-0.5)%float) /\
    dict_get record "inversion_status" = Some (VStr status) /\
    (status = "INVERTED" <-> PrimFloat.ltb (-0.5)%float 0 = true) /\
    (status = "FLAT" <-> PrimFloat.leb 0 (-0.5)%float = true /\ PrimFloat.ltb (-0.5)%float 0.5 = true) /\
    (status = "NORMAL" <-> PrimFloat.leb 0.5 (-0.5)%float = true) /\
    (label = "(🔴 INVERTED)" <-> status = "INVERTED") /\
    (label = "(🟡 FLAT)" <-> status = "FLAT") /\
    (label = "(🟢 NORMAL)" <-> status = "NORMAL").
Proof.
  exact (C1_primary_spread_classification sample_env inverted_frame 90 0%nat
           0x1.3333333333333p+2%float 0x1.1333333333333p+2%float
           eq_refl eq_refl eq_refl eq_refl).
Defined.

(** C8. With both columns present and the last-row value of 2Y or 10Y
    missing, the spread block still runs: the spread is NaN, both
    comparisons fail, "NORMAL" is printed and recorded, and the summary's
    spread field holds the NaN spread. *)
Theorem C8_missing_current_is_classified_normal
        (env : Env) (df : DataFrame) (n_days t : nat) (c2 c10 : float) :
  Pandas.get (Pandas.iloc_last df) "2Y" = Some c2 ->
  Pandas.get (Pandas.iloc_last df) "10Y" = Some c10 ->
  F64.isna c2 = true \/ F64.isna c10 = true ->
  let out := analyze_rates env df n_days t in
  exists record pre post,
    PrimFloat.sub c10 c2 = PrimFloat.nan /\
    PrimFloat.ltb PrimFloat.nan 0 = false /\
    PrimFloat.ltb PrimFloat.nan 0.5 = false /\
    trace out = pre ++ [Printed (Text [Str "2Y-10Y: "; Flt "+.3f" PrimFloat.nan; Str "% "]) false;
                        Printed (Text [Str "(🟢 NORMAL)"]) true] ++ post /\
    writes (trace out) = [(summary_path (clock env t), CsvRecords [record])] /\
    dict_get record "inversion_status" = Some (VStr "NORMAL") /\
    dict_get record "2Y_10Y_spread" = Some (VFloat PrimFloat.nan).
Proof.
  intros H2 H10 Hna out.
  pose proof (get_iloc_last_nonempty _ _ _ H2) as Hne.
  pose proof (primary_of_present _ _ _ H2 H10) as Hp.
  assert (Hs : PrimFloat.sub c10 c2 = PrimFloat.nan) by (apply sub_isna; tauto).
  rewrite Hs, classify_nan in Hp by reflexivity. cbn [snd] in Hp.
  destruct (analyze_rates_trace_primary env df n_days t Hne) as (pre & post & Htr).
  rewrite primary_spread_trace, Hp, classify_nan in Htr by reflexivity.
  exists (summary_data df (Pandas.iloc_last df) (primary_of (Pandas.iloc_last df))),
         (pre ++ [Printed (Text [Str newline; Str "📈 KEY SPREADS"]) true;
                  Printed (Text [Str (str_mul "-" 20)]) true]), post.
  split; [exact Hs|]. split; [reflexivity|]. split; [reflexivity|].
  split; [subst out; rewrite Htr, <- !app_assoc; reflexivity|].
  split; [subst out; rewrite analyze_rates_writes, Hne; reflexivity|].
  rewrite Hp. split; reflexivity.
Qed.


Lemma C8_witness :
  exists record pre post,
    PrimFloat.sub PrimFloat.nan 4.5 = PrimFloat.nan /\
    PrimFloat.ltb PrimFloat.nan 0 = false /\
    PrimFloat.ltb PrimFloat.nan 0.5 = false /\
    trace (analyze_rates sample_env gap_frame 90 0%nat)
    = pre ++ [Printed (Text [Str "2Y-10Y: "; Flt "+.3f" PrimFloat.nan; Str "% "]) false;
              Printed (Text [Str "(🟢 NORMAL)"]) true] ++ post /\
    writes (trace (analyze_rates sample_env gap_frame 90 0%nat))
    = [("treasury_summary_20241103.csv", CsvRecords [record])] /\
    dict_get record "inversion_status" = Some (VStr "NORMAL") /\
    dict_get record "2Y_10Y_spread" = Some (VFloat PrimFloat.nan).
Proof.
  exact (C8_missing_current_is_classified_normal sample_env gap_frame 90 0%nat
           4.5%float PrimFloat.nan eq_refl eq_refl (or_intror eq_refl)).
Defined.

(** ** The summary record *)

(** C7, as stated, fails: the record's [date] field is the date of the
    table's last row, not the run date.  A run on 2024-11-03 over a table
    ending on 2024-11-01 records "2024-11-01". *)
Lemma C7_counterexample :
  exists record,
    writes (trace (analyze_rates sample_env inverted_frame 90 0%nat))
    = [("treasury_summary_20241103.csv", CsvRecords [record])] /\
    Calendar.strftime_Ymd (toordinal (clock sample_env 0%nat)) = "2024-11-03" /\
    dict_get record "date" = Some (VStr "2024-11-01") /\
    dict_get record "date"
    <> Some (VStr (Calendar.strftime_Ymd (toordinal (clock sample_env 0%nat)))).
Proof.
  eexists. split; [reflexivity|]. split; [reflexivity|]. split; [reflexivity|].
  vm_compute. discriminate.
Qed.

(** C7, amended.  The summary written per run is a single row, saved under
    the run date's file name, whose fields are, in order: the date of the
    table's last row, the inversion classification, the 2Y-10Y spread, and
    the last-row yield of each of the eight maturities 1Y, 2Y, 3Y, 5Y, 7Y,
    10Y, 20Y, 30Y.  When the 2Y or the 10Y column is absent the
    classification is "N/A" and the spread is absent; the yield of an absent
    maturity is absent. *)
Theorem C7_summary_record (env : Env) (df : DataFrame) (n_days t : nat) :
  Pandas.empty df = false ->
  let current := Pandas.iloc_last df in
  let spread := PrimFloat.sub (Pandas.getitem current "10Y") (Pandas.getitem current "2Y") in
  exists record,
    writes (trace (analyze_rates env df n_days t))
    = [(summary_path (clock env t), CsvRecords [record])] /\
    map fst record
    = ["date"; "inversion_status"; "2Y_10Y_spread"; "1Y_yield"; "2Y_yield"; "3Y_yield";
       "5Y_yield"; "7Y_yield"; "10Y_yield"; "20Y_yield"; "30Y_yield"] /\
    dict_get record "date" = Some (VStr (Calendar.strftime_Ymd (Pandas.index_last df))) /\
    dict_get record "inversion_status"
    = Some (VStr (if both_present current then snd (classify spread) else "N/A")) /\
    dict_get record "2Y_10Y_spread"
    = Some (if both_present current then VFloat spread else VNone) /\
    Forall (fun maturity =>
              dict_get record (maturity +:+ "_yield")
              = Some (match Pandas.get current maturity with
                      | Some v => VFloat v
                      | None => VNone
                      end)) order /\
    Forall (fun maturity =>
              Pandas.contains (Pandas.labels current) maturity = false ->
              dict_get record (maturity +:+ "_yield") = Some VNone) order.
Proof.
  intros Hne current spread.
  exists (summary_data df current (primary_of current)).
  split; [rewrite analyze_rates_writes, Hne; reflexivity|].
  split; [reflexivity|]. split; [reflexivity|].
  split; [unfold primary_of; fold spread; destruct (both_present current); reflexivity|].
  split; [unfold primary_of; fold spread; destruct (both_present current); reflexivity|].
  split.
  - repeat constructor.
  - repeat constructor; intros H; apply contains_false_get in H;
      cbn; unfold current in *; rewrite H; reflexivity.
Qed.

Lemma C7_witness :
  exists record,
    writes (trace (analyze_rates sample_env gap_frame 90 0%nat))
    = [("treasury_summary_20241103.csv", CsvRecords [record])] /\
    map fst record
    = ["date"; "inversion_status"; "2Y_10Y_spread"; "1Y_yield"; "2Y_yield"; "3Y_yield";
       "5Y_yield"; "7Y_yield"; "10Y_yield"; "20Y_yield"; "30Y_yield"] /\
    dict_get record "date" = Some (VStr "2024-11-01") /\
    dict_get record "inversion_status" = Some (VStr "NORMAL") /\
    dict_get record "2Y_10Y_spread" = Some (VFloat PrimFloat.nan) /\
    Forall (fun maturity =>
              dict_get record (maturity +:+ "_yield")
              = Some (match Pandas.get (Pandas.iloc_last gap_frame) maturity with
                      | Some v => VFloat v
                      | None => VNone
                      end)) order /\
    Forall (fun maturity =>
              Pandas.contains (Pandas.labels (Pandas.iloc_last gap_frame)) maturity = false ->
              dict_get record (maturity +:+ "_yield") = Some VNone) order.
Proof.
  exact (C7_summary_record sample_env gap_frame 90 0%nat eq_refl).
Defined.

(** ** The 3M-10Y spread *)

Lemma spread_3m10y_val current t :
  val (spread_3m10y current t)
  = if Pandas.contains (Pandas.labels current) "3M"
       && Pandas.contains (Pandas.labels current) "10Y"
    then Some (PrimFloat.sub (Pandas.getitem current "10Y") (Pandas.getitem current "3M"))
    else None.
Proof.
  unfold spread_3m10y.
  destruct (Pandas.contains (Pandas.labels current) "3M") eqn:E3; [|reflexivity].
  destruct (Pandas.contains (Pandas.labels current) "10Y"); [|reflexivity].
  destruct (contains_get _ _ E3) as [v Hv].
  rewrite Hv, (get_getitem _ _ _ Hv). reflexivity.
Qed.

(** C4, as stated, fails: on no row that lacks the 3M label does the block
    compute a value, whether 10Y is present or not; the zero default of the
    lookup is never taken. *)
Lemma C4_counterexample :
  ~ exists (current : Pandas.Row) (t : nat),
      Pandas.contains (Pandas.labels current) "10Y" = true /\
      Pandas.contains (Pandas.labels current) "3M" = false /\
      val (spread_3m10y current t)
      = Some (PrimFloat.sub (Pandas.getitem current "10Y") 0).
Proof.
  intros (current & t & _ & H3 & Hv).
  rewrite spread_3m10y_val, H3 in Hv. discriminate.
Qed.

(** C4, amended.  The 3M-10Y spread is computed exactly when both the 3M
    and the 10Y labels are present, as Current(10Y) minus Current(3M), and
    one line is printed; when 3M (or 10Y) is absent the block is skipped and
    prints nothing, the same all-or-nothing check as the primary spread. *)
Theorem C4_aux_spread_is_all_or_nothing (current : Pandas.Row) (t : nat) :
  let guard := Pandas.contains (Pandas.labels current) "3M"
               && Pandas.contains (Pandas.labels current) "10Y" in
  let spread := PrimFloat.sub (Pandas.getitem current "10Y") (Pandas.getitem current "3M") in
  val (spread_3m10y current t) = (if guard then Some spread else None) /\
  trace (spread_3m10y current t)
  = (if guard then [Printed (Text [Str "3M-10Y: "; Flt "+.3f" spread; Str "%"]) true] else []) /\
  (Pandas.contains (Pandas.labels current) "3M" = false ->
   val (spread_3m10y current t) = None /\ trace (spread_3m10y current t) = []).
Proof.
  intros guard spread. split; [apply spread_3m10y_val|]. split.
  - unfold spread_3m10y. fold guard. subst spread.
    destruct guard eqn:E; [|reflexivity].
    apply andb_true_iff in E. destruct E as [E3 _].
    destruct (contains_get _ _ E3) as [v Hv].
    rewrite Hv, (get_getitem _ _ _ Hv). reflexivity.
  - intros H3. unfold spread_3m10y. rewrite H3. split; reflexivity.
Qed.

(** ** Stage 3 and [main] *)

Section Stage3.
Variable env : Env.

Lemma plot_curve_csv_writes df stats n_days t :
  csv_writes (trace (plot_curve env df stats n_days t)) = [].
Proof.
  unfold plot_curve. destruct (Pandas.empty df); [reflexivity|].
  rewrite !trace_bind, !csv_writes_app.
  cbn [now write print emit bind ret val ticks trace].
  destruct (write_image env); reflexivity.
Qed.

Lemma main_trace t :
  trace (main env t)
  = trace (get_treasury_data env 2 t)
    ++ (if Pandas.empty (val (get_treasury_data env 2 t)) then []
        else trace (bind (analyze_rates env (val (get_treasury_data env 2 t)) 90)
                         (fun stats =>
                            match stats with
                            | Some stats =>
                                do _ <- plot_curve env (val (get_treasury_data env 2 t)) stats 90;
                                do _ <- print [Str (newline +:+ str_mul "=" 50)];
                                do _ <- print [Str "✅ DAILY TREASURY ANALYSIS COMPLETE"];
                                do _ <- print [Str "📁 Files generated:"];
                                do _ <- print [Str "   - treasury_analysis_plotly.html (interactive chart)"];
                                do _ <- print [Str "   - treasury_analysis.png (static image)"];
                                do _ <- print [Str "   - treasury_data_YYYYMMDD.csv (raw data)"];
                                print [Str "   - treasury_summary_YYYYMMDD.csv (daily summary)"]
                            | None => ret tt
                            end)
                         (S t))).
Proof.
  unfold main. rewrite trace_bind, get_treasury_data_ticks.
  destruct (Pandas.empty _); reflexivity.
Qed.

Lemma main_csv_writes t :
  let df := val (get_treasury_data env 2 t) in
  csv_writes (trace (main env t))
  = match fetch_all env 2 t with
    | [] => []
    | _ :: _ => [(data_path (clock env t), CsvFrame df)]
    end
    ++ (if Pandas.empty df then []
        else [(summary_path (clock env (S t)),
               CsvRecords [summary_data df (Pandas.iloc_last df)
                                        (primary_of (Pandas.iloc_last df))])]).
Proof.
  intros df. rewrite main_trace, csv_writes_app. fold df. f_equal.
  - unfold csv_writes. rewrite get_treasury_data_writes. fold df.
    destruct (fetch_all env 2 t); reflexivity.
  - destruct (Pandas.empty df) eqn:He; [reflexivity|].
    rewrite trace_bind, csv_writes_app.
    unfold csv_writes at 1. rewrite analyze_rates_writes, He.
    rewrite analyze_rates_val, He.
    rewrite !trace_bind, !csv_writes_app, plot_curve_csv_writes. reflexivity.
Qed.
End Stage3.

(** The answers of the provider decide the fetched data. *)
Lemma fetch_loop_val_ext env1 env2 items s1 e1 s2 e2 data t1 t2 :
  (forall item, In item items ->
     get_data_fred env1 (snd item) s1 e1 = get_data_fred env2 (snd item) s2 e2) ->
  val (fetch_loop env1 items s1 e1 data t1) = val (fetch_loop env2 items s2 e2 data t2).
Proof.
  revert data t1 t2. induction items as [|[maturity code] rest IH]; intros data t1 t2 H;
    [reflexivity|].
  cbn [fetch_loop]. rewrite !val_bind. cbn [fetch bind emit ret val ticks].
  pose proof (H (maturity, code) (or_introl eq_refl)) as Hc. cbn [snd] in Hc.
  rewrite <- Hc.
  destruct (get_data_fred env1 code s1 e1); cbn [print emit bind ret val ticks];
    apply IH; intros item Hin; apply H; now right.
Qed.

(** ** Acquisition: failures, the empty result, all-missing rows *)

Lemma filter_all_false {A} (f : A -> bool) (l : list A) :
  (forall x, In x l -> f x = false) -> List.filter f l = [].
Proof.
  induction l as [|a l IH]; intros H; [reflexivity|].
  cbn. rewrite (H a) by now left. apply IH. intros x Hx. apply H. now right.
Qed.

Lemma contains_In labels name : Pandas.contains labels name = true -> In name labels.
Proof.
  unfold Pandas.contains. induction labels as [|c r IH]; cbn; [discriminate|].
  destruct (String.eqb_spec c name) as [->|Hne]; [now left|].
  destruct (Pandas.get_loc name r); [|discriminate]. intros _. right. now apply IH.
Qed.

(** C9. Each maturity is requested exactly once, in the order of the
    series table and whatever the outcome of the other requests; a request
    that raises is not repeated, and the columns of the resulting table are
    exactly the maturities whose request answered. *)
Theorem C9_fetch_failures_are_isolated (env : Env) (years : Z) (t : nat) :
  let end_date := clock env t in
  let start_date := minus_days end_date (365 * years) in
  let out := get_treasury_data env years t in
  requests (trace out) = ["DGS1"; "DGS2"; "DGS3"; "DGS5"; "DGS7"; "DGS10"; "DGS20"; "DGS30"] /\
  Forall (fun item => count_occ string_dec (requests (trace out)) (snd item) = 1%nat) series /\
  columns (val out) = map fst (List.filter (fetched env start_date end_date) series) /\
  Forall (fun item =>
            fetched env start_date end_date item = false ->
            Pandas.contains (columns (val out)) (fst item) = false) series.
Proof.
  intros end_date start_date out. subst out.
  rewrite get_treasury_data_requests.
  assert (Hcols : columns (val (get_treasury_data env years t))
                  = map fst (List.filter (fetched env start_date end_date) series)).
  { rewrite get_treasury_data_val. cbn [Pandas.dropna_all Pandas.DataFrame_of_dict columns].
    apply fetch_all_keys. }
  split; [reflexivity|]. split; [repeat constructor|]. split; [exact Hcols|].
  rewrite Hcols. apply Forall_forall. intros item Hin Hf.
  apply not_true_iff_false. intros Hc. apply contains_In in Hc.
  apply in_map_iff in Hc. destruct Hc as (item' & Hfst & Hin').
  apply filter_In in Hin'. destruct Hin' as [Hin' Hf'].
  apply list_elem_of_In in Hin.
  assert (item' = item) as ->; [|congruence].
  revert Hfst. clear -Hin Hin'. unfold series in *. cbn in Hin, Hin'.
  intuition (subst; cbn; first [reflexivity | discriminate]).
Qed.

(** C5. When none of the requests answers, acquisition returns the empty
    frame and [main] stops there: its trace is that of the acquisition, the
    clock is read once, and no file (data, summary or chart) is written. *)
Theorem C5_no_series_no_outputs (env : Env) (t : nat) :
  (forall item, In item series ->
     fetched env (minus_days (clock env t) (365 * 2)) (clock env t) item = false) ->
  val (get_treasury_data env 2 t) = Pandas.empty_frame /\
  trace (main env t) = trace (get_treasury_data env 2 t) /\
  ticks (main env t) = S t /\
  writes (trace (main env t)) = [] /\
  last (trace (main env t))
  = Some (Printed (Text [Str "❌ No data retrieved. Check connection to fred.stlouisfed.org"]) true).
Proof.
  intros Hfail.
  assert (Hdata : fetch_all env 2 t = []).
  { pose proof (fetch_all_keys env 2 t) as Hk.
    rewrite (filter_all_false _ _ Hfail) in Hk.
    destruct (fetch_all env 2 t); [reflexivity|discriminate]. }
  assert (Hval : val (get_treasury_data env 2 t) = Pandas.empty_frame).
  { rewrite get_treasury_data_val, Hdata. reflexivity. }
  assert (Htr : trace (main env t) = trace (get_treasury_data env 2 t)).
  { rewrite main_trace, Hval. apply app_nil_r. }
  split; [exact Hval|]. split; [exact Htr|]. split.
  - unfold main. rewrite ticks_bind, Hval, get_treasury_data_ticks. reflexivity.
  - rewrite Htr. split.
    + rewrite get_treasury_data_writes, Hdata. reflexivity.
    + unfold get_treasury_data. rewrite !trace_bind.
      cbn [now print emit bind ret val ticks trace].
      unfold fetch_all in Hdata.
      rewrite (fetch_loop_val_ticks env _ _ _ _ _ t), Hdata.
      cbn [trace print emit ret]. rewrite !app_assoc. apply last_snoc.
Qed.

Lemma C5_witness :
  val (get_treasury_data sample_env 2 0%nat) = Pandas.empty_frame /\
  trace (main sample_env 0%nat) = trace (get_treasury_data sample_env 2 0%nat) /\
  ticks (main sample_env 0%nat) = 1%nat /\
  writes (trace (main sample_env 0%nat)) = [] /\
  last (trace (main sample_env 0%nat))
  = Some (Printed (Text [Str "❌ No data retrieved. Check connection to fred.stlouisfed.org"]) true).
Proof.
  apply (C5_no_series_no_outputs sample_env 0%nat).
  intros item _. reflexivity.
Defined.

(** C6. The table that [get_treasury_data] returns, which is the table it
    saves, is the assembled table without its all-missing rows: a row of
    the assembled table is kept exactly when one of its cells is present,
    so no row of the persisted table has every cell missing. *)
Theorem C6_no_all_missing_rows (env : Env) (years : Z) (t : nat) :
  let out := get_treasury_data env years t in
  let assembled := Pandas.DataFrame_of_dict (fetch_all env years t) in
  (forall r, In r (rows (val out)) <->
             In r (rows assembled) /\ exists c, In c (snd r) /\ F64.isna c = false) /\
  (forall r, In r (rows (val out)) -> ~ Forall (fun c => F64.isna c = true) (snd r)) /\
  (forall path df, In (path, CsvFrame df) (writes (trace out)) -> df = val out).
Proof.
  intros out assembled. subst out.
  assert (Hrows : forall r, In r (rows (val (get_treasury_data env years t))) <->
             In r (rows assembled) /\ exists c, In c (snd r) /\ F64.isna c = false).
  { intros r. rewrite get_treasury_data_val. fold assembled.
    cbn [Pandas.dropna_all rows]. rewrite filter_In, existsb_exists.
    unfold F64.notna. setoid_rewrite negb_true_iff. reflexivity. }
  split; [exact Hrows|]. split.
  - intros r Hr Hall. destruct (proj1 (Hrows r) Hr) as (_ & c & Hc & Hna).
    rewrite Forall_forall in Hall. apply list_elem_of_In, Hall in Hc.
    rewrite Hc in Hna. discriminate Hna.
  - clear Hrows. intros path df. rewrite get_treasury_data_writes.
    generalize (val (get_treasury_data env years t)). intros d.
    destruct (fetch_all env years t); [intros []|].
    intros [H|[]]. injection H as _ H. now symmetry.
Qed.

(** ** The files a run leaves behind *)

Section Files.

Lemma files_after_writes tr fs : files_after tr fs = write_all (writes tr) fs.
Proof.
  unfold files_after, write_all, writes. revert fs.
  induction tr as [|e tr IH]; intros fs; [reflexivity|].
  destruct e; cbn; apply IH.
Qed.

(** The file under a name holds the last content written there, or what
    was there before. *)
Lemma write_all_lookup ws (fs : gmap string Content) p :
  write_all ws fs !! p
  = match last (List.filter (fun pc => String.eqb (fst pc) p) ws) with
    | Some pc => Some (snd pc)
    | None => fs !! p
    end.
Proof.
  unfold write_all. revert fs. induction ws as [|pc ws IH]; intros fs; [reflexivity|].
  cbn [fold_left List.filter]. rewrite IH.
  destruct (String.eqb_spec (fst pc) p) as [E|E].
  - rewrite last_cons.
    destruct (last (List.filter (fun pc => String.eqb (fst pc) p) ws)); [reflexivity|].
    rewrite E. now rewrite lookup_insert_eq.
  - destruct (last (List.filter (fun pc => String.eqb (fst pc) p) ws)); [reflexivity|].
    now rewrite lookup_insert_ne.
Qed.

Lemma filter_path_csv ws p :
  Forall (fun pc => is_csv (snd pc) = false -> fst pc <> p) ws ->
  List.filter (fun pc => String.eqb (fst pc) p) ws
  = List.filter (fun pc => String.eqb (fst pc) p) (List.filter (fun pc => is_csv (snd pc)) ws).
Proof.
  induction 1 as [|pc ws Hpc Hws IH]; [reflexivity|].
  cbn [List.filter]. destruct (is_csv (snd pc)) eqn:Ec.
  - cbn [List.filter]. destruct (String.eqb (fst pc) p); now rewrite IH.
  - destruct (String.eqb_spec (fst pc) p) as [E|E]; [now destruct (Hpc eq_refl)|exact IH].
Qed.

Lemma plot_curve_writes_paths env df stats n_days t :
  Forall (fun pc => is_csv (snd pc) = false /\
                    (fst pc = "treasury_analysis_plotly.html" \/ fst pc = "treasury_analysis.png"))
         (writes (trace (plot_curve env df stats n_days t))).
Proof.
  unfold plot_curve. destruct (Pandas.empty df); [constructor|].
  rewrite !trace_bind, !writes_app.
  cbn [now write print emit bind ret val ticks trace].
  destruct (write_image env); cbn;
    repeat (apply List.Forall_cons;
            [split; [reflexivity|first [left; reflexivity | right; reflexivity]]|]);
    apply List.Forall_nil.
Qed.

Lemma main_chart_paths env t :
  Forall (fun pc => is_csv (snd pc) = false ->
                    fst pc = "treasury_analysis_plotly.html" \/ fst pc = "treasury_analysis.png")
         (writes (trace (main env t))).
Proof.
  rewrite main_trace, writes_app. apply Forall_app_2.
  - rewrite get_treasury_data_writes.
    destruct (fetch_all env 2 t); repeat constructor; cbn; discriminate.
  - destruct (Pandas.empty _) eqn:He; [constructor|].
    rewrite trace_bind, writes_app. apply Forall_app_2.
    + rewrite analyze_rates_writes, He. repeat constructor; cbn; discriminate.
    + rewrite analyze_rates_val, He.
      rewrite !trace_bind, !writes_app. cbn [print emit trace]. cbn [writes omap].
      rewrite !app_nil_r.
      eapply List.Forall_impl; [|apply plot_curve_writes_paths]. cbn. tauto.
Qed.

Lemma dated_path_not_chart prefix day p :
  p = prefix +:+ Calendar.strftime_Ymd_compact day +:+ ".csv" ->
  prefix = "treasury_data_" \/ prefix = "treasury_summary_" ->
  p <> "treasury_analysis_plotly.html" /\ p <> "treasury_analysis.png".
Proof.
  intros -> [-> | ->]; split; cbn [String.append]; intros H; discriminate H.
Qed.

(** Two lists of writes with the same CSV writes, whose other writes go
    elsewhere, leave the same file under a name. *)
Lemma write_all_agree ws1 ws2 (fs : gmap string Content) p :
  List.filter (fun pc => is_csv (snd pc)) ws1 = List.filter (fun pc => is_csv (snd pc)) ws2 ->
  Forall (fun pc => is_csv (snd pc) = false -> fst pc <> p) ws1 ->
  Forall (fun pc => is_csv (snd pc) = false -> fst pc <> p) ws2 ->
  write_all ws1 fs !! p = write_all ws2 fs !! p.
Proof.
  intros Hcsv H1 H2. rewrite !write_all_lookup.
  rewrite (filter_path_csv ws1 p H1), (filter_path_csv ws2 p H2). now rewrite Hcsv.
Qed.

Lemma main_charts_elsewhere env t p :
  p <> "treasury_analysis_plotly.html" -> p <> "treasury_analysis.png" ->
  Forall (fun pc => is_csv (snd pc) = false -> fst pc <> p) (writes (trace (main env t))).
Proof.
  intros Hh Hp. eapply List.Forall_impl; [|apply main_chart_paths].
  intros pc H Hc E. destruct (H Hc) as [H'|H'].
  - apply Hh. now rewrite <- E.
  - apply Hp. now rewrite <- E.
Qed.

Lemma csv_writes_filter tr :
  csv_writes tr = List.filter (fun pc => is_csv (snd pc)) (writes tr).
Proof. reflexivity. Qed.

(** Runs that agree on their CSV writes leave the same file under every
    dated CSV name. *)
Lemma dated_files_agree env1 env2 t1 t2 fs prefix day :
  csv_writes (trace (main env1 t1)) = csv_writes (trace (main env2 t2)) ->
  prefix = "treasury_data_" \/ prefix = "treasury_summary_" ->
  files_after (trace (main env1 t1)) fs
    !! (prefix +:+ Calendar.strftime_Ymd_compact day +:+ ".csv")
  = files_after (trace (main env2 t2)) fs
    !! (prefix +:+ Calendar.strftime_Ymd_compact day +:+ ".csv").
Proof.
  intros Hcsv Hprefix.
  destruct (dated_path_not_chart prefix day _ eq_refl Hprefix) as [Hh Hp].
  rewrite !files_after_writes. rewrite !csv_writes_filter in Hcsv.
  apply write_all_agree.
  - exact Hcsv.
  - now apply main_charts_elsewhere.
  - now apply main_charts_elsewhere.
Qed.

End Files.

(** ** Two runs on one day *)

(** C10. Two runs whose clock readings all fall on the same calendar day
    and whose requests get the same answers write the same dated CSV files:
    the same names, keyed by that day, holding the same table and the same
    summary record (the chart files are not compared). *)
Theorem C10_same_day_runs_write_same_csv (env1 env2 : Env) (day : Z) :
  (forall k, toordinal (clock env1 k) = day) ->
  (forall k, toordinal (clock env2 k) = day) ->
  (forall item, In item series ->
     get_data_fred env1 (snd item) (minus_days (clock env1 0%nat) (365 * 2)) (clock env1 0%nat)
     = get_data_fred env2 (snd item) (minus_days (clock env2 0%nat) (365 * 2)) (clock env2 0%nat)) ->
  csv_writes (trace (main env1 0%nat)) = csv_writes (trace (main env2 0%nat)) /\
  val (get_treasury_data env1 2 0%nat) = val (get_treasury_data env2 2 0%nat) /\
  Forall (fun pc =>
            fst pc = "treasury_data_" +:+ Calendar.strftime_Ymd_compact day +:+ ".csv" \/
            fst pc = "treasury_summary_" +:+ Calendar.strftime_Ymd_compact day +:+ ".csv")
         (csv_writes (trace (main env1 0%nat))) /\
  (forall (fs : gmap string Content) (prefix : string),
     prefix = "treasury_data_" \/ prefix = "treasury_summary_" ->
     files_after (trace (main env1 0%nat)) fs
       !! (prefix +:+ Calendar.strftime_Ymd_compact day +:+ ".csv")
     = files_after (trace (main env2 0%nat)) fs
       !! (prefix +:+ Calendar.strftime_Ymd_compact day +:+ ".csv")).
Proof.
  intros Hd1 Hd2 Hsame.
  assert (Hdata : fetch_all env1 2 0%nat = fetch_all env2 2 0%nat).
  { unfold fetch_all. now apply fetch_loop_val_ext. }
  assert (Hdf : val (get_treasury_data env1 2 0%nat) = val (get_treasury_data env2 2 0%nat)).
  { now rewrite !get_treasury_data_val, Hdata. }
  assert (Hcsv : csv_writes (trace (main env1 0%nat)) = csv_writes (trace (main env2 0%nat))).
  { rewrite !main_csv_writes. cbv zeta. rewrite <- Hdf, <- Hdata.
    unfold data_path, summary_path. rewrite !Hd1, !Hd2. reflexivity. }
  split; [exact Hcsv|]. split; [exact Hdf|]. split.
  2: { intros fs prefix Hprefix. now apply dated_files_agree. }
  - rewrite main_csv_writes. cbv zeta.
    unfold data_path, summary_path. rewrite !Hd1.
    destruct (fetch_all env1 2 0%nat); destruct (Pandas.empty _); cbn [app];
      repeat first [ apply List.Forall_nil
                   | apply List.Forall_cons;
                     [first [left; reflexivity | right; reflexivity]|] ].
Qed.


Lemma C10_witness :
  csv_writes (trace (main (two_series_env 37860 None) 0%nat))
  = csv_writes (trace (main (two_series_env 75600 (Some "kaleido")) 0%nat)) /\
  val (get_treasury_data (two_series_env 37860 None) 2 0%nat)
  = val (get_treasury_data (two_series_env 75600 (Some "kaleido")) 2 0%nat) /\
  Forall (fun pc =>
            fst pc = "treasury_data_20241103.csv" \/ fst pc = "treasury_summary_20241103.csv")
         (csv_writes (trace (main (two_series_env 37860 None) 0%nat))) /\
  (forall (fs : gmap string Content) (prefix : string),
     prefix = "treasury_data_" \/ prefix = "treasury_summary_" ->
     files_after (trace (main (two_series_env 37860 None) 0%nat)) fs
       !! (prefix +:+ "20241103" +:+ ".csv")
     = files_after (trace (main (two_series_env 75600 (Some "kaleido")) 0%nat)) fs
       !! (prefix +:+ "20241103" +:+ ".csv")).
Proof.
  apply (C10_same_day_runs_write_same_csv
           (two_series_env 37860 None) (two_series_env 75600 (Some "kaleido")) 739193).
  - intros k. reflexivity.
  - intros k. reflexivity.
  - intros item _. reflexivity.
Defined.

(** ** Window statistics *)




Section Reductions.

Lemma valid_yield_notna x : valid_yield x = true -> F64.isna x = false.
Proof.
  unfold valid_yield. intros H. apply andb_true_iff in H. destruct H as [H _].
  now apply leb_notna in H.
Qed.

Lemma fillna_notna fill xs :
  Forall (fun x => F64.isna x = false) xs -> Pandas.fillna fill xs = xs.
Proof.
  unfold Pandas.fillna. induction 1 as [|x l Hx Hl IH]; cbn; [reflexivity|].
  now rewrite Hx, IH.
Qed.

Lemma count_notna xs :
  Forall (fun x => F64.isna x = false) xs -> Pandas.count xs = length xs.
Proof.
  unfold Pandas.count. induction 1 as [|x l Hx Hl IH]; cbn; [reflexivity|].
  unfold F64.notna at 1. rewrite Hx. cbn. now rewrite IH.
Qed.

Lemma filter_notna xs :
  Forall (fun x => F64.isna x = false) xs -> List.filter F64.notna xs = xs.
Proof.
  induction 1 as [|x l Hx Hl IH]; cbn; [reflexivity|].
  unfold F64.notna at 1. rewrite Hx. cbn. now rewrite IH.
Qed.

(** A left-to-right maximum is one of the cells and bounds them all. *)
Lemma fold_maximum_in r x : In (fold_left F64.maximum r x) (x :: r).
Proof.
  revert x. induction r as [|y r IH]; intros x; [now left|].
  cbn [fold_left]. unfold F64.maximum at 2.
  destruct (PrimFloat.leb y x).
  - destruct (IH x) as [H|H]; [left; exact H|right; right; exact H].
  - right. apply IH.
Qed.

Lemma fold_minimum_in r x : In (fold_left F64.minimum r x) (x :: r).
Proof.
  revert x. induction r as [|y r IH]; intros x; [now left|].
  cbn [fold_left]. unfold F64.minimum at 2.
  destruct (PrimFloat.leb x y).
  - destruct (IH x) as [H|H]; [left; exact H|right; right; exact H].
  - right. apply IH.
Qed.

Lemma fold_maximum_ge r x :
  F64.isna x = false -> Forall (fun y => F64.isna y = false) r ->
  PrimFloat.leb x (fold_left F64.maximum r x) = true /\
  Forall (fun y => PrimFloat.leb y (fold_left F64.maximum r x) = true) r.
Proof.
  intros Hx Hr. revert x Hx. induction Hr as [|y r Hy Hr IH]; intros x Hx.
  - cbn. split; [now apply leb_refl|constructor].
  - cbn [fold_left]. unfold F64.maximum at 2 4.
    destruct (PrimFloat.leb y x) eqn:E.
    + destruct (IH x Hx) as [H1 H2]. split; [exact H1|].
      constructor; [|exact H2]. eapply leb_trans; eassumption.
    + destruct (IH y Hy) as [H1 H2].
      assert (Hxy : PrimFloat.leb x y = true).
      { destruct (leb_total x y Hx Hy) as [H|H]; [exact H|congruence]. }
      split; [eapply leb_trans; eassumption|].
      constructor; assumption.
Qed.

Lemma fold_minimum_le r x :
  F64.isna x = false -> Forall (fun y => F64.isna y = false) r ->
  PrimFloat.leb (fold_left F64.minimum r x) x = true /\
  Forall (fun y => PrimFloat.leb (fold_left F64.minimum r x) y = true) r.
Proof.
  intros Hx Hr. revert x Hx. induction Hr as [|y r Hy Hr IH]; intros x Hx.
  - cbn. split; [now apply leb_refl|constructor].
  - cbn [fold_left]. unfold F64.minimum at 2 4.
    destruct (PrimFloat.leb x y) eqn:E.
    + destruct (IH x Hx) as [H1 H2]. split; [exact H1|].
      constructor; [|exact H2]. eapply leb_trans; eassumption.
    + destruct (IH y Hy) as [H1 H2].
      assert (Hyx : PrimFloat.leb y x = true).
      { destruct (leb_total x y Hx Hy) as [H|H]; [congruence|exact H]. }
      split; [eapply leb_trans; eassumption|].
      constructor; assumption.
Qed.

Lemma nanmax_ge xs x :
  Forall (fun y => F64.isna y = false) xs -> In x xs ->
  PrimFloat.leb x (Pandas.nanmax xs) = true.
Proof.
  intros Hxs Hin. unfold Pandas.nanmax.
  rewrite count_notna, fillna_notna by assumption.
  destruct xs as [|y r]; [destruct Hin|]. cbn [length Nat.eqb F64.reduce].
  apply List.Forall_cons_iff in Hxs. destruct Hxs as [Hy Hr].
  destruct (fold_maximum_ge r y Hy Hr) as [H1 H2].
  destruct Hin as [<-|Hin]; [exact H1|].
  rewrite List.Forall_forall in H2. now apply H2.
Qed.

Lemma nanmin_le xs x :
  Forall (fun y => F64.isna y = false) xs -> In x xs ->
  PrimFloat.leb (Pandas.nanmin xs) x = true.
Proof.
  intros Hxs Hin. unfold Pandas.nanmin.
  rewrite count_notna, fillna_notna by assumption.
  destruct xs as [|y r]; [destruct Hin|]. cbn [length Nat.eqb F64.reduce].
  apply List.Forall_cons_iff in Hxs. destruct Hxs as [Hy Hr].
  destruct (fold_minimum_le r y Hy Hr) as [H1 H2].
  destruct Hin as [<-|Hin]; [exact H1|].
  rewrite List.Forall_forall in H2. now apply H2.
Qed.

End Reductions.

Section Median.


Lemma insert_perm x l : Permutation (F64.insert x l) (x :: l).
Proof.
  induction l as [|y r IH]; cbn; [apply Permutation_refl|].
  destruct (PrimFloat.leb x y); [apply Permutation_refl|].
  eapply perm_trans; [apply perm_skip, IH|apply perm_swap].
Qed.

Lemma sort_perm l : Permutation (F64.sort l) l.
Proof.
  induction l as [|x r IH]; cbn; [apply perm_nil|].
  eapply perm_trans; [apply insert_perm|]. now apply perm_skip.
Qed.

Lemma insert_sorted x l :
  F64.isna x = false -> Forall (fun y => F64.isna y = false) l ->
  StronglySorted fle l -> StronglySorted fle (F64.insert x l).
Proof.
  intros Hx Hl Hs. induction Hs as [|y r Hs IH Hy]; cbn.
  - constructor; constructor.
  - apply List.Forall_cons_iff in Hl. destruct Hl as [Hny Hnr].
    destruct (PrimFloat.leb x y) eqn:E.
    + constructor; [constructor; assumption|].
      constructor; [exact E|].
      eapply List.Forall_impl; [|exact Hy]. intros z Hz. unfold fle in *.
      eapply leb_trans; eassumption.
    + assert (Hyx : fle y x).
      { destruct (leb_total x y Hx Hny) as [H|H]; [congruence|exact H]. }
      constructor; [now apply IH|].
      eapply Permutation_Forall; [apply Permutation_sym, insert_perm|].
      constructor; assumption.
Qed.

Lemma sort_sorted l :
  Forall (fun y => F64.isna y = false) l -> StronglySorted fle (F64.sort l).
Proof.
  induction 1 as [|x r Hx Hr IH]; cbn; [constructor|].
  apply insert_sorted; [exact Hx| |exact IH].
  eapply Permutation_Forall; [apply Permutation_sym, sort_perm|exact Hr].
Qed.

Lemma StronglySorted_nth (l : list float) (i j : nat) d :
  StronglySorted fle l -> (i < j)%nat -> (j < length l)%nat ->
  fle (nth i l d) (nth j l d).
Proof.
  intros Hs. revert i j. induction Hs as [|x r Hs IH Hx]; intros i j Hij Hj; cbn in Hj; [lia|].
  destruct j as [|j]; [lia|]. destruct i as [|i]; cbn [nth].
  - rewrite List.Forall_forall in Hx. apply Hx. apply nth_In. lia.
  - apply IH; lia.
Qed.

(** The median lies between two cells of the column. *)
Lemma nanmedian_between xs :
  xs <> [] -> Forall (fun x => valid_yield x = true) xs ->
  exists lo hi,
    In lo xs /\ In hi xs /\
    PrimFloat.leb lo (Pandas.nanmedian xs) = true /\
    PrimFloat.leb (Pandas.nanmedian xs) hi = true.
Proof.
  intros Hne Hv.
  assert (Hn : Forall (fun x => F64.isna x = false) xs).
  { eapply List.Forall_impl; [|exact Hv]. intros x. apply valid_yield_notna. }
  unfold Pandas.nanmedian. rewrite filter_notna by exact Hn.
  set (ys := F64.sort xs).
  assert (Hperm : Permutation ys xs) by apply sort_perm.
  assert (Hlen : length ys = length xs) by now apply Permutation_length.
  assert (Hsorted : StronglySorted fle ys) by now apply sort_sorted.
  assert (Hpos : (0 < length xs)%nat) by (destruct xs; [congruence|cbn; lia]).
  assert (Hin : forall k, (k < length ys)%nat -> In (nth k ys PrimFloat.nan) xs).
  { intros k Hk. eapply Permutation_in; [exact Hperm|]. now apply nth_In. }
  rewrite Hlen in *.
  destruct (length xs =? 0)%nat eqn:E0; [apply Nat.eqb_eq in E0; lia|].
  destruct (Nat.even (length xs)) eqn:Ev.
  - (* two middle cells *)
    assert (H2 : (2 <= length xs)%nat).
    { destruct (length xs) as [|[|k]]; [lia|discriminate|lia]. }
    set (a := nth (length xs / 2 - 1) ys PrimFloat.nan).
    set (b := nth (length xs / 2) ys PrimFloat.nan).
    assert (Hdiv : (length xs / 2 < length xs)%nat) by (apply Nat.div_lt; lia).
    assert (Hdiv1 : (1 <= length xs / 2)%nat).
    { change 1%nat with (2 / 2)%nat. apply Nat.Div0.div_le_mono. exact H2. }
    assert (Ha : In a xs) by (apply Hin; lia).
    assert (Hb : In b xs) by (apply Hin; lia).
    assert (Hab : fle a b) by (apply StronglySorted_nth; [exact Hsorted|lia|lia]).
    rewrite List.Forall_forall in Hv.
    pose proof (Hv a Ha) as Hva. pose proof (Hv b Hb) as Hvb.
    unfold valid_yield in Hva, Hvb.
    apply andb_true_iff in Hva, Hvb. destruct Hva as [Ha0 _]. destruct Hvb as [_ Hb100].
    change (F64.of_nat 2) with 2%float.
    destruct (Midpoint.midpoint_between a b Ha0 Hab Hb100) as [H1 H3].
    exists a, b. auto.
  - (* one middle cell *)
    assert (Hdiv : (length xs / 2 < length xs)%nat) by (apply Nat.div_lt; lia).
    set (m := nth (length xs / 2) ys PrimFloat.nan).
    assert (Hm : In m xs) by (apply Hin; lia).
    assert (Hnm : F64.isna m = false).
    { rewrite List.Forall_forall in Hn. now apply Hn. }
    exists m, m. repeat split; try assumption; now apply leb_refl.
Qed.

End Median.

Section StatsFrame.

Lemma get_loc_lt name cols i : Pandas.get_loc name cols = Some i -> (i < length cols)%nat.
Proof.
  revert i. induction cols as [|c r IH]; intros i; cbn; [discriminate|].
  destruct (String.eqb c name).
  - intros H. injection H as <-. lia.
  - destruct (Pandas.get_loc name r) as [j|]; [|discriminate].
    cbn. intros H. injection H as <-. specialize (IH j eq_refl). lia.
Qed.

Lemma get_combine_nth cols cells name i :
  Pandas.get_loc name cols = Some i -> (i < length cells)%nat ->
  Pandas.get (combine cols cells) name = Some (nth i cells PrimFloat.nan).
Proof.
  revert cells i. induction cols as [|c r IH]; intros cells i; cbn [Pandas.get_loc];
    [discriminate|].
  destruct cells as [|x cells]; [cbn; lia|].
  cbn [combine Pandas.get length].
  destruct (String.eqb c name).
  - intros H _. injection H as <-. reflexivity.
  - destruct (Pandas.get_loc name r) as [j|]; [|discriminate].
    cbn [option_map]. intros H Hlt. injection H as <-. cbn [nth]. apply IH; [reflexivity|lia].
Qed.

Lemma labels_combine cols (cells : list float) :
  length cells = length cols -> Pandas.labels (combine cols cells) = cols.
Proof.
  unfold Pandas.labels. revert cells. induction cols as [|c r IH]; intros [|x cells] H;
    cbn in *; try reflexivity; try discriminate.
  f_equal. apply IH. lia.
Qed.

Lemma reduce_columns_getitem f df name i :
  Pandas.get_loc name (columns df) = Some i ->
  Pandas.getitem (Pandas.reduce_columns f df) name = f (Pandas.column_at df i).
Proof.
  intros H. pose proof (get_loc_lt _ _ _ H) as Hlt.
  unfold Pandas.getitem, Pandas.reduce_columns.
  rewrite (get_combine_nth _ _ _ _ H) by (rewrite length_map, length_seq; exact Hlt).
  rewrite (nth_indep _ PrimFloat.nan (f (Pandas.column_at df 0)))
    by (rewrite length_map, length_seq; exact Hlt).
  rewrite (map_nth (fun i => f (Pandas.column_at df i))), seq_nth by exact Hlt.
  reflexivity.
Qed.

Lemma dict_get_map {V} (f : string -> V) (ls : list string) name :
  Pandas.contains ls name = true ->
  dict_get (map (fun n => (n, f n)) ls) name = Some (f name).
Proof.
  unfold Pandas.contains. induction ls as [|c r IH]; cbn; [discriminate|].
  destruct (String.eqb_spec c name) as [->|Hne]; [reflexivity|].
  destruct (Pandas.get_loc name r); [|discriminate]. intros _. now apply IH.
Qed.

Lemma last_in_skipn {A} (l : list A) (r : A) (n : nat) :
  last l = Some r -> (0 < n)%nat -> In r (skipn (length l - n) l).
Proof.
  intros Hl Hn. apply last_Some in Hl. destruct Hl as [l' ->].
  rewrite length_app. cbn [length].
  destruct (Nat.le_gt_cases (length l') (length l' + 1 - n)) as [H|H].
  - rewrite skipn_app. replace (length l' + 1 - n)%nat with (length l') by lia.
    rewrite skipn_all, Nat.sub_diag. now left.
  - rewrite skipn_app. apply in_or_app. right.
    replace (length l' + 1 - n - length l')%nat with 0%nat by lia. now left.
Qed.

Lemma column_at_tail df n i :
  Pandas.column_at (Pandas.tail n df) i
  = skipn (length (rows df) - n) (Pandas.column_at df i).
Proof. unfold Pandas.column_at, Pandas.tail. cbn [rows]. now rewrite skipn_map. Qed.

(** The statistics row of a column of a well-formed, non-empty table. *)
Lemma stats_of_lookup df n_days name i r :
  well_formed df -> last (rows df) = Some r ->
  Pandas.get_loc name (columns df) = Some i ->
  dict_get (stats_of df n_days) name
  = Some {| Current := nth i (snd r) PrimFloat.nan;
            D_Max := Pandas.nanmax (Pandas.column_at (Pandas.tail n_days df) i);
            D_Min := Pandas.nanmin (Pandas.column_at (Pandas.tail n_days df) i);
            D_Median := Pandas.nanmedian (Pandas.column_at (Pandas.tail n_days df) i);
            D_Mean := Pandas.nanmean (Pandas.column_at (Pandas.tail n_days df) i) |}.
Proof.
  intros Hwf Hlast Hloc.
  assert (Hlen : length (snd r) = length (columns df)).
  { unfold well_formed in Hwf. rewrite List.Forall_forall in Hwf. apply Hwf.
    apply last_Some in Hlast. destruct Hlast as [l' ->]. apply in_or_app. right. now left. }
  unfold stats_of, stats_frame, Pandas.iloc_last. rewrite Hlast.
  rewrite labels_combine by exact Hlen.
  rewrite dict_get_map by (unfold Pandas.contains; now rewrite Hloc).
  pose proof (get_loc_lt _ _ _ Hloc) as Hlt.
  unfold Pandas.getitem at 1.
  rewrite (get_combine_nth _ _ _ _ Hloc) by lia.
  unfold Pandas.max, Pandas.min, Pandas.median, Pandas.mean.
  rewrite !(reduce_columns_getitem _ (Pandas.tail n_days df) name i) by exact Hloc.
  reflexivity.
Qed.

Lemma nonempty_last df : Pandas.empty df = false -> exists r, last (rows df) = Some r.
Proof.
  unfold Pandas.empty. destruct (columns df); [discriminate|].
  destruct (rows df) as [|x rest] eqn:E; [discriminate|]. intros _.
  destruct (last (x :: rest)) as [r|] eqn:El; [eauto|].
  apply last_None in El. discriminate.
Qed.

Lemma current_in_window df n_days i r :
  last (rows df) = Some r -> (0 < n_days)%nat ->
  In (nth i (snd r) PrimFloat.nan) (Pandas.column_at (Pandas.tail n_days df) i).
Proof.
  intros Hlast Hn. unfold Pandas.column_at, Pandas.tail. cbn [rows].
  apply (in_map (fun r => nth i (snd r) PrimFloat.nan)).
  now apply last_in_skipn.
Qed.

Lemma valid_table_column df n_days i :
  valid_table df ->
  Forall (fun c => valid_cell c = true) (Pandas.column_at (Pandas.tail n_days df) i).
Proof.
  intros [_ Hv]. unfold Pandas.column_at, Pandas.tail. cbn [rows].
  apply List.Forall_forall. intros c Hc. apply in_map_iff in Hc.
  destruct Hc as (r & <- & Hr).
  assert (Hin : In r (rows df)).
  { rewrite <- (firstn_skipn (length (rows df) - n_days) (rows df)).
    apply in_or_app. now right. }
  rewrite List.Forall_forall in Hv. specialize (Hv r Hin).
  destruct (Nat.lt_ge_cases i (length (snd r))) as [Hlt|Hge].
  - rewrite List.Forall_forall in Hv. apply Hv. now apply nth_In.
  - rewrite nth_overflow by exact Hge. reflexivity.
Qed.

End StatsFrame.





(** C2, as stated, fails on the mean: three equal cells of 0.1 add up to
    0.30000000000000004, whose third is 0.10000000000000002, above the
    window maximum 0.1. *)
Lemma C2_counterexample :
  valid_table flat_tenth_frame /\
  Pandas.empty flat_tenth_frame = false /\
  forallb F64.notna (Pandas.column_at (Pandas.tail 90 flat_tenth_frame) 0) = true /\
  exists stats row,
    val (analyze_rates sample_env flat_tenth_frame 90 0%nat) = Some stats /\
    dict_get stats "1Y" = Some row /\
    D_Max row = 0x1.999999999999ap-4%float /\
    D_Mean row = 0x1.999999999999bp-4%float /\
    PrimFloat.leb (D_Mean row) (D_Max row) = false.
Proof.
  split; [split; repeat constructor|].
  split; [reflexivity|]. split; [reflexivity|].
  eexists _, _. split; [reflexivity|]. split; [reflexivity|].
  repeat split; reflexivity.
Qed.

(** C2, amended.  On a valid non-empty table (every row holds one cell per
    column, every present yield lies between 0 and 100), with a window of at
    least one row, every column whose window cells are all present has
    WindowMin <= WindowMedian <= WindowMax and WindowMin <= Current <=
    WindowMax.  (The floating-point mean is not bounded by the window
    extremes.) *)
Theorem C2_window_statistics_ordered
        (env : Env) (df : DataFrame) (n_days t : nat) (name : string) (i : nat) :
  Pandas.empty df = false ->
  valid_table df ->
  (0 < n_days)%nat ->
  Pandas.get_loc name (columns df) = Some i ->
  forallb F64.notna (Pandas.column_at (Pandas.tail n_days df) i) = true ->
  exists stats row,
    val (analyze_rates env df n_days t) = Some stats /\
    dict_get stats name = Some row /\
    PrimFloat.leb (D_Min row) (D_Median row) = true /\
    PrimFloat.leb (D_Median row) (D_Max row) = true /\
    PrimFloat.leb (D_Min row) (Current row) = true /\
    PrimFloat.leb (Current row) (D_Max row) = true.
Proof.
  intros Hne Hvalid Hn Hloc Hpresent.
  destruct (nonempty_last df Hne) as [r Hlast].
  set (window := Pandas.column_at (Pandas.tail n_days df) i) in *.
  assert (Hnotna : Forall (fun c => F64.isna c = false) window).
  { apply List.Forall_forall. intros c Hc.
    rewrite forallb_forall in Hpresent. specialize (Hpresent c Hc).
    unfold F64.notna in Hpresent. now apply negb_true_iff in Hpresent. }
  assert (Hyields : Forall (fun c => valid_yield c = true) window).
  { pose proof (valid_table_column df n_days i Hvalid) as Hc. fold window in Hc.
    rewrite List.Forall_forall in *. intros c Hin.
    specialize (Hc c Hin). specialize (Hnotna c Hin).
    unfold valid_cell in Hc. rewrite Hnotna in Hc. exact Hc. }
  pose proof (current_in_window df n_days i r Hlast Hn) as Hcur. fold window in Hcur.
  assert (Hwne : window <> []) by (intros E; rewrite E in Hcur; destruct Hcur).
  destruct (nanmedian_between window Hwne Hyields) as (lo & hi & Hlo & Hhi & Hlm & Hmh).
  eexists _, _. split; [rewrite analyze_rates_val, Hne; reflexivity|].
  split; [apply (stats_of_lookup df n_days name i r (proj1 Hvalid) Hlast Hloc)|].
  cbn [Current D_Max D_Min D_Median]. fold window.
  split; [exact (leb_trans _ _ _ (nanmin_le window lo Hnotna Hlo) Hlm)|].
  split; [exact (leb_trans _ _ _ Hmh (nanmax_ge window hi Hnotna Hhi))|].
  split; [exact (nanmin_le window _ Hnotna Hcur)|exact (nanmax_ge window _ Hnotna Hcur)].
Qed.

Lemma C2_witness :
  exists stats row,
    val (analyze_rates sample_env quoted_frame 90 0%nat) = Some stats /\
    dict_get stats "2Y" = Some row /\
    PrimFloat.leb (D_Min row) (D_Median row) = true /\
    PrimFloat.leb (D_Median row) (D_Max row) = true /\
    PrimFloat.leb (D_Min row) (Current row) = true /\
    PrimFloat.leb (Current row) (D_Max row) = true.
Proof.
  apply (C2_window_statistics_ordered sample_env quoted_frame 90 0%nat "2Y" 1).
  - reflexivity.
  - split; repeat constructor.
  - lia.
  - reflexivity.
  - reflexivity.
Defined.

(** C3, as stated, fails on a column with no observation in the window:
    its maximum is missing (NaN), and NaN <= 100 does not hold. *)
Lemma C3_counterexample :
  valid_table silent_column_frame /\
  Pandas.empty silent_column_frame = false /\
  Pandas.dropna_all silent_column_frame = silent_column_frame /\
  exists stats row,
    val (analyze_rates sample_env silent_column_frame 90 0%nat) = Some stats /\
    dict_get stats "2Y" = Some row /\
    F64.isna (D_Max row) = true /\
    PrimFloat.leb (D_Max row) 100 = false.
Proof.
  split; [split; repeat constructor|].
  split; [reflexivity|]. split; [reflexivity|].
  eexists _, _. split; [reflexivity|]. split; [reflexivity|].
  split; reflexivity.
Qed.

(** C3, amended.  On a valid non-empty table (every present yield lies
    between 0 and 100) the trailing-window maximum of a column that has at
    least one present cell in the window is at most 100; the maximum of a
    column with no present cell in the window is itself missing. *)
Theorem C3_window_max_bounded
        (env : Env) (df : DataFrame) (n_days t : nat) (name : string) (i : nat) :
  Pandas.empty df = false ->
  valid_table df ->
  Pandas.get_loc name (columns df) = Some i ->
  exists stats row,
    val (analyze_rates env df n_days t) = Some stats /\
    dict_get stats name = Some row /\
    D_Max row = Pandas.nanmax (Pandas.column_at (Pandas.tail n_days df) i) /\
    (if (Pandas.count (Pandas.column_at (Pandas.tail n_days df) i) =? 0)%nat
     then F64.isna (D_Max row) = true
     else PrimFloat.leb (D_Max row) 100 = true).
Proof.
  intros Hne Hvalid Hloc.
  destruct (nonempty_last df Hne) as [r Hlast].
  pose proof (valid_table_column df n_days i Hvalid) as Hcells.
  set (window := Pandas.column_at (Pandas.tail n_days df) i) in *.
  eexists _, _. split; [rewrite analyze_rates_val, Hne; reflexivity|].
  split; [apply (stats_of_lookup df n_days name i r (proj1 Hvalid) Hlast Hloc)|].
  cbn [D_Max]. fold window. split; [reflexivity|].
  unfold Pandas.nanmax.
  destruct window as [|x rest] eqn:Ew; [reflexivity|].
  destruct (Pandas.count (x :: rest) =? 0)%nat; [reflexivity|].
  cbn [Pandas.fillna map F64.reduce].
  pose proof (fold_maximum_in
                (map (fun x => if F64.isna x then PrimFloat.neg_infinity else x) rest)
                (if F64.isna x then PrimFloat.neg_infinity else x)) as Hin.
  change (In (fold_left F64.maximum
                (map (fun x => if F64.isna x then PrimFloat.neg_infinity else x) rest)
                (if F64.isna x then PrimFloat.neg_infinity else x))
             (map (fun x => if F64.isna x then PrimFloat.neg_infinity else x) (x :: rest)))
    in Hin.
  apply in_map_iff in Hin. destruct Hin as (c & Hc & Hcin). rewrite <- Hc.
  rewrite List.Forall_forall in Hcells. specialize (Hcells c Hcin).
  unfold valid_cell, valid_yield in Hcells.
  destruct (F64.isna c); [reflexivity|].
  cbn [orb] in Hcells. apply andb_true_iff in Hcells. tauto.
Qed.

Lemma C3_witness :
  exists stats row,
    val (analyze_rates sample_env silent_column_frame 90 0%nat) = Some stats /\
    dict_get stats "1Y" = Some row /\
    D_Max row = Pandas.nanmax (Pandas.column_at (Pandas.tail 90 silent_column_frame) 0) /\
    PrimFloat.leb (D_Max row) 100 = true.
Proof.
  apply (C3_window_max_bounded sample_env silent_column_frame 90 0%nat "1Y" 0).
  - reflexivity.
  - split; repeat constructor.
  - reflexivity.
Defined.
(** ** Acquisition: what the loop stores and what the table holds *)

Section Acquisition.
Variable env : Env.

Lemma dict_set_fresh {V} (data : list (string * V)) k v :
  ~ In k (map fst data) -> dict_set data k v = data ++ [(k, v)].
Proof.
  induction data as [|[k' v'] r IH]; simpl; intros Hk; [reflexivity|].
  destruct (String.eqb_spec k' k) as [->|Hne].
  - exfalso. apply Hk. now left.
  - f_equal. apply IH. intros Hin. apply Hk. now right.
Qed.

Lemma answered_keys s e items :
  map fst (answered env s e items) = map fst (List.filter (fetched env s e) items).
Proof.
  unfold answered, fetched. induction items as [|item rest IH]; [reflexivity|].
  cbn [omap list_omap List.filter]. destruct (get_data_fred env (snd item) s e);
    cbn [map fst]; [exact IH|f_equal; exact IH].
Qed.

Lemma answered_keys_incl s e items k :
  In k (map fst (answered env s e items)) -> In k (map fst items).
Proof.
  rewrite answered_keys. intros H. apply in_map_iff in H. destruct H as (item & <- & Hin).
  apply filter_In in Hin. apply in_map. tauto.
Qed.

Lemma answered_keys_NoDup s e items :
  List.NoDup (map fst items) -> List.NoDup (map fst (answered env s e items)).
Proof.
  induction items as [|item rest IH]; intros Hnd; [constructor|].
  inversion Hnd as [|? ? Hnotin Hnd']; subst.
  unfold answered. cbn [omap list_omap]. fold (answered env s e rest).
  destruct (get_data_fred env (snd item) s e); cbn; [now apply IH|].
  constructor; [|now apply IH].
  intros Hin. apply Hnotin. eapply answered_keys_incl. exact Hin.
Qed.

Lemma fetch_loop_val items s e data t :
  List.NoDup (map fst items) ->
  (forall k, In k (map fst data) -> ~ In k (map fst items)) ->
  val (fetch_loop env items s e data t) = data ++ answered env s e items.
Proof.
  revert data t. induction items as [|[maturity code] rest IH]; intros data t Hnd Hfresh.
  - cbn. now rewrite app_nil_r.
  - inversion Hnd as [|? ? Hnotin Hnd']; subst.
    assert (Hm : ~ In maturity (map fst data)).
    { intros Hin. apply (Hfresh _ Hin). now left. }
    cbn [fetch_loop]. rewrite !val_bind.
    unfold answered. cbn [omap list_omap]. fold (answered env s e rest).
    cbn [fetch bind emit ret val ticks snd fst].
    destruct (get_data_fred env code s e) as [err|rates];
      cbn [print emit bind ret val ticks].
    + apply IH; [assumption|]. intros k Hk Hin. apply (Hfresh k Hk). now right.
    + rewrite IH; [|assumption|].
      * rewrite dict_set_fresh by assumption. cbn. now rewrite <- app_assoc.
      * intros k Hk Hin. rewrite dict_set_fresh in Hk by assumption.
        rewrite map_app in Hk. apply in_app_or in Hk. destruct Hk as [Hk|[<-|[]]].
        -- apply (Hfresh k Hk). now right.
        -- now apply Hnotin.
Qed.

Lemma series_keys_ListNoDup : List.NoDup (map fst series).
Proof. repeat constructor; simpl; intuition discriminate. Qed.

Lemma fetch_all_answered years t :
  fetch_all env years t
  = answered env (minus_days (clock env t) (365 * years)) (clock env t) series.
Proof.
  unfold fetch_all. rewrite fetch_loop_val; [reflexivity|apply series_keys_ListNoDup|].
  intros k [].
Qed.

Lemma fetch_loop_trace items s e data t :
  trace (fetch_loop env items s e data t) = flat_map (fetch_events env s e) items.
Proof.
  revert data t. induction items as [|[maturity code] rest IH]; intros data t; [reflexivity|].
  cbn [fetch_loop flat_map]. rewrite !trace_bind, IH.
  unfold fetch_events at 2. cbn [fetch bind emit ret val ticks trace snd fst app].
  destruct (get_data_fred env code s e); reflexivity.
Qed.


Lemma dropna_all_well_formed df : well_formed df -> well_formed (Pandas.dropna_all df).
Proof.
  unfold well_formed. cbn [Pandas.dropna_all columns rows]. intros H.
  apply List.Forall_forall. intros r Hr. apply filter_In in Hr.
  rewrite List.Forall_forall in H. apply H. tauto.
Qed.

Lemma DataFrame_of_dict_well_formed data : well_formed (Pandas.DataFrame_of_dict data).
Proof.
  unfold well_formed, Pandas.DataFrame_of_dict. cbn [columns rows].
  apply List.Forall_forall. intros r Hr. apply in_map_iff in Hr.
  destruct Hr as (d & <- & _). cbn [snd]. now rewrite !length_map.
Qed.

Lemma get_treasury_data_well_formed years t :
  well_formed (val (get_treasury_data env years t)).
Proof.
  rewrite get_treasury_data_val.
  apply dropna_all_well_formed, DataFrame_of_dict_well_formed.
Qed.

Lemma get_treasury_data_columns years t :
  columns (val (get_treasury_data env years t))
  = map fst (answered env (minus_days (clock env t) (365 * years)) (clock env t) series).
Proof. rewrite get_treasury_data_val, fetch_all_answered. reflexivity. Qed.

Lemma iloc_last_labels_incl df name :
  In name (Pandas.labels (Pandas.iloc_last df)) -> In name (columns df).
Proof.
  unfold Pandas.iloc_last, Pandas.labels. destruct (last (rows df)) as [r|]; [|intros []].
  intros H. apply in_map_iff in H. destruct H as ([k v] & <- & Hin).
  now apply in_combine_l in Hin.
Qed.

End Acquisition.

Section AcquisitionFacts.
Variable env : Env.

Lemma answered_In s e items maturity code rates :
  In (maturity, code) items -> get_data_fred env code s e = inr rates ->
  In (maturity, rates) (answered env s e items).
Proof.
  intros Hin Hget. unfold answered. apply list_elem_of_In, list_elem_of_omap.
  exists (maturity, code). split; [now apply list_elem_of_In|].
  cbn [snd fst]. now rewrite Hget.
Qed.

Lemma get_loc_map_nth {V} (A : list (string * V)) k v :
  List.NoDup (map fst A) -> In (k, v) A ->
  exists i, Pandas.get_loc k (map fst A) = Some i /\
            forall (B : Type) (f : string * V -> B) d0, nth i (map f A) d0 = f (k, v).
Proof.
  induction A as [|[k' v'] r IH]; intros Hnd Hin; [destruct Hin|].
  inversion Hnd as [|? ? Hnotin Hnd']; subst.
  cbn [map fst Pandas.get_loc].
  destruct Hin as [E|Hin].
  - injection E as -> ->. rewrite String.eqb_refl. exists 0%nat. split; [reflexivity|].
    intros B f d0. reflexivity.
  - destruct (String.eqb_spec k' k) as [->|Hne].
    + exfalso. apply Hnotin. apply in_map_iff. exists (k, v). now split.
    + destruct (IH Hnd' Hin) as (i & Hloc & Hnth). exists (S i). rewrite Hloc.
      split; [reflexivity|]. intros B f d0. cbn [map nth]. apply Hnth.
Qed.

Lemma series_at_In (rates : Series) d v :
  List.NoDup (map fst rates) -> In (d, v) rates -> Pandas.series_at rates d = v.
Proof.
  induction rates as [|[d' v'] r IH]; intros Hnd Hin; [destruct Hin|].
  inversion Hnd as [|? ? Hnotin Hnd']; subst. cbn [Pandas.series_at].
  destruct Hin as [E|Hin].
  - injection E as -> ->. now rewrite Z.eqb_refl.
  - destruct (Z.eqb_spec d' d) as [->|Hne]; [|now apply IH].
    exfalso. apply Hnotin. apply in_map_iff. exists (d, v). now split.
Qed.

Lemma series_at_absent (rates : Series) d :
  ~ In d (map fst rates) -> Pandas.series_at rates d = PrimFloat.nan.
Proof.
  induction rates as [|[d' v'] r IH]; intros Hnotin; [reflexivity|].
  cbn [Pandas.series_at]. destruct (Z.eqb_spec d' d) as [->|Hne].
  - exfalso. apply Hnotin. now left.
  - apply IH. intros Hin. apply Hnotin. now right.
Qed.

Lemma get_treasury_data_rows years t d cells :
  In (d, cells) (rows (val (get_treasury_data env years t))) ->
  cells = map (fun kv => Pandas.series_at (snd kv) d) (fetch_all env years t).
Proof.
  rewrite get_treasury_data_val. cbn [Pandas.dropna_all Pandas.DataFrame_of_dict rows].
  intros H. apply filter_In in H. destruct H as [H _].
  apply in_map_iff in H. destruct H as (d' & E & _). now injection E as -> <-.
Qed.

End AcquisitionFacts.

(** X1. Every cell of the table that [get_treasury_data] returns is what the
    provider answered: for a maturity whose request answered with a series
    of distinct dates, the table has a column under the maturity label, and
    on each row that column holds the observation of the series for the
    row's date, or a missing value when the series has none for that date. *)
Theorem X1_table_cells_are_provider_observations
        (env : Env) (years : Z) (t : nat) (maturity code : string) (rates : Series) :
  let df := val (get_treasury_data env years t) in
  In (maturity, code) series ->
  get_data_fred env code (minus_days (clock env t) (365 * years)) (clock env t) = inr rates ->
  List.NoDup (map fst rates) ->
  exists i,
    Pandas.get_loc maturity (columns df) = Some i /\
    forall d cells,
      In (d, cells) (rows df) ->
      (forall v, In (d, v) rates -> nth i cells PrimFloat.nan = v) /\
      (~ In d (map fst rates) -> F64.isna (nth i cells PrimFloat.nan) = true).
Proof.
  intros df Hitem Hget Hnd. subst df.
  pose proof (answered_In env _ _ _ _ _ _ Hitem Hget) as Hin.
  pose proof (answered_keys_NoDup env (minus_days (clock env t) (365 * years)) (clock env t)
                series series_keys_ListNoDup) as Hkeys.
  destruct (get_loc_map_nth _ _ _ Hkeys Hin) as (i & Hloc & Hnth).
  exists i. split; [now rewrite get_treasury_data_columns|].
  intros d cells Hrow. apply get_treasury_data_rows in Hrow.
  rewrite fetch_all_answered in Hrow. subst cells. rewrite Hnth. cbn [snd].
  split.
  - intros v Hv. now apply series_at_In.
  - intros Habs. now rewrite series_at_absent.
Qed.

Lemma X1_witness :
  exists i,
    Pandas.get_loc "2Y" (columns (val (get_treasury_data (two_series_env 0 None) 2 0%nat))) = Some i /\
    forall d cells,
      In (d, cells) (rows (val (get_treasury_data (two_series_env 0 None) 2 0%nat))) ->
      (forall v, In (d, v) [(739190, 4%float); (739191, 4.5%float)] ->
                 nth i cells PrimFloat.nan = v) /\
      (~ In d (map fst [(739190, 4%float); (739191, 4.5%float)]) ->
       F64.isna (nth i cells PrimFloat.nan) = true).
Proof.
  apply (X1_table_cells_are_provider_observations (two_series_env 0 None) 2 0%nat "2Y" "DGS2").
  - simpl. tauto.
  - reflexivity.
  - repeat constructor; simpl; intuition discriminate.
Defined.

(** X2. All the requests of a run ask for one window: its end is the single
    clock reading of [get_treasury_data], its start lies 365 * years days
    before, at the same time of day (leap days are not counted). *)
Theorem X2_requests_share_one_window
        (env : Env) (years : Z) (t : nat) (code : string) (start_date end_date : datetime) :
  In (Requested code start_date end_date) (trace (get_treasury_data env years t)) ->
  end_date = clock env t /\
  toordinal start_date = toordinal end_date - 365 * years /\
  second_of_day start_date = second_of_day end_date.
Proof.
  unfold get_treasury_data. rewrite !trace_bind, fetch_loop_trace.
  cbn [now print emit bind ret val ticks trace app].
  intros H. repeat (destruct H as [H|H]; [discriminate H|]).
  apply in_app_or in H. destruct H as [H|H].
  - apply in_flat_map in H. destruct H as (item & _ & H).
    unfold fetch_events in H. destruct H as [H|[H|[]]]; [|discriminate H].
    injection H as _ <- <-. repeat split.
  - exfalso. destruct (val (fetch_loop env series _ _ [] _));
      cbn [print write emit bind ret trace app] in H;
      repeat (destruct H as [H|H]; [discriminate H|]); exact H.
Qed.

Lemma X2_witness :
  mkDatetime 739193 37860 = clock sample_env 0 /\
  toordinal (mkDatetime 738463 37860) = toordinal (mkDatetime 739193 37860) - 365 * 2 /\
  second_of_day (mkDatetime 738463 37860) = second_of_day (mkDatetime 739193 37860).
Proof.
  apply (X2_requests_share_one_window sample_env 2 0%nat "DGS10").
  vm_compute. do 14 right. left. reflexivity.
Defined.


(** X4. The table that [get_treasury_data] returns is well formed: every
    row holds one cell per column, no column label occurs twice, and every
    column is one of the eight maturities of the display order. *)
Theorem X4_table_shape (env : Env) (years : Z) (t : nat) :
  let df := val (get_treasury_data env years t) in
  well_formed df /\
  List.NoDup (columns df) /\
  (forall name, In name (columns df) -> In name order) /\
  (Pandas.ncols df <= 8)%nat.
Proof.
  intros df. subst df. split; [apply get_treasury_data_well_formed|].
  rewrite get_treasury_data_columns. unfold Pandas.ncols. rewrite get_treasury_data_columns.
  split; [apply answered_keys_NoDup, series_keys_ListNoDup|]. split.
  - intros name H. apply answered_keys_incl in H. exact H.
  - rewrite answered_keys, length_map.
    etransitivity; [apply List.filter_length_le|]. reflexivity.
Qed.

(** X5. On the tables that [get_treasury_data] produces the 3M-10Y block of
    [analyze_rates] never runs: no 3M series is requested, so the block
    computes nothing and prints nothing. *)
Theorem X5_no_3m_spread_in_a_run (env : Env) (years : Z) (t t' : nat) :
  let current := Pandas.iloc_last (val (get_treasury_data env years t)) in
  val (spread_3m10y current t') = None /\ trace (spread_3m10y current t') = [].
Proof.
  intros current.
  assert (H : Pandas.contains (Pandas.labels current) "3M" = false).
  { apply not_true_iff_false. intros Hc. apply contains_In in Hc.
    apply iloc_last_labels_incl in Hc. rewrite get_treasury_data_columns in Hc.
    apply answered_keys_incl in Hc. cbn in Hc. intuition discriminate. }
  unfold spread_3m10y. rewrite H. split; reflexivity.
Qed.

(** ** The chart files and a complete run *)

Section Charts.
Variable env : Env.

Lemma plot_curve_ticks df stats n_days t :
  ticks (plot_curve env df stats n_days t) = if Pandas.empty df then t else S t.
Proof.
  unfold plot_curve. destruct (Pandas.empty df); [reflexivity|].
  rewrite !ticks_bind. cbn [now write print emit bind ret val ticks].
  destruct (write_image env); reflexivity.
Qed.

Lemma plot_curve_writes df stats n_days t :
  Pandas.empty df = false ->
  exists fig,
    writes (trace (plot_curve env df stats n_days t)) = chart_writes env fig /\
    title fig
    = "US Treasury Analysis - " +:+ Calendar.strftime_Ymd (toordinal (clock env t)).
Proof.
  intros He. unfold plot_curve, chart_writes. rewrite He.
  rewrite !trace_bind. cbn [now write print emit bind ret val ticks trace app].
  eexists. split; [destruct (write_image env); reflexivity|reflexivity].
Qed.

Lemma nonempty_fetch_all years t :
  Pandas.empty (val (get_treasury_data env years t)) = false ->
  exists kv rest, fetch_all env years t = kv :: rest.
Proof.
  rewrite get_treasury_data_val. destruct (fetch_all env years t) as [|kv rest]; [|eauto].
  discriminate.
Qed.

End Charts.

(** X6. [plot_curve] on a table that is not empty reads the clock once and
    always writes the interactive chart; the static image is written after
    it, from the same figure, exactly when the renderer works.  A renderer
    failure is caught: the run goes on and its last line is the warning that
    carries the exception message. *)
Theorem X6_png_failure_is_caught
        (env : Env) (df : DataFrame) (stats : Stats) (n_days t : nat) :
  Pandas.empty df = false ->
  exists fig,
    writes (trace (plot_curve env df stats n_days t)) = chart_writes env fig /\
    title fig
    = "US Treasury Analysis - " +:+ Calendar.strftime_Ymd (toordinal (clock env t)) /\
    ticks (plot_curve env df stats n_days t) = S t /\
    (forall e, write_image env = Some e ->
       writes (trace (plot_curve env df stats n_days t))
       = [("treasury_analysis_plotly.html", HtmlChart fig)] /\
       last (trace (plot_curve env df stats n_days t))
       = Some (Printed (Text [Str "⚠️  Could not save PNG (install kaleido for static images): ";
                              Str e]) true)).
Proof.
  intros He. destruct (plot_curve_writes env df stats n_days t He) as (fig & Hw & Ht).
  exists fig. split; [exact Hw|]. split; [exact Ht|]. split.
  - now rewrite plot_curve_ticks, He.
  - intros e Himg. split.
    + rewrite Hw. unfold chart_writes. now rewrite Himg.
    + unfold plot_curve. rewrite He, Himg. reflexivity.
Qed.

Lemma X6_witness :
  exists fig,
    writes (trace (plot_curve (two_series_env 0 (Some "no kaleido")) quoted_frame
                              (stats_of quoted_frame 90) 90 0%nat))
    = chart_writes (two_series_env 0 (Some "no kaleido")) fig /\
    title fig
    = "US Treasury Analysis - "
      +:+ Calendar.strftime_Ymd (toordinal (clock (two_series_env 0 (Some "no kaleido")) 0%nat)) /\
    ticks (plot_curve (two_series_env 0 (Some "no kaleido")) quoted_frame
                      (stats_of quoted_frame 90) 90 0%nat) = 1%nat /\
    (forall e, write_image (two_series_env 0 (Some "no kaleido")) = Some e ->
       writes (trace (plot_curve (two_series_env 0 (Some "no kaleido")) quoted_frame
                                 (stats_of quoted_frame 90) 90 0%nat))
       = [("treasury_analysis_plotly.html", HtmlChart fig)] /\
       last (trace (plot_curve (two_series_env 0 (Some "no kaleido")) quoted_frame
                               (stats_of quoted_frame 90) 90 0%nat))
       = Some (Printed (Text [Str "⚠️  Could not save PNG (install kaleido for static images): ";
                              Str e]) true)).
Proof.
  apply (X6_png_failure_is_caught (two_series_env 0 (Some "no kaleido")) quoted_frame
                                  (stats_of quoted_frame 90) 90 0%nat).
  reflexivity.
Defined.

(** X7. A run of [main] whose table is not empty reads the clock three
    times and writes, in this order, the data file named after the first
    reading, the summary file named after the second, the interactive chart
    titled after the third and, when the renderer works, the static image.
    Its trace ends with the seven closing lines whether the static image
    was written or not. *)
Theorem X7_complete_run (env : Env) (t : nat) :
  let df := val (get_treasury_data env 2 t) in
  Pandas.empty df = false ->
  exists fig pre,
    writes (trace (main env t))
    = [(data_path (clock env t), CsvFrame df);
       (summary_path (clock env (S t)),
        CsvRecords [summary_data df (Pandas.iloc_last df) (primary_of (Pandas.iloc_last df))])]
      ++ chart_writes env fig /\
    title fig
    = "US Treasury Analysis - " +:+ Calendar.strftime_Ymd (toordinal (clock env (S (S t)))) /\
    trace (main env t) = pre ++ banner /\
    ticks (main env t) = S (S (S t)).
Proof.
  intros df He.
  destruct (nonempty_fetch_all env 2 t He) as (kv & rest & Hdata).
  destruct (plot_curve_writes env df (stats_of df 90) 90 (S (S t)) He) as (fig & Hw & Ht).
  exists fig.
  exists (trace (get_treasury_data env 2 t) ++ trace (analyze_rates env df 90 (S t))
          ++ trace (plot_curve env df (stats_of df 90) 90 (S (S t)))).
  split; [|split; [exact Ht|split]].
  - rewrite main_trace. fold df. rewrite He.
    rewrite writes_app, get_treasury_data_writes, Hdata. fold df.
    rewrite trace_bind, writes_app, analyze_rates_writes, analyze_rates_val, analyze_rates_ticks, He.
    rewrite trace_bind, writes_app, Hw.
    cbn [print emit bind trace]. cbn [writes omap list_omap app]. now rewrite app_nil_r.
  - rewrite main_trace. fold df. rewrite He.
    rewrite trace_bind, analyze_rates_val, analyze_rates_ticks, He.
    rewrite trace_bind. cbn [print emit bind trace app]. now rewrite <- !app_assoc.
  - unfold main. rewrite ticks_bind, get_treasury_data_ticks. fold df. rewrite He.
    rewrite ticks_bind, analyze_rates_val, analyze_rates_ticks, He.
    rewrite ticks_bind, plot_curve_ticks, He. reflexivity.
Qed.

Lemma X7_witness :
  exists fig pre,
    writes (trace (main (two_series_env 0 None) 0%nat))
    = [(data_path (clock (two_series_env 0 None) 0%nat),
        CsvFrame (val (get_treasury_data (two_series_env 0 None) 2 0%nat)));
       (summary_path (clock (two_series_env 0 None) 1%nat),
        CsvRecords [summary_data (val (get_treasury_data (two_series_env 0 None) 2 0%nat))
                      (Pandas.iloc_last (val (get_treasury_data (two_series_env 0 None) 2 0%nat)))
                      (primary_of
                         (Pandas.iloc_last (val (get_treasury_data (two_series_env 0 None) 2 0%nat))))])]
      ++ chart_writes (two_series_env 0 None) fig /\
    title fig
    = "US Treasury Analysis - "
      +:+ Calendar.strftime_Ymd (toordinal (clock (two_series_env 0 None) 2%nat)) /\
    trace (main (two_series_env 0 None) 0%nat) = pre ++ banner /\
    ticks (main (two_series_env 0 None) 0%nat) = 3%nat.
Proof.
  apply (X7_complete_run (two_series_env 0 None) 0%nat).
  reflexivity.
Defined.

(** X8. When some request answers but no row of the assembled table has a
    present cell, [get_treasury_data] still writes the data file, holding a
    table without rows, and [main] stops there: the clock is read once and
    neither the summary nor a chart is written. *)
Theorem X8_empty_table_is_still_archived (env : Env) (t : nat) :
  let df := val (get_treasury_data env 2 t) in
  fetch_all env 2 t <> [] ->
  rows df = [] ->
  writes (trace (main env t)) = [(data_path (clock env t), CsvFrame df)] /\
  trace (main env t) = trace (get_treasury_data env 2 t) /\
  ticks (main env t) = S t.
Proof.
  intros df Hdata Hrows.
  assert (He : Pandas.empty df = true).
  { unfold Pandas.empty. rewrite Hrows. now destruct (columns df). }
  assert (Htr : trace (main env t) = trace (get_treasury_data env 2 t)).
  { rewrite main_trace. fold df. rewrite He. apply app_nil_r. }
  split; [|split; [exact Htr|]].
  - rewrite Htr, get_treasury_data_writes. fold df.
    destruct (fetch_all env 2 t); [now destruct Hdata|reflexivity].
  - unfold main. rewrite ticks_bind, get_treasury_data_ticks. fold df. now rewrite He.
Qed.

Lemma X8_witness :
  writes (trace (main holiday_env 0%nat))
  = [(data_path (clock holiday_env 0%nat), CsvFrame (val (get_treasury_data holiday_env 2 0%nat)))] /\
  trace (main holiday_env 0%nat) = trace (get_treasury_data holiday_env 2 0%nat) /\
  ticks (main holiday_env 0%nat) = 1%nat.
Proof.
  apply (X8_empty_table_is_still_archived holiday_env 0%nat).
  - discriminate.
  - reflexivity.
Defined.

(** ** The snapshot and the statistics frame *)

Section Snapshot.
Variable env : Env.

Lemma print_yields_trace current ms t :
  trace (print_yields current ms t)
  = map (yield_line current) (List.filter (Pandas.contains (Pandas.labels current)) ms).
Proof.
  revert t. induction ms as [|m r IH]; intros t; [reflexivity|].
  cbn [print_yields List.filter]. rewrite trace_bind, IH.
  destruct (Pandas.contains (Pandas.labels current) m); reflexivity.
Qed.

Lemma last_row_length df r :
  well_formed df -> last (rows df) = Some r -> length (snd r) = length (columns df).
Proof.
  intros Hwf Hlast. unfold well_formed in Hwf. rewrite List.Forall_forall in Hwf. apply Hwf.
  apply last_Some in Hlast. destruct Hlast as [l' ->]. apply in_or_app. right. now left.
Qed.

Lemma iloc_last_labels df :
  well_formed df -> Pandas.empty df = false ->
  Pandas.labels (Pandas.iloc_last df) = columns df.
Proof.
  intros Hwf He. destruct (nonempty_last df He) as [r Hlast].
  unfold Pandas.iloc_last. rewrite Hlast. apply labels_combine.
  now apply last_row_length.
Qed.

Lemma stats_of_labels df n_days :
  well_formed df -> Pandas.empty df = false -> map fst (stats_of df n_days) = columns df.
Proof.
  intros Hwf He. unfold stats_of, stats_frame. rewrite map_map. cbn [fst].
  rewrite map_id. now apply iloc_last_labels.
Qed.

Lemma tail_all n df : (Pandas.len df <= n)%nat -> Pandas.tail n df = Pandas.tail (Pandas.len df) df.
Proof.
  unfold Pandas.tail, Pandas.len. intros H. f_equal.
  replace (length (rows df) - n)%nat with 0%nat by lia. now rewrite Nat.sub_diag.
Qed.

Lemma get_In (r : Pandas.Row) name v : Pandas.get r name = Some v -> In (name, v) r.
Proof.
  induction r as [|[k x] rest IH]; cbn [Pandas.get]; [discriminate|].
  destruct (String.eqb_spec k name) as [->|Hne].
  - intros H. injection H as ->. now left.
  - intros H. right. now apply IH.
Qed.

Lemma reduce_columns_cells f df name v :
  Pandas.get (Pandas.reduce_columns f df) name = Some v ->
  exists i, v = f (Pandas.column_at df i).
Proof.
  intros H. apply get_In in H. unfold Pandas.reduce_columns in H.
  apply in_combine_r in H. apply in_map_iff in H. destruct H as (i & <- & _). now exists i.
Qed.

Lemma getitem_empty_window f df name :
  F64.isna (f []) = true ->
  F64.isna (Pandas.getitem (Pandas.reduce_columns f (Pandas.tail 0 df)) name) = true.
Proof.
  intros Hf. unfold Pandas.getitem.
  destruct (Pandas.get _ name) as [v|] eqn:E; [|reflexivity].
  apply reduce_columns_cells in E. destruct E as (i & ->).
  unfold Pandas.column_at, Pandas.tail. cbn [rows].
  rewrite Nat.sub_0_r, skipn_all. exact Hf.
Qed.

End Snapshot.

Section Extremes.

Lemma fillna_present fill xs :
  F64.isna fill = false -> Forall (fun y => F64.isna y = false) (Pandas.fillna fill xs).
Proof.
  intros Hf. unfold Pandas.fillna. apply List.Forall_forall. intros y Hy.
  apply in_map_iff in Hy. destruct Hy as (x & <- & _).
  destruct (F64.isna x) eqn:E; assumption.
Qed.

Lemma fillna_In fill xs x :
  In x xs -> F64.isna x = false -> In x (Pandas.fillna fill xs).
Proof.
  intros Hin Hx. unfold Pandas.fillna. apply in_map_iff. exists x.
  rewrite Hx. now split.
Qed.

Lemma count_pos_present xs :
  (Pandas.count xs =? 0)%nat = false -> exists x, In x xs /\ F64.isna x = false.
Proof.
  unfold Pandas.count. intros H. apply Nat.eqb_neq in H.
  destruct (List.filter F64.notna xs) as [|x r] eqn:E; [now destruct H|].
  assert (Hin : In x (List.filter F64.notna xs)) by (rewrite E; now left).
  apply filter_In in Hin. destruct Hin as [Hin Hx]. exists x. split; [exact Hin|].
  unfold F64.notna in Hx. now apply negb_true_iff in Hx.
Qed.

Lemma reduce_maximum_ge l x :
  Forall (fun y => F64.isna y = false) l -> In x l ->
  exists m, F64.reduce F64.maximum l = Some m /\ PrimFloat.leb x m = true.
Proof.
  intros Hl Hin. destruct l as [|y r]; [destruct Hin|].
  apply List.Forall_cons_iff in Hl. destruct Hl as [Hy Hr].
  destruct (fold_maximum_ge r y Hy Hr) as [H1 H2].
  eexists. split; [reflexivity|].
  destruct Hin as [<-|Hin]; [exact H1|].
  rewrite List.Forall_forall in H2. now apply H2.
Qed.

Lemma reduce_minimum_le l x :
  Forall (fun y => F64.isna y = false) l -> In x l ->
  exists m, F64.reduce F64.minimum l = Some m /\ PrimFloat.leb m x = true.
Proof.
  intros Hl Hin. destruct l as [|y r]; [destruct Hin|].
  apply List.Forall_cons_iff in Hl. destruct Hl as [Hy Hr].
  destruct (fold_minimum_le r y Hy Hr) as [H1 H2].
  eexists. split; [reflexivity|].
  destruct Hin as [<-|Hin]; [exact H1|].
  rewrite List.Forall_forall in H2. now apply H2.
Qed.

(** With a cell present, the minimum and the maximum that skip the missing
    cells enclose every present cell. *)
Lemma nanmin_nanmax_enclose xs x :
  In x xs -> F64.isna x = false ->
  PrimFloat.leb (Pandas.nanmin xs) x = true /\ PrimFloat.leb x (Pandas.nanmax xs) = true.
Proof.
  intros Hin Hx.
  assert (Hc : (Pandas.count xs =? 0)%nat = false).
  { apply Nat.eqb_neq. unfold Pandas.count. intros H. apply length_zero_iff_nil in H.
    assert (Hf : In x (List.filter F64.notna xs)).
    { apply filter_In. split; [exact Hin|]. unfold F64.notna. now rewrite Hx. }
    rewrite H in Hf. destruct Hf. }
  unfold Pandas.nanmin, Pandas.nanmax. rewrite Hc. split.
  - destruct (reduce_minimum_le (Pandas.fillna PrimFloat.infinity xs) x) as (m & -> & Hm).
    + now apply fillna_present.
    + now apply fillna_In.
    + exact Hm.
  - destruct (reduce_maximum_ge (Pandas.fillna PrimFloat.neg_infinity xs) x) as (m & -> & Hm).
    + now apply fillna_present.
    + now apply fillna_In.
    + exact Hm.
Qed.

End Extremes.

(** X9. The snapshot of [analyze_rates] on a well-formed table that is not
    empty: after its two header lines come the lines of the current yields,
    one for each maturity of the display order that is a column of the
    table, in display order whatever the order of the columns.  A column
    outside the display order gets no line; a current yield that is missing
    gets its line all the same. *)
Theorem X9_snapshot_in_display_order (env : Env) (df : DataFrame) (n_days t : nat) :
  well_formed df ->
  Pandas.empty df = false ->
  exists post,
    trace (analyze_rates env df n_days t)
    = [Printed (Text [Str newline; Str "📊 YIELD CURVE SNAPSHOT (";
                      Str (Calendar.strftime_Ymd (Pandas.index_last df)); Str ")"]) true;
       Printed (Text [Str (str_mul "=" 50)]) true]
      ++ map (yield_line (Pandas.iloc_last df))
             (List.filter (Pandas.contains (columns df)) order)
      ++ post.
Proof.
  intros Hwf He. unfold analyze_rates. rewrite He.
  rewrite !trace_bind. cbn [print emit bind ret val ticks trace].
  rewrite print_yields_trace, iloc_last_labels by assumption.
  eexists. cbn [app]. reflexivity.
Qed.

Lemma X9_witness :
  exists post,
    trace (analyze_rates sample_env inverted_frame 90 0%nat)
    = [Printed (Text [Str newline; Str "📊 YIELD CURVE SNAPSHOT (";
                      Str (Calendar.strftime_Ymd (Pandas.index_last inverted_frame)); Str ")"]) true;
       Printed (Text [Str (str_mul "=" 50)]) true]
      ++ map (yield_line (Pandas.iloc_last inverted_frame))
             (List.filter (Pandas.contains (columns inverted_frame)) order)
      ++ post.
Proof.
  apply (X9_snapshot_in_display_order sample_env inverted_frame 90 0%nat).
  - repeat constructor.
  - reflexivity.
Defined.

(** X10. On a well-formed table that is not empty [analyze_rates] returns a
    statistics frame with one row per column of the table, in the order of
    the columns. *)
Theorem X10_statistics_row_per_column (env : Env) (df : DataFrame) (n_days t : nat) :
  well_formed df ->
  Pandas.empty df = false ->
  exists stats,
    val (analyze_rates env df n_days t) = Some stats /\
    map fst stats = columns df /\
    length stats = Pandas.ncols df.
Proof.
  intros Hwf He. exists (stats_of df n_days).
  split; [now rewrite analyze_rates_val, He|].
  pose proof (stats_of_labels df n_days Hwf He) as H. split; [exact H|].
  unfold Pandas.ncols. rewrite <- H. now rewrite length_map.
Qed.

Lemma X10_witness :
  exists stats,
    val (analyze_rates sample_env quoted_frame 90 0%nat) = Some stats /\
    map fst stats = columns quoted_frame /\
    length stats = Pandas.ncols quoted_frame.
Proof.
  apply (X10_statistics_row_per_column sample_env quoted_frame 90 0%nat).
  - repeat constructor.
  - reflexivity.
Defined.

(** X11. The window never reaches beyond the table: any two window lengths
    that are at least the number of rows give the same statistics, those of
    the whole table. *)
Theorem X11_window_longer_than_table
        (env : Env) (df : DataFrame) (n_days n_days' t t' : nat) :
  (Pandas.len df <= n_days)%nat ->
  (Pandas.len df <= n_days')%nat ->
  val (analyze_rates env df n_days t) = val (analyze_rates env df n_days' t') /\
  val (analyze_rates env df n_days t) = val (analyze_rates env df (Pandas.len df) t).
Proof.
  intros H1 H2. rewrite !analyze_rates_val. unfold stats_of.
  rewrite (tail_all n_days df H1), (tail_all n_days' df H2). split; reflexivity.
Qed.

Lemma X11_witness :
  val (analyze_rates sample_env quoted_frame 90 0%nat)
  = val (analyze_rates sample_env quoted_frame 4 1%nat) /\
  val (analyze_rates sample_env quoted_frame 90 0%nat)
  = val (analyze_rates sample_env quoted_frame (Pandas.len quoted_frame) 0%nat).
Proof.
  apply (X11_window_longer_than_table sample_env quoted_frame 90 4 0%nat 1%nat).
  - vm_compute. lia.
  - vm_compute. lia.
Defined.

(** X12. With a window of zero days every window statistic of every row of
    the statistics frame is missing: maximum, minimum, median and mean are
    all NaN, whatever the table holds. *)
Theorem X12_zero_day_window (env : Env) (df : DataFrame) (t : nat) :
  match val (analyze_rates env df 0 t) with
  | Some stats =>
      Forall (fun kv => F64.isna (D_Max (snd kv)) = true /\ F64.isna (D_Min (snd kv)) = true /\
                        F64.isna (D_Median (snd kv)) = true /\ F64.isna (D_Mean (snd kv)) = true)
             stats
  | None => Pandas.empty df = true
  end.
Proof.
  rewrite analyze_rates_val. destruct (Pandas.empty df); [reflexivity|].
  unfold stats_of, stats_frame. apply List.Forall_forall. intros kv Hkv.
  apply in_map_iff in Hkv. destruct Hkv as (name & <- & _). cbn [snd D_Max D_Min D_Median D_Mean].
  unfold Pandas.max, Pandas.min, Pandas.median, Pandas.mean.
  repeat split; apply getitem_empty_window; reflexivity.
Qed.

(** X13. For a column of a well-formed table that is not empty, whatever
    its cells hold: when the window has a present cell in the column, the
    window minimum and maximum skip the missing cells and enclose every
    present cell of the window, so that minimum <= maximum; when the window
    has none, minimum and maximum are both missing. *)
Theorem X13_extremes_skip_missing_cells
        (env : Env) (df : DataFrame) (n_days t : nat) (name : string) (i : nat) :
  Pandas.empty df = false ->
  well_formed df ->
  Pandas.get_loc name (columns df) = Some i ->
  let window := Pandas.column_at (Pandas.tail n_days df) i in
  exists stats row,
    val (analyze_rates env df n_days t) = Some stats /\
    dict_get stats name = Some row /\
    (if (Pandas.count window =? 0)%nat
     then F64.isna (D_Min row) = true /\ F64.isna (D_Max row) = true
     else PrimFloat.leb (D_Min row) (D_Max row) = true /\
          forall x, In x window -> F64.isna x = false ->
                    PrimFloat.leb (D_Min row) x = true /\ PrimFloat.leb x (D_Max row) = true).
Proof.
  intros Hne Hwf Hloc window.
  destruct (nonempty_last df Hne) as [r Hlast].
  eexists _, _. split; [rewrite analyze_rates_val, Hne; reflexivity|].
  split; [apply (stats_of_lookup df n_days name i r Hwf Hlast Hloc)|].
  cbn [D_Max D_Min]. fold window.
  destruct (Pandas.count window =? 0)%nat eqn:Hc.
  - unfold Pandas.nanmin, Pandas.nanmax. rewrite Hc. split; reflexivity.
  - assert (Hall : forall x, In x window -> F64.isna x = false ->
                     PrimFloat.leb (Pandas.nanmin window) x = true /\
                     PrimFloat.leb x (Pandas.nanmax window) = true).
    { intros x Hin Hx. now apply nanmin_nanmax_enclose. }
    split; [|exact Hall].
    destruct (count_pos_present window Hc) as (x & Hin & Hx).
    destruct (Hall x Hin Hx) as [H1 H2]. exact (leb_trans _ _ _ H1 H2).
Qed.

Lemma X13_witness :
  exists stats row,
    val (analyze_rates sample_env gap_frame 90 0%nat) = Some stats /\
    dict_get stats "10Y" = Some row /\
    PrimFloat.leb (D_Min row) (D_Max row) = true /\
    forall x, In x (Pandas.column_at (Pandas.tail 90 gap_frame) 1) -> F64.isna x = false ->
              PrimFloat.leb (D_Min row) x = true /\ PrimFloat.leb x (D_Max row) = true.
Proof.
  apply (X13_extremes_skip_missing_cells sample_env gap_frame 90 0%nat "10Y" 1).
  - reflexivity.
  - repeat constructor.
  - reflexivity.
Defined.

(** ** The panels of the figure *)

Section Panels.
Variable env : Env.

Lemma filter_map_comm {A B} (f : A -> B) (p : B -> bool) (l : list A) :
  List.filter p (map f l) = map f (List.filter (fun x => p (f x)) l).
Proof.
  induction l as [|x l IH]; [reflexivity|].
  cbn [map List.filter]. destruct (p (f x)); cbn [map]; now rewrite IH.
Qed.

Lemma filter_filter_and {A} (p q : A -> bool) (l : list A) :
  List.filter q (List.filter p l) = List.filter (fun x => p x && q x) l.
Proof.
  induction l as [|x l IH]; [reflexivity|].
  cbn [List.filter]. destruct (p x); cbn [List.filter andb]; [|exact IH].
  destruct (q x); now rewrite IH.
Qed.

Lemma filter_none {A} (p : A -> bool) (l : list A) :
  Forall (fun x => p x = false) l -> List.filter p l = [].
Proof.
  induction 1 as [|x l Hx Hl IH]; [reflexivity|]. cbn [List.filter]. now rewrite Hx.
Qed.

Lemma lookup_label_In (s : list (string * float)) k v :
  List.NoDup (map fst s) -> In (k, v) s -> lookup_label s k = v.
Proof.
  induction s as [|[k' v'] r IH]; intros Hnd Hin; [destruct Hin|].
  inversion Hnd as [|? ? Hnotin Hnd']; subst. cbn [lookup_label].
  destruct Hin as [E|Hin].
  - injection E as -> ->. now rewrite String.eqb_refl.
  - destruct (String.eqb_spec k' k) as [->|Hne]; [|now apply IH].
    exfalso. apply Hnotin. apply in_map_iff. exists (k, v). now split.
Qed.

Lemma NoDup_map_filter {A B} (f : A -> B) (p : A -> bool) (l : list A) :
  List.NoDup (map f l) -> List.NoDup (map f (List.filter p l)).
Proof.
  induction l as [|x l IH]; intros Hnd; [constructor|].
  inversion Hnd as [|? ? Hnotin Hnd']; subst. cbn [List.filter].
  destruct (p x); [|now apply IH]. cbn [map]. constructor; [|now apply IH].
  intros Hin. apply Hnotin. apply in_map_iff in Hin. destruct Hin as (y & E & Hy).
  apply filter_In in Hy. apply in_map_iff. exists y. tauto.
Qed.

(** What the first panel reads from the statistics frame. *)
Lemma curve_labels (stats : Stats) :
  List.filter (fun m => Pandas.contains (map fst maturity_map) m)
    (map fst (List.filter (fun kv : string * float => F64.notna (snd kv))
                (map (fun kv : string * StatRow => (fst kv, Current (snd kv))) stats)))
  = map fst (plotted stats).
Proof.
  rewrite (filter_map_comm (fun kv : string * StatRow => (fst kv, Current (snd kv)))).
  rewrite map_map. cbn [fst snd].
  rewrite (filter_map_comm (fun kv : string * StatRow => fst kv)).
  rewrite filter_filter_and. reflexivity.
Qed.

Lemma curve_values (stats : Stats) :
  List.NoDup (map fst stats) ->
  map (lookup_label
         (List.filter (fun kv : string * float => F64.notna (snd kv))
            (map (fun kv : string * StatRow => (fst kv, Current (snd kv))) stats)))
      (map fst (plotted stats))
  = map (fun kv => Current (snd kv)) (plotted stats).
Proof.
  intros Hnd. rewrite map_map. apply map_ext_in. intros kv Hkv.
  unfold plotted in Hkv. apply filter_In in Hkv. destruct Hkv as [Hin Hp].
  apply andb_true_iff in Hp. destruct Hp as [Hp _].
  rewrite (filter_map_comm (fun kv : string * StatRow => (fst kv, Current (snd kv)))).
  apply lookup_label_In.
  - rewrite map_map. cbn [fst]. now apply NoDup_map_filter.
  - apply in_map_iff. exists kv. split; [reflexivity|]. apply filter_In. now split.
Qed.

Lemma combine_map {A B C} (f : A -> B) (g : A -> C) (l : list A) :
  combine (map f l) (map g l) = map (fun x => (f x, g x)) l.
Proof. induction l as [|x l IH]; [reflexivity|]. cbn. now rewrite IH. Qed.

(** The difference of two columns of a frame, cut to its last rows. *)
Lemma spread_series df n a b i j :
  Pandas.get_loc a (columns df) = Some i -> Pandas.get_loc b (columns df) = Some j ->
  series_tail n (series_sub (Pandas.getcol df a) (Pandas.getcol df b))
  = map (fun r => (fst r, PrimFloat.sub (nth i (snd r) PrimFloat.nan) (nth j (snd r) PrimFloat.nan)))
        (rows (Pandas.tail n df)).
Proof.
  intros Ha Hb. unfold series_tail, series_sub, Pandas.getcol, Pandas.tail.
  rewrite Ha, Hb, combine_map, map_map. cbn [fst snd rows].
  now rewrite length_map, skipn_map.
Qed.

Lemma tail_length n df : (length (rows (Pandas.tail n df)) <= n)%nat.
Proof. unfold Pandas.tail. cbn [rows]. rewrite length_skipn. lia. Qed.

Lemma getcol_length df name :
  Pandas.contains (columns df) name = true ->
  length (Pandas.getcol df name) = length (rows df).
Proof.
  unfold Pandas.contains, Pandas.getcol.
  destruct (Pandas.get_loc name (columns df)); [|discriminate].
  intros _. apply length_map.
Qed.

End Panels.

(** Opens [plot_curve] on a table that is not empty and exposes the figure
    of its first write. *)
Ltac open_figure He :=
  unfold plot_curve; rewrite He; rewrite !trace_bind;
  cbn [now write print emit bind ret val ticks trace app];
  eexists; split; [left; reflexivity|]; cbn [traces zero_line].

(** X14. The first panel of the figure draws one trace: the rows of the
    statistics frame whose current yield is present and whose label has a
    year fraction in the maturity map, in the order of the frame, each label
    with the current yield of its own row.  A row whose current yield is
    missing is left out. *)
Theorem X14_curve_panel
        (env : Env) (df : DataFrame) (stats : Stats) (n_days t : nat) :
  Pandas.empty df = false ->
  List.NoDup (map fst stats) ->
  exists fig,
    In (Wrote "treasury_analysis_plotly.html" (HtmlChart fig))
       (trace (plot_curve env df stats n_days t)) /\
    List.filter (on_panel (1, 1)%nat) (traces fig)
    = [ {| panel := (1, 1)%nat; trace_name := [Str "Current Yield"];
           xs := Labels (map fst (plotted stats));
           ys := map (fun kv => Current (snd kv)) (plotted stats) |} ].
Proof.
  intros He Hnd. open_figure He.
  rewrite curve_labels, (curve_values stats Hnd).
  cbn [List.filter on_panel panel fst snd Nat.eqb andb]. f_equal.
  rewrite !List.filter_app, filter_none.
  - destruct (_ && _); reflexivity.
  - apply List.Forall_forall. intros tr Htr. apply in_map_iff in Htr.
    destruct Htr as (rate & <- & _). reflexivity.
Qed.

Lemma X14_witness :
  exists fig,
    In (Wrote "treasury_analysis_plotly.html" (HtmlChart fig))
       (trace (plot_curve sample_env gap_frame (stats_of gap_frame 90) 90 0%nat)) /\
    List.filter (on_panel (1, 1)%nat) (traces fig)
    = [ {| panel := (1, 1)%nat; trace_name := [Str "Current Yield"];
           xs := Labels (map fst (plotted (stats_of gap_frame 90)));
           ys := map (fun kv => Current (snd kv)) (plotted (stats_of gap_frame 90)) |} ].
Proof.
  apply (X14_curve_panel sample_env gap_frame (stats_of gap_frame 90) 90 0%nat).
  - reflexivity.
  - repeat constructor; simpl; intuition discriminate.
Defined.

(** X15. The spread panel of the figure is all or nothing.  When the table
    has both a 10Y and a 2Y column the panel draws one trace, the 10Y cell
    minus the 2Y cell of each of the last 252 rows under the date of the
    row, and the zero line is drawn; when either column is absent the panel
    draws no trace and no zero line. *)
Theorem X15_spread_panel
        (env : Env) (df : DataFrame) (stats : Stats) (n_days t : nat) :
  Pandas.empty df = false ->
  exists fig,
    In (Wrote "treasury_analysis_plotly.html" (HtmlChart fig))
       (trace (plot_curve env df stats n_days t)) /\
    match Pandas.get_loc "10Y" (columns df), Pandas.get_loc "2Y" (columns df) with
    | Some i, Some j =>
        List.filter (on_panel (2, 1)%nat) (traces fig)
        = [ {| panel := (2, 1)%nat; trace_name := [Str "10Y-2Y Spread"];
               xs := Dates (map fst (rows (Pandas.tail 252 df)));
               ys := map (fun r => PrimFloat.sub (nth i (snd r) PrimFloat.nan)
                                                 (nth j (snd r) PrimFloat.nan))
                         (rows (Pandas.tail 252 df)) |} ] /\
        zero_line fig = true
    | _, _ =>
        List.filter (on_panel (2, 1)%nat) (traces fig) = [] /\ zero_line fig = false
    end.
Proof.
  intros He. open_figure He.
  cbn [List.filter on_panel panel fst snd Nat.eqb andb].
  rewrite !List.filter_app, filter_none.
  2:{ apply List.Forall_forall. intros tr Htr. apply in_map_iff in Htr.
      destruct Htr as (rate & <- & _). reflexivity. }
  unfold Pandas.contains.
  destruct (Pandas.get_loc "10Y" (columns df)) as [i|] eqn:Ei;
    [destruct (Pandas.get_loc "2Y" (columns df)) as [j|] eqn:Ej|];
    cbn [andb List.filter on_panel panel fst snd Nat.eqb app].
  - rewrite (spread_series df 252 "10Y" "2Y" i j Ei Ej), !map_map. cbn [fst snd].
    split; reflexivity.
  - split; reflexivity.
  - split; reflexivity.
Qed.

Lemma X15_witness :
  exists fig,
    In (Wrote "treasury_analysis_plotly.html" (HtmlChart fig))
       (trace (plot_curve sample_env inverted_frame (stats_of inverted_frame 90) 90 0%nat)) /\
    List.filter (on_panel (2, 1)%nat) (traces fig)
    = [ {| panel := (2, 1)%nat; trace_name := [Str "10Y-2Y Spread"];
           xs := Dates (map fst (rows (Pandas.tail 252 inverted_frame)));
           ys := map (fun r => PrimFloat.sub (nth 1 (snd r) PrimFloat.nan)
                                             (nth 0 (snd r) PrimFloat.nan))
                     (rows (Pandas.tail 252 inverted_frame)) |} ] /\
    zero_line fig = true.
Proof.
  apply (X15_spread_panel sample_env inverted_frame (stats_of inverted_frame 90) 90 0%nat).
  reflexivity.
Defined.

(** X16. Every trace of the figure has as many y values as points on its x
    axis; a trace over dates (the trend and spread panels) has at most 252
    points, a trace over labels at most one point per row of the statistics
    frame. *)
Theorem X16_traces_are_aligned
        (env : Env) (df : DataFrame) (stats : Stats) (n_days t : nat) :
  Pandas.empty df = false ->
  exists fig,
    In (Wrote "treasury_analysis_plotly.html" (HtmlChart fig))
       (trace (plot_curve env df stats n_days t)) /\
    Forall (fun tr =>
              length (ys tr) = axis_length (xs tr) /\
              match xs tr with
              | Dates l => (length l <= 252)%nat
              | Labels l => (length l <= length stats)%nat
              end)
           (traces fig).
Proof.
  intros He. open_figure He.
  rewrite curve_labels.
  apply List.Forall_cons; [|repeat apply Forall_app_2].
  - cbn [ys xs axis_length]. rewrite !length_map. split; [reflexivity|].
    unfold plotted. apply List.filter_length_le.
  - apply List.Forall_forall. intros tr Htr. apply in_map_iff in Htr.
    destruct Htr as (rate & <- & Hrate). apply filter_In in Hrate. destruct Hrate as [_ Hc].
    cbn [ys xs axis_length]. rewrite !length_map.
    split; [|apply tail_length].
    apply getcol_length. exact Hc.
  - destruct (_ && _); [|apply List.Forall_nil].
    apply List.Forall_cons; [|apply List.Forall_nil].
    cbn [ys xs axis_length]. rewrite !length_map. split; [reflexivity|].
    unfold series_tail. rewrite length_skipn. lia.
  - repeat (apply List.Forall_cons;
            [cbn [ys xs axis_length]; rewrite !length_map;
             split; [reflexivity|apply List.filter_length_le]|]).
    apply List.Forall_nil.
Qed.

Lemma X16_witness :
  exists fig,
    In (Wrote "treasury_analysis_plotly.html" (HtmlChart fig))
       (trace (plot_curve sample_env quoted_frame (stats_of quoted_frame 90) 90 0%nat)) /\
    Forall (fun tr =>
              length (ys tr) = axis_length (xs tr) /\
              match xs tr with
              | Dates l => (length l <= 252)%nat
              | Labels l => (length l <= length (stats_of quoted_frame 90))%nat
              end)
           (traces fig).
Proof.
  apply (X16_traces_are_aligned sample_env quoted_frame (stats_of quoted_frame 90) 90 0%nat).
  reflexivity.
Defined.

(** ** Composition: statistics, chart and files *)

Section Composition.
Variable env : Env.

Lemma In_get_loc name cols : In name cols -> exists i, Pandas.get_loc name cols = Some i.
Proof.
  induction cols as [|c r IH]; intros Hin; [destruct Hin|].
  cbn [Pandas.get_loc]. destruct (String.eqb_spec c name) as [->|Hne]; [now exists 0%nat|].
  destruct Hin as [E|Hin]; [now destruct Hne|].
  destruct (IH Hin) as (i & ->). now exists (S i).
Qed.

(** Every row of the statistics frame is the row of a column of the table. *)
Lemma stats_of_In df n_days r kv :
  well_formed df -> Pandas.empty df = false -> last (rows df) = Some r ->
  In kv (stats_of df n_days) ->
  exists i,
    Pandas.get_loc (fst kv) (columns df) = Some i /\
    snd kv = {| Current := nth i (snd r) PrimFloat.nan;
                D_Max := Pandas.nanmax (Pandas.column_at (Pandas.tail n_days df) i);
                D_Min := Pandas.nanmin (Pandas.column_at (Pandas.tail n_days df) i);
                D_Median := Pandas.nanmedian (Pandas.column_at (Pandas.tail n_days df) i);
                D_Mean := Pandas.nanmean (Pandas.column_at (Pandas.tail n_days df) i) |}.
Proof.
  intros Hwf He Hlast Hin.
  pose proof (iloc_last_labels df Hwf He) as Hlabels.
  unfold stats_of, stats_frame in Hin. apply in_map_iff in Hin.
  destruct Hin as (name & <- & Hname). cbn [fst snd].
  rewrite Hlabels in Hname. destruct (In_get_loc name (columns df) Hname) as (i & Hloc).
  exists i. split; [exact Hloc|].
  pose proof (stats_of_lookup df n_days name i r Hwf Hlast Hloc) as L.
  unfold stats_of, stats_frame in L.
  rewrite dict_get_map in L by (rewrite Hlabels; unfold Pandas.contains; now rewrite Hloc).
  injection L as L1 L2 L3 L4 L5. f_equal; assumption.
Qed.



(** The writes of a run. *)
Lemma main_writes t :
  let df := val (get_treasury_data env 2 t) in
  exists fig,
    writes (trace (main env t))
    = match fetch_all env 2 t with
      | [] => []
      | _ :: _ => [(data_path (clock env t), CsvFrame df)]
      end
      ++ (if Pandas.empty df then []
          else (summary_path (clock env (S t)),
                CsvRecords [summary_data df (Pandas.iloc_last df)
                                         (primary_of (Pandas.iloc_last df))])
               :: chart_writes env fig) /\
    (Pandas.empty df = false ->
     title fig
     = "US Treasury Analysis - " +:+ Calendar.strftime_Ymd (toordinal (clock env (S (S t))))).
Proof.
  intros df. rewrite main_trace, writes_app, get_treasury_data_writes. fold df.
  destruct (Pandas.empty df) eqn:He.
  - exists {| title := ""; subplot_titles := []; traces := []; zero_line := false |}.
    split; [reflexivity|discriminate].
  - destruct (plot_curve_writes env df (stats_of df 90) 90 (S (S t)) He) as (fig & Hw & Ht).
    exists fig. split; [|intros _; exact Ht]. f_equal.
    rewrite trace_bind, writes_app, analyze_rates_writes, analyze_rates_val, analyze_rates_ticks, He.
    rewrite trace_bind, writes_app, Hw.
    cbn [print emit bind trace]. cbn [writes omap list_omap app]. now rewrite app_nil_r.
Qed.

Lemma write_all_untouched ws (fs : gmap string Content) p :
  Forall (fun pc => fst pc <> p) ws -> write_all ws fs !! p = fs !! p.
Proof.
  intros H. rewrite write_all_lookup, filter_none; [reflexivity|].
  eapply List.Forall_impl; [|exact H]. intros pc Hne. cbn beta.
  now apply String.eqb_neq.
Qed.

End Composition.

(** X17. In the range panel the current yield always lies within the band:
    for a well-formed table that is not empty and a window of at least one
    day, the panel draws the window minimum, the current yield and the
    window maximum of the same rows of the statistics frame (those where all
    three are present), and on each of them minimum <= current <= maximum. *)
Theorem X17_current_within_range_band (env : Env) (df : DataFrame) (n_days t : nat) :
  well_formed df ->
  Pandas.empty df = false ->
  (0 < n_days)%nat ->
  exists band fig,
    In (Wrote "treasury_analysis_plotly.html" (HtmlChart fig))
       (trace (plot_curve env df (stats_of df n_days) n_days t)) /\
    List.filter (on_panel (2, 2)%nat) (traces fig)
    = [ {| panel := (2, 2)%nat; trace_name := [Int n_days; Str "D Min"];
           xs := Labels (map fst band); ys := map (fun kv => D_Min (snd kv)) band |};
        {| panel := (2, 2)%nat; trace_name := [Str "Current"];
           xs := Labels (map fst band); ys := map (fun kv => Current (snd kv)) band |};
        {| panel := (2, 2)%nat; trace_name := [Int n_days; Str "D Max"];
           xs := Labels (map fst band); ys := map (fun kv => D_Max (snd kv)) band |} ] /\
    Forall (fun kv => PrimFloat.leb (D_Min (snd kv)) (Current (snd kv)) = true /\
                      PrimFloat.leb (Current (snd kv)) (D_Max (snd kv)) = true)
           band.
Proof.
  intros Hwf He Hn.
  exists (List.filter (fun kv => F64.notna (Current (snd kv)) && F64.notna (D_Min (snd kv))
                                 && F64.notna (D_Max (snd kv))) (stats_of df n_days)).
  unfold plot_curve; rewrite He; rewrite !trace_bind;
    cbn [now write print emit bind ret val ticks trace app].
  eexists. split; [left; reflexivity|]. cbn [traces]. split.
  - cbn [List.filter on_panel panel fst snd Nat.eqb andb].
    rewrite !List.filter_app, filter_none.
    + destruct (_ && _); reflexivity.
    + apply List.Forall_forall. intros tr Htr. apply in_map_iff in Htr.
      destruct Htr as (rate & <- & _). reflexivity.
  - destruct (nonempty_last df He) as [r Hlast].
    apply List.Forall_forall. intros kv Hkv. apply filter_In in Hkv.
    destruct Hkv as [Hin Hp].
    destruct (stats_of_In df n_days r kv Hwf He Hlast Hin) as (i & _ & Hrow).
    rewrite Hrow in Hp |- *. cbn [Current D_Min D_Max] in Hp |- *.
    apply andb_true_iff in Hp. destruct Hp as [Hp _].
    apply andb_true_iff in Hp. destruct Hp as [Hc _].
    unfold F64.notna in Hc. apply negb_true_iff in Hc.
    apply nanmin_nanmax_enclose; [|exact Hc].
    now apply current_in_window.
Qed.

Lemma X17_witness :
  exists band fig,
    In (Wrote "treasury_analysis_plotly.html" (HtmlChart fig))
       (trace (plot_curve sample_env gap_frame (stats_of gap_frame 90) 90 0%nat)) /\
    List.filter (on_panel (2, 2)%nat) (traces fig)
    = [ {| panel := (2, 2)%nat; trace_name := [Int 90; Str "D Min"];
           xs := Labels (map fst band); ys := map (fun kv => D_Min (snd kv)) band |};
        {| panel := (2, 2)%nat; trace_name := [Str "Current"];
           xs := Labels (map fst band); ys := map (fun kv => Current (snd kv)) band |};
        {| panel := (2, 2)%nat; trace_name := [Int 90; Str "D Max"];
           xs := Labels (map fst band); ys := map (fun kv => D_Max (snd kv)) band |} ] /\
    Forall (fun kv => PrimFloat.leb (D_Min (snd kv)) (Current (snd kv)) = true /\
                      PrimFloat.leb (Current (snd kv)) (D_Max (snd kv)) = true)
           band.
Proof.
  apply (X17_current_within_range_band sample_env gap_frame 90 0%nat).
  - repeat constructor.
  - reflexivity.
  - lia.
Defined.

(** X18. The 5Y-30Y line of [analyze_rates] is all or nothing: on a
    well-formed table that is not empty, the line carrying Current(30Y)
    minus Current(5Y) is printed exactly when the table has both a 5Y and a
    30Y column, and no other line of the analysis is that line. *)
Theorem X18_long_spread_line (env : Env) (df : DataFrame) (n_days t : nat) :
  well_formed df ->
  Pandas.empty df = false ->
  let current := Pandas.iloc_last df in
  let spread := PrimFloat.sub (Pandas.getitem current "30Y") (Pandas.getitem current "5Y") in
  In (Printed (Text [Str "5Y-30Y: "; Flt "+.3f" spread; Str "%"]) true)
     (trace (analyze_rates env df n_days t))
  <-> Pandas.contains (columns df) "5Y" && Pandas.contains (columns df) "30Y" = true.
Proof.
  intros Hwf He current spread.
  pose proof (iloc_last_labels df Hwf He) as Hlabels. fold current in Hlabels.
  unfold analyze_rates. rewrite He. fold current.
  rewrite !trace_bind. cbn [print print_table emit now write bind ret val ticks trace].
  rewrite print_yields_trace, primary_spread_trace.
  assert (H3 : trace (spread_3m10y current
                        (ticks (primary_spread current (ticks (print_yields current order t)))))
               = [] \/
               exists x, trace (spread_3m10y current
                        (ticks (primary_spread current (ticks (print_yields current order t)))))
               = [Printed (Text [Str "3M-10Y: "; Flt "+.3f" x; Str "%"]) true]).
  { unfold spread_3m10y. destruct (_ && _); [right; eexists; reflexivity|now left]. }
  unfold spread_5y30y at 1. rewrite Hlabels. fold spread.
  split.
  - intros H. destruct (Pandas.contains (columns df) "5Y" && Pandas.contains (columns df) "30Y");
      [reflexivity|exfalso].
    cbn [trace ret app] in H.
    do 2 (destruct H as [H|H]; [discriminate H|]).
    apply in_app_or in H. destruct H as [H|H]; [|apply in_app_or in H; destruct H as [H|H];
                                                  [|apply in_app_or in H; destruct H as [H|H]]].
    4:{ repeat (destruct H as [H|H]; [discriminate H|]). now destruct H. }
    + apply in_map_iff in H. destruct H as (m & E & _). discriminate E.
    + destruct (primary_of current) as [[s lbl]|];
        repeat (destruct H as [H|H]; [discriminate H|]); now destruct H.
    + destruct H3 as [E|[x E]]; rewrite E in H;
        repeat (destruct H as [H|H]; [discriminate H|]); now destruct H.
  - intros ->. cbn [trace print emit bind ret app].
    do 2 right. do 3 (apply in_or_app; right). now left.
Qed.

Lemma X18_witness :
  In (Printed (Text [Str "5Y-30Y: ";
                     Flt "+.3f" (PrimFloat.sub (Pandas.getitem (Pandas.iloc_last quoted_frame) "30Y")
                                               (Pandas.getitem (Pandas.iloc_last quoted_frame) "5Y"));
                     Str "%"]) true)
     (trace (analyze_rates sample_env quoted_frame 90 0%nat))
  <-> Pandas.contains (columns quoted_frame) "5Y" && Pandas.contains (columns quoted_frame) "30Y"
      = true.
Proof.
  apply (X18_long_spread_line sample_env quoted_frame 90 0%nat).
  - repeat constructor.
  - reflexivity.
Defined.



(** X20. A run touches only its own files: a file under any other name than
    the data file of the first clock reading, the summary file of the second
    and the two chart files is left as it was, so the dated files of
    earlier days stay; and when the renderer fails, the static image of an
    earlier run is left as it was too. *)
Theorem X20_run_touches_only_its_files
        (env : Env) (t : nat) (fs : gmap string Content) (p : string) :
  p <> data_path (clock env t) ->
  p <> summary_path (clock env (S t)) ->
  p <> "treasury_analysis_plotly.html" ->
  p <> "treasury_analysis.png" \/ write_image env <> None ->
  files_after (trace (main env t)) fs !! p = fs !! p.
Proof.
  intros Hd Hs Hh Hp. rewrite files_after_writes.
  destruct (main_writes env t) as (fig & -> & _).
  apply write_all_untouched. apply Forall_app_2.
  - destruct (fetch_all env 2 t); repeat constructor. cbn [fst]. congruence.
  - destruct (Pandas.empty _); [constructor|].
    apply List.Forall_cons; [cbn [fst]; congruence|].
    unfold chart_writes. apply List.Forall_cons; [cbn [fst]; congruence|].
    destruct (write_image env) as [e|]; [constructor|].
    apply List.Forall_cons; [|constructor]. cbn [fst].
    destruct Hp as [Hp|Hp]; [congruence|now destruct Hp].
Qed.

Lemma X20_witness :
  files_after (trace (main (two_series_env 0 None) 0%nat))
              (<["treasury_data_20241102.csv" := CsvFrame quoted_frame]> ∅)
    !! "treasury_data_20241102.csv"
  = (<["treasury_data_20241102.csv" := CsvFrame quoted_frame]> ∅ : gmap string Content)
    !! "treasury_data_20241102.csv".
Proof.
  apply (X20_run_touches_only_its_files (two_series_env 0 None) 0%nat).
  - vm_compute. discriminate.
  - vm_compute. discriminate.
  - discriminate.
  - left. discriminate.
Defined.

(** ** Dates of the table, and failed requests in the summary *)

Section DateOrder.

Lemma insert_date_In d l x : In x (Pandas.insert_date d l) <-> x = d \/ In x l.
Proof.
  induction l as [|y r IH]; cbn [Pandas.insert_date].
  - cbn. intuition congruence.
  - destruct (Z.ltb_spec d y) as [Hlt|Hge]; [cbn; intuition congruence|].
    destruct (Z.eqb_spec d y) as [->|Hne]; [cbn; intuition congruence|].
    cbn [In]. rewrite IH. intuition congruence.
Qed.

Lemma insert_date_sorted d l :
  StronglySorted Z.lt l -> StronglySorted Z.lt (Pandas.insert_date d l).
Proof.
  induction 1 as [|y r Hr IH Hy]; cbn [Pandas.insert_date].
  - repeat constructor.
  - destruct (Z.ltb_spec d y) as [Hlt|Hge].
    + constructor; [now constructor|]. constructor; [exact Hlt|].
      eapply List.Forall_impl; [|exact Hy]. cbn beta. intros z Hz. lia.
    + destruct (Z.eqb_spec d y) as [->|Hne]; [now constructor|].
      constructor; [exact IH|]. apply List.Forall_forall. intros z Hz.
      apply insert_date_In in Hz. destruct Hz as [->|Hz]; [lia|].
      rewrite List.Forall_forall in Hy. now apply Hy.
Qed.

Lemma union_index_sorted ss : StronglySorted Z.lt (Pandas.union_index ss).
Proof.
  unfold Pandas.union_index.
  assert (H : forall acc, StronglySorted Z.lt acc ->
            StronglySorted Z.lt
              (fold_left (fun acc (s : Series) =>
                            fold_left (fun a p => Pandas.insert_date (fst p) a) s acc) ss acc)).
  { induction ss as [|s ss IH]; intros acc Hacc; [exact Hacc|].
    cbn [fold_left]. apply IH. clear IH. revert acc Hacc.
    induction s as [|p s IHs]; intros acc Hacc; [exact Hacc|].
    cbn [fold_left]. apply IHs. now apply insert_date_sorted. }
  apply H. constructor.
Qed.

Lemma sorted_map_filter {A} (f : A -> Z) (p : A -> bool) (l : list A) :
  StronglySorted Z.lt (map f l) -> StronglySorted Z.lt (map f (List.filter p l)).
Proof.
  induction l as [|x l IH]; intros Hs; [constructor|].
  cbn [map] in Hs. inversion Hs as [|? ? Hl Hx]; subst. cbn [List.filter].
  destruct (p x); [|now apply IH]. cbn [map]. constructor; [now apply IH|].
  apply List.Forall_forall. intros z Hz. apply in_map_iff in Hz.
  destruct Hz as (y & <- & Hy). apply filter_In in Hy.
  rewrite List.Forall_forall in Hx. apply Hx. apply in_map. tauto.
Qed.

Lemma sorted_last_max (l : list Z) m x :
  StronglySorted Z.lt l -> last l = Some m -> In x l -> x <= m.
Proof.
  intros Hs Hl Hin. apply last_Some in Hl. destruct Hl as [l' ->].
  apply in_app_or in Hin. destruct Hin as [Hin|[<-|[]]]; [|lia].
  induction l' as [|y l' IH]; [destruct Hin|].
  cbn [app] in Hs. inversion Hs as [|? ? Hl Hy]; subst.
  destruct Hin as [->|Hin]; [|now apply IH].
  rewrite List.Forall_forall in Hy. assert (x < m); [|lia].
  apply Hy. apply in_or_app. right. now left.
Qed.

Lemma get_treasury_data_dates_sorted env years t :
  StronglySorted Z.lt (map fst (rows (val (get_treasury_data env years t)))).
Proof.
  rewrite get_treasury_data_val. cbn [Pandas.dropna_all Pandas.DataFrame_of_dict rows].
  apply sorted_map_filter. rewrite map_map. cbn [fst]. rewrite map_id.
  apply union_index_sorted.
Qed.

Lemma last_of_map {A B} (f : A -> B) (l : list A) :
  last (map f l) = option_map f (last l).
Proof.
  induction l as [|x l IH]; [reflexivity|].
  destruct l as [|y l]; [reflexivity|]. exact IH.
Qed.

Lemma index_last_map df :
  Pandas.index_last df = match last (map fst (rows df)) with Some d => d | None => 0 end.
Proof.
  unfold Pandas.index_last. rewrite last_of_map. now destruct (last (rows df)).
Qed.

End DateOrder.

Section FailedRequests.
Variable env : Env.

Lemma NoDup_keys_inj {V} (l : list (string * V)) a b :
  List.NoDup (map fst l) -> In a l -> In b l -> fst a = fst b -> a = b.
Proof.
  induction l as [|x l IH]; intros Hnd Ha Hb E; [destruct Ha|].
  inversion Hnd as [|? ? Hnotin Hnd']; subst.
  destruct Ha as [<-|Ha], Hb as [<-|Hb].
  - reflexivity.
  - exfalso. apply Hnotin. rewrite E. now apply in_map.
  - exfalso. apply Hnotin. rewrite <- E. now apply in_map.
  - now apply IH.
Qed.

Lemma contains_of_In labels name : In name labels -> Pandas.contains labels name = true.
Proof.
  intros H. unfold Pandas.contains. destruct (In_get_loc name labels H) as (i & ->). reflexivity.
Qed.

Lemma contains_filter_keys (p : string * string -> bool) items item :
  List.NoDup (map fst items) -> In item items ->
  Pandas.contains (map fst (List.filter p items)) (fst item) = p item.
Proof.
  intros Hnd Hin. destruct (p item) eqn:Hp.
  - apply contains_of_In, in_map, filter_In. now split.
  - apply not_true_iff_false. intros Hc. apply contains_In in Hc.
    apply in_map_iff in Hc. destruct Hc as (item' & E & Hin').
    apply filter_In in Hin'. destruct Hin' as [Hin' Hp'].
    assert (item' = item) by (eapply NoDup_keys_inj; eassumption).
    subst item'. congruence.
Qed.

Lemma classify_status_not_na s : snd (classify s) <> "N/A".
Proof.
  unfold classify. destruct (PrimFloat.ltb s 0); [discriminate|].
  destruct (PrimFloat.ltb s 0.5); discriminate.
Qed.

Lemma summary_status df current primary :
  dict_get (summary_data df current primary) "inversion_status"
  = Some (VStr match primary with Some (_, status) => status | None => "N/A" end).
Proof. destruct primary as [[s status]|]; reflexivity. Qed.

End FailedRequests.

Lemma run_contains env years t item :
  In item series ->
  Pandas.empty (val (get_treasury_data env years t)) = false ->
  Pandas.contains (Pandas.labels (Pandas.iloc_last (val (get_treasury_data env years t)))) (fst item)
  = fetched env (minus_days (clock env t) (365 * years)) (clock env t) item.
Proof.
  intros Hin He.
  rewrite iloc_last_labels by (try apply get_treasury_data_well_formed; exact He).
  rewrite get_treasury_data_columns, answered_keys.
  now apply contains_filter_keys; [apply series_keys_ListNoDup|].
Qed.

Lemma primary_of_none_iff current :
  primary_of current = None
  <-> Pandas.contains (Pandas.labels current) "2Y" = false
      \/ Pandas.contains (Pandas.labels current) "10Y" = false.
Proof.
  unfold primary_of, both_present.
  destruct (Pandas.contains (Pandas.labels current) "2Y"),
           (Pandas.contains (Pandas.labels current) "10Y"); cbn [andb];
    split; intros H; try reflexivity; try discriminate H; try tauto;
    destruct H as [H|H]; discriminate H.
Qed.

Lemma primary_status_not_na current s status :
  primary_of current = Some (s, status) -> status <> "N/A".
Proof.
  unfold primary_of. destruct (both_present current); [|discriminate].
  intros H. injection H as _ <-. apply classify_status_not_na.
Qed.


(** X21. When every answered series comes in strictly ascending date order
    (as the provider gives them), the rows of the table that
    [get_treasury_data] returns are in strictly ascending date order, so no
    date occurs twice and the date of the last row, which the snapshot and
    the summary carry, is the latest date of the table. *)
Theorem X21_rows_in_date_order (env : Env) (years : Z) (t : nat) :
  let df := val (get_treasury_data env years t) in
  (forall item rates,
     In item series ->
     get_data_fred env (snd item) (minus_days (clock env t) (365 * years)) (clock env t)
     = inr rates ->
     StronglySorted Z.lt (map fst rates)) ->
  StronglySorted Z.lt (map fst (rows df)) /\
  forall r, In r (rows df) -> fst r <= Pandas.index_last df.
Proof.
  intros df _. subst df.
  pose proof (get_treasury_data_dates_sorted env years t) as Hs.
  split; [exact Hs|]. intros r Hr. rewrite index_last_map.
  destruct (last (map fst (rows (val (get_treasury_data env years t))))) as [m|] eqn:El.
  - eapply sorted_last_max; [exact Hs|exact El|now apply in_map].
  - apply last_None in El. apply (in_map fst) in Hr. rewrite El in Hr. destruct Hr.
Qed.

Lemma X21_witness :
  StronglySorted Z.lt (map fst (rows (val (get_treasury_data (two_series_env 0 None) 2 0%nat)))) /\
  forall r, In r (rows (val (get_treasury_data (two_series_env 0 None) 2 0%nat))) ->
            fst r <= Pandas.index_last (val (get_treasury_data (two_series_env 0 None) 2 0%nat)).
Proof.
  apply (X21_rows_in_date_order (two_series_env 0 None) 2 0%nat).
  intros item rates Hin. cbn [two_series_env get_data_fred].
  destruct (String.eqb (snd item) "DGS2").
  - intros H. injection H as <-. repeat constructor.
  - destruct (String.eqb (snd item) "DGS10"); [|discriminate].
    intros H. injection H as <-. repeat constructor.
Defined.


(** X22. In a run whose table is not empty, the summary records the
    inversion status "N/A" exactly when the request for the 2Y series or the
    request for the 10Y series failed; a failure of any other request does
    not change the classification. *)
Theorem X22_summary_na_iff_request_failed (env : Env) (t : nat) :
  let df := val (get_treasury_data env 2 t) in
  let current := Pandas.iloc_last df in
  let failed := fun item =>
    fetched env (minus_days (clock env t) (365 * 2)) (clock env t) item = false in
  Pandas.empty df = false ->
  (dict_get (summary_data df current (primary_of current)) "inversion_status" = Some (VStr "N/A")
   <-> failed ("2Y", "DGS2") \/ failed ("10Y", "DGS10")) /\
  (primary_of current = None <-> failed ("2Y", "DGS2") \/ failed ("10Y", "DGS10")).
Proof.
  intros df current failed He. subst failed. cbn beta.
  pose proof (run_contains env 2 t ("2Y", "DGS2")) as H2.
  pose proof (run_contains env 2 t ("10Y", "DGS10")) as H10.
  fold df in H2, H10. fold current in H2, H10. cbn [fst] in H2, H10.
  rewrite <- H2, <- H10.
  - clearbody current. clearbody df. clear H2 H10.
    rewrite <- primary_of_none_iff. split; [|reflexivity].
    rewrite summary_status.
    destruct (primary_of current) as [[s status]|] eqn:Ep; [|split; reflexivity].
    split; [|discriminate]. intros H. injection H as H.
    now apply primary_status_not_na in Ep.
  - unfold series. cbn [In]. tauto.
  - exact He.
  - unfold series. cbn [In]. tauto.
  - exact He.
Qed.

Lemma X22_witness :
  (dict_get (summary_data (val (get_treasury_data (two_series_env 0 None) 2 0%nat))
               (Pandas.iloc_last (val (get_treasury_data (two_series_env 0 None) 2 0%nat)))
               (primary_of
                  (Pandas.iloc_last (val (get_treasury_data (two_series_env 0 None) 2 0%nat)))))
            "inversion_status" = Some (VStr "N/A")
   <-> fetched (two_series_env 0 None) (minus_days (clock (two_series_env 0 None) 0%nat) (365 * 2))
               (clock (two_series_env 0 None) 0%nat) ("2Y", "DGS2") = false
       \/ fetched (two_series_env 0 None) (minus_days (clock (two_series_env 0 None) 0%nat) (365 * 2))
                  (clock (two_series_env 0 None) 0%nat) ("10Y", "DGS10") = false) /\
  (primary_of (Pandas.iloc_last (val (get_treasury_data (two_series_env 0 None) 2 0%nat))) = None
   <-> fetched (two_series_env 0 None) (minus_days (clock (two_series_env 0 None) 0%nat) (365 * 2))
               (clock (two_series_env 0 None) 0%nat) ("2Y", "DGS2") = false
       \/ fetched (two_series_env 0 None) (minus_days (clock (two_series_env 0 None) 0%nat) (365 * 2))
                  (clock (two_series_env 0 None) 0%nat) ("10Y", "DGS10") = false).
Proof.
  apply (X22_summary_na_iff_request_failed (two_series_env 0 None) 0%nat).
  reflexivity.
Defined.

(** ** Columns with gaps on a valid table *)

Section Gaps.

Lemma filter_notna_idem xs :
  List.filter F64.notna (List.filter F64.notna xs) = List.filter F64.notna xs.
Proof.
  induction xs as [|x xs IH]; [reflexivity|]. cbn [List.filter].
  destruct (F64.notna x) eqn:E; [|exact IH]. cbn [List.filter]. now rewrite E, IH.
Qed.

Lemma nanmedian_present xs :
  Pandas.nanmedian xs = Pandas.nanmedian (List.filter F64.notna xs).
Proof. unfold Pandas.nanmedian. now rewrite filter_notna_idem. Qed.

(** On valid cells the extremes that skip the missing cells are attained
    by present cells. *)
Lemma nanmin_attained xs :
  Forall (fun c => valid_cell c = true) xs -> (Pandas.count xs =? 0)%nat = false ->
  In (Pandas.nanmin xs) xs /\ F64.isna (Pandas.nanmin xs) = false.
Proof.
  intros Hv Hc. destruct (count_pos_present xs Hc) as (x & Hx & Hxn).
  destruct (nanmin_nanmax_enclose xs x Hx Hxn) as [Hle _].
  assert (Hn : F64.isna (Pandas.nanmin xs) = false) by now apply leb_notna in Hle.
  split; [|exact Hn].
  unfold Pandas.nanmin in *. rewrite Hc in *.
  destruct xs as [|y r]; [destruct Hx|].
  cbn [Pandas.fillna map F64.reduce] in *.
  pose proof (fold_minimum_in
                (map (fun x => if F64.isna x then PrimFloat.infinity else x) r)
                (if F64.isna y then PrimFloat.infinity else y)) as Hin.
  change (In (fold_left F64.minimum
                (map (fun x => if F64.isna x then PrimFloat.infinity else x) r)
                (if F64.isna y then PrimFloat.infinity else y))
             (map (fun x => if F64.isna x then PrimFloat.infinity else x) (y :: r)))
    in Hin.
  apply in_map_iff in Hin. destruct Hin as (c & Hc' & Hcin).
  destruct (F64.isna c) eqn:Ec; [|now rewrite <- Hc'].
  exfalso. rewrite <- Hc' in Hle.
  rewrite List.Forall_forall in Hv. specialize (Hv x Hx).
  unfold valid_cell in Hv. rewrite Hxn in Hv. cbn [orb] in Hv.
  unfold valid_yield in Hv. apply andb_true_iff in Hv. destruct Hv as [_ H100].
  pose proof (leb_trans _ _ _ Hle H100) as Habs. vm_compute in Habs. discriminate Habs.
Qed.

Lemma nanmax_attained xs :
  Forall (fun c => valid_cell c = true) xs -> (Pandas.count xs =? 0)%nat = false ->
  In (Pandas.nanmax xs) xs /\ F64.isna (Pandas.nanmax xs) = false.
Proof.
  intros Hv Hc. destruct (count_pos_present xs Hc) as (x & Hx & Hxn).
  destruct (nanmin_nanmax_enclose xs x Hx Hxn) as [_ Hle].
  assert (Hn : F64.isna (Pandas.nanmax xs) = false) by now apply leb_notna in Hle.
  split; [|exact Hn].
  unfold Pandas.nanmax in *. rewrite Hc in *.
  destruct xs as [|y r]; [destruct Hx|].
  cbn [Pandas.fillna map F64.reduce] in *.
  pose proof (fold_maximum_in
                (map (fun x => if F64.isna x then PrimFloat.neg_infinity else x) r)
                (if F64.isna y then PrimFloat.neg_infinity else y)) as Hin.
  change (In (fold_left F64.maximum
                (map (fun x => if F64.isna x then PrimFloat.neg_infinity else x) r)
                (if F64.isna y then PrimFloat.neg_infinity else y))
             (map (fun x => if F64.isna x then PrimFloat.neg_infinity else x) (y :: r)))
    in Hin.
  apply in_map_iff in Hin. destruct Hin as (c & Hc' & Hcin).
  destruct (F64.isna c) eqn:Ec; [|now rewrite <- Hc'].
  exfalso. rewrite <- Hc' in Hle.
  rewrite List.Forall_forall in Hv. specialize (Hv x Hx).
  unfold valid_cell in Hv. rewrite Hxn in Hv. cbn [orb] in Hv.
  unfold valid_yield in Hv. apply andb_true_iff in Hv. destruct Hv as [H0 _].
  pose proof (leb_trans _ _ _ H0 Hle) as Habs. vm_compute in Habs. discriminate Habs.
Qed.

Lemma valid_present c : valid_cell c = true -> F64.isna c = false -> valid_yield c = true.
Proof. unfold valid_cell. intros H Hn. now rewrite Hn in H. Qed.

End Gaps.

(** X23. On a valid table that is not empty (every present yield between 0
    and 100), for a column that has at least one present cell in the window,
    missing cells included: the window minimum and maximum are present cells
    of the window, and 0 <= minimum <= median <= maximum <= 100. *)
Theorem X23_statistics_of_a_column_with_gaps
        (env : Env) (df : DataFrame) (n_days t : nat) (name : string) (i : nat) :
  Pandas.empty df = false ->
  valid_table df ->
  Pandas.get_loc name (columns df) = Some i ->
  let window := Pandas.column_at (Pandas.tail n_days df) i in
  (Pandas.count window =? 0)%nat = false ->
  exists stats row,
    val (analyze_rates env df n_days t) = Some stats /\
    dict_get stats name = Some row /\
    In (D_Min row) window /\ In (D_Max row) window /\
    PrimFloat.leb 0 (D_Min row) = true /\
    PrimFloat.leb (D_Min row) (D_Median row) = true /\
    PrimFloat.leb (D_Median row) (D_Max row) = true /\
    PrimFloat.leb (D_Max row) 100 = true.
Proof.
  intros Hne Hvalid Hloc window Hc.
  destruct (nonempty_last df Hne) as [r Hlast].
  pose proof (valid_table_column df n_days i Hvalid) as Hcells. fold window in Hcells.
  destruct (nanmin_attained window Hcells Hc) as [Hmin Hminn].
  destruct (nanmax_attained window Hcells Hc) as [Hmax Hmaxn].
  assert (Hv : forall c, In c window -> F64.isna c = false -> valid_yield c = true).
  { intros c Hin Hn. apply valid_present; [|exact Hn].
    rewrite List.Forall_forall in Hcells. now apply Hcells. }
  set (present := List.filter F64.notna window).
  assert (Hpv : Forall (fun x => valid_yield x = true) present).
  { apply List.Forall_forall. intros c Hcin. apply filter_In in Hcin.
    destruct Hcin as [Hin Hn]. unfold F64.notna in Hn. apply negb_true_iff in Hn. now apply Hv. }
  assert (Hpne : present <> []).
  { intros E. unfold Pandas.count in Hc. fold present in Hc. rewrite E in Hc. discriminate Hc. }
  destruct (nanmedian_between present Hpne Hpv) as (lo & hi & Hlo & Hhi & Hlm & Hmh).
  unfold present in Hlo, Hhi. apply filter_In in Hlo, Hhi.
  destruct Hlo as [Hlo Hlon], Hhi as [Hhi Hhin].
  unfold F64.notna in Hlon, Hhin. apply negb_true_iff in Hlon, Hhin.
  fold present in Hlm, Hmh. unfold present in Hlm, Hmh.
  rewrite <- nanmedian_present in Hlm, Hmh.
  eexists _, _. split; [rewrite analyze_rates_val, Hne; reflexivity|].
  split; [apply (stats_of_lookup df n_days name i r (proj1 Hvalid) Hlast Hloc)|].
  cbn [D_Max D_Min D_Median]. fold window.
  split; [exact Hmin|]. split; [exact Hmax|].
  pose proof (Hv _ Hmin Hminn) as Hvmin. pose proof (Hv _ Hmax Hmaxn) as Hvmax.
  unfold valid_yield in Hvmin, Hvmax. apply andb_true_iff in Hvmin, Hvmax.
  split; [tauto|]. split; [|split; [|tauto]].
  - exact (leb_trans _ _ _ (proj1 (nanmin_nanmax_enclose window lo Hlo Hlon)) Hlm).
  - exact (leb_trans _ _ _ Hmh (proj2 (nanmin_nanmax_enclose window hi Hhi Hhin))).
Qed.

Lemma X23_witness :
  exists stats row,
    val (analyze_rates sample_env gap_frame 90 0%nat) = Some stats /\
    dict_get stats "10Y" = Some row /\
    In (D_Min row) (Pandas.column_at (Pandas.tail 90 gap_frame) 1) /\
    In (D_Max row) (Pandas.column_at (Pandas.tail 90 gap_frame) 1) /\
    PrimFloat.leb 0 (D_Min row) = true /\
    PrimFloat.leb (D_Min row) (D_Median row) = true /\
    PrimFloat.leb (D_Median row) (D_Max row) = true /\
    PrimFloat.leb (D_Max row) 100 = true.
Proof.
  apply (X23_statistics_of_a_column_with_gaps sample_env gap_frame 90 0%nat "10Y" 1).
  - reflexivity.
  - split; repeat constructor.
  - reflexivity.
  - reflexivity.
Defined.

(** X24. No write of a run overwrites another: after a run whose table is
    not empty, the data file holds the table, the summary file holds the
    summary record, the interactive chart holds the figure and, when the
    renderer works, the static image holds the same figure, whatever the
    directory held before. *)
Theorem X24_run_leaves_its_files (env : Env) (t : nat) (fs : gmap string Content) :
  let df := val (get_treasury_data env 2 t) in
  let after := files_after (trace (main env t)) fs in
  Pandas.empty df = false ->
  after !! data_path (clock env t) = Some (CsvFrame df) /\
  after !! summary_path (clock env (S t))
  = Some (CsvRecords [summary_data df (Pandas.iloc_last df) (primary_of (Pandas.iloc_last df))]) /\
  exists fig,
    after !! "treasury_analysis_plotly.html" = Some (HtmlChart fig) /\
    (write_image env = None -> after !! "treasury_analysis.png" = Some (PngChart fig)).
Proof.
  intros df after He. subst after. rewrite files_after_writes.
  destruct (nonempty_fetch_all env 2 t He) as (kv & rest & Hdata).
  destruct (main_writes env t) as (fig & Hw & _). fold df in Hw. rewrite Hw, Hdata, He.
  clearbody df. clear Hw Hdata.
  set (summary := CsvRecords _).
  assert (Hds : data_path (clock env t) <> summary_path (clock env (S t))).
  { unfold data_path, summary_path. cbn [String.append]. intros H. discriminate H. }
  destruct (dated_path_not_chart "treasury_data_" (toordinal (clock env t))
              (data_path (clock env t)) eq_refl (or_introl eq_refl)) as [Hdh Hdp].
  destruct (dated_path_not_chart "treasury_summary_" (toordinal (clock env (S t)))
              (summary_path (clock env (S t))) eq_refl (or_intror eq_refl)) as [Hsh Hsp].
  assert (Hhp : "treasury_analysis_plotly.html" <> "treasury_analysis.png") by discriminate.
  generalize dependent (data_path (clock env t)).
  generalize dependent (summary_path (clock env (S t))).
  intros sp Hsh Hsp dp Hds Hdh Hdp.
  unfold chart_writes, write_all.
  destruct (write_image env) as [e|]; cbn [app fold_left fst snd].
  - split; [now rewrite !lookup_insert_ne, lookup_insert_eq by congruence|].
    split; [now rewrite !lookup_insert_ne, lookup_insert_eq by congruence|].
    exists fig. split; [now rewrite lookup_insert_eq|discriminate].
  - split; [now rewrite !lookup_insert_ne, lookup_insert_eq by congruence|].
    split; [now rewrite !lookup_insert_ne, lookup_insert_eq by congruence|].
    exists fig. split; [now rewrite lookup_insert_ne, lookup_insert_eq by congruence|].
    intros _. now rewrite lookup_insert_eq.
Qed.

Lemma X24_witness :
  files_after (trace (main (two_series_env 0 None) 0%nat)) ∅
    !! data_path (clock (two_series_env 0 None) 0%nat)
  = Some (CsvFrame (val (get_treasury_data (two_series_env 0 None) 2 0%nat))) /\
  files_after (trace (main (two_series_env 0 None) 0%nat)) ∅
    !! summary_path (clock (two_series_env 0 None) 1%nat)
  = Some (CsvRecords
            [summary_data (val (get_treasury_data (two_series_env 0 None) 2 0%nat))
               (Pandas.iloc_last (val (get_treasury_data (two_series_env 0 None) 2 0%nat)))
               (primary_of
                  (Pandas.iloc_last (val (get_treasury_data (two_series_env 0 None) 2 0%nat))))]) /\
  exists fig,
    files_after (trace (main (two_series_env 0 None) 0%nat)) ∅ !! "treasury_analysis_plotly.html"
    = Some (HtmlChart fig) /\
    (write_image (two_series_env 0 None) = None ->
     files_after (trace (main (two_series_env 0 None) 0%nat)) ∅ !! "treasury_analysis.png"
     = Some (PngChart fig)).
Proof.
  apply (X24_run_leaves_its_files (two_series_env 0 None) 0%nat ∅).
  reflexivity.
Defined.

